(** * HawkFuel (NutriNote) cloud sync service

    A shallow embedding of [src/services/syncService.js] and of the
    auth state-change handler of [src/contexts/AuthContext.js].

    The asynchronous functions of the service are modelled in a state and
    error monad over a [World]: the remote document store, the browser's
    local storage, the local recipe and template collections, the clock,
    and the trace of every remote call, local write, notification and
    console message, in program order.  Whether a remote call is rejected
    is decided by an arbitrary function of the trace so far and of the
    call, so that theorems quantify over every behaviour of the
    transport. *)

From stdpp Require Import gmap strings list fin_maps pretty.

Local Open Scope string_scope.
Local Open Scope Z_scope.
Local Open Scope list_scope.

(** ** JSON values and the JavaScript operations the service applies to them *)

#[warnings="-register-all"]
Inductive JVal : Type :=
| JNull
| JBool (b : bool)
| JNum (n : Z)
| JStr (s : string)
| JArr (l : list JVal)
| JObj (m : gmap string JVal).

(** A Firestore document: a map from field names to values. *)
Abbreviation Doc := (gmap string JVal).

(** What a promise can be rejected with, or a statement can throw. *)
Inductive Call : Type :=
| GetDoc (userId docId : string)
| SetDoc (userId docId : string) (data : Doc)
| DeleteDoc (userId docId : string)
| BatchCommit (userId : string) (writes : list (string * Doc))
| GetAllRecipes
| SaveRecipe (recipe : JVal)
| GetAllTemplates
| SaveTemplate (template : JVal).

Inductive Exn : Type :=
| TypeError
| InvalidFirestore
| Rejected (c : Call).

(** Local Store slots.  [STORAGE_KEYS] is imported from
    [utils/localStorage], which is not part of the sources at hand: the
    slots are an enumeration named after its members ([LAST_SYNC] is the
    slot behind [saveLastSyncTime]). *)
Inductive Slot : Type :=
| USER_PROFILE | DAILY_TARGET | MACRO_GOALS | MICRONUTRIENT_GOALS
| PREFERENCES | FOOD_LOG | EXERCISE_LOG | WEEKLY_HISTORY | WATER_LOG
| RECENT_FOODS | FAVORITE_FOODS | WEIGHT_LOG | STREAK_DATA | FOOD_HISTORY
| CURRENT_DATE | ONBOARDING | LAST_SYNC.

Definition slot_index (s : Slot) : nat :=
  match s with
  | USER_PROFILE => 0 | DAILY_TARGET => 1 | MACRO_GOALS => 2
  | MICRONUTRIENT_GOALS => 3 | PREFERENCES => 4 | FOOD_LOG => 5
  | EXERCISE_LOG => 6 | WEEKLY_HISTORY => 7 | WATER_LOG => 8
  | RECENT_FOODS => 9 | FAVORITE_FOODS => 10 | WEIGHT_LOG => 11
  | STREAK_DATA => 12 | FOOD_HISTORY => 13 | CURRENT_DATE => 14
  | ONBOARDING => 15 | LAST_SYNC => 16
  end%nat.

Definition slot_of_index (n : nat) : option Slot :=
  match n with
  | 0 => Some USER_PROFILE | 1 => Some DAILY_TARGET | 2 => Some MACRO_GOALS
  | 3 => Some MICRONUTRIENT_GOALS | 4 => Some PREFERENCES
  | 5 => Some FOOD_LOG | 6 => Some EXERCISE_LOG | 7 => Some WEEKLY_HISTORY
  | 8 => Some WATER_LOG | 9 => Some RECENT_FOODS | 10 => Some FAVORITE_FOODS
  | 11 => Some WEIGHT_LOG | 12 => Some STREAK_DATA | 13 => Some FOOD_HISTORY
  | 14 => Some CURRENT_DATE | 15 => Some ONBOARDING | 16 => Some LAST_SYNC
  | _ => None
  end%nat.

Global Instance Slot_eq_dec : EqDecision Slot.
Proof. solve_decision. Defined.

Global Instance Slot_countable : Countable Slot.
Proof.
  apply (inj_countable slot_index slot_of_index).
  intros []; reflexivity.
Defined.

(** Everything the service does that an observer can see. *)
Inductive Event : Type :=
| Attempt (c : Call) (ok : bool)
| LocalSet (s : Slot) (v : JVal)
| SyncComplete (time : string)
| ConsoleError (msg : string) (e : Exn).

Module Js.

(** [if (v)], [v || d], [!v]. *)
Definition truthy (v : JVal) : bool :=
  match v with
  | JNull => false
  | JBool b => b
  | JNum n => negb (Z.eqb n 0)
  | JStr s => negb (String.eqb s "")
  | JArr _ | JObj _ => true
  end.

(** A property read yields [None] for JavaScript's [undefined]. *)
Definition truthy_opt (o : option JVal) : bool :=
  match o with Some v => truthy v | None => false end.

(** [o != null]: neither [null] nor [undefined]. *)
Definition not_nullish (o : option JVal) : bool :=
  match o with Some JNull | None => false | Some _ => true end.

(** [o || d] *)
Definition or_else (o : option JVal) (d : JVal) : JVal :=
  match o with
  | Some v => if truthy v then v else d
  | None => d
  end.

(** [o ?? d] *)
Definition coalesce (o : option JVal) (d : JVal) : JVal :=
  match o with
  | Some JNull | None => d
  | Some v => v
  end.

(** [v.k] for an identifier [k].  Reading a property of [null] throws
    (outer [None]); arrays and strings own [length]; the service never
    reads an index key. *)
Definition prop (v : JVal) (k : string) : option (option JVal) :=
  match v with
  | JNull => None
  | JObj m => Some (m !! k)
  | JArr l =>
      Some (if String.eqb k "length" then Some (JNum (Z.of_nat (length l)))
            else None)
  | JStr s =>
      Some (if String.eqb k "length"
            then Some (JNum (Z.of_nat (String.length s))) else None)
  | JBool _ | JNum _ => Some None
  end.

(** [o?.k] on a value that may be [undefined]. *)
Definition opt_prop (o : option JVal) (k : string) : option JVal :=
  match o with
  | Some v => match prop v k with Some r => r | None => None end
  | None => None
  end.

(** [o > 0].  Numbers and booleans are compared; [undefined] is NaN.
    Strings, arrays and objects would be coerced by JavaScript: no
    [length] the service reads has such a value, and they compare as
    NaN here. *)
Definition gt_zero (o : option JVal) : bool :=
  match o with
  | Some (JNum n) => Z.ltb 0 n
  | Some (JBool b) => b
  | _ => false
  end.

Fixpoint chars (s : string) : list JVal :=
  match s with
  | EmptyString => []
  | String c r => JStr (String c EmptyString) :: chars r
  end.

Definition indexed (l : list JVal) : Doc :=
  list_to_map (imap (fun i x => (pretty i, x)) l).

(** [{...v}]: the own enumerable properties of [v]. *)
Definition spread (v : JVal) : Doc :=
  match v with
  | JObj m => m
  | JArr l => indexed l
  | JStr s => indexed (chars s)
  | JNull | JBool _ | JNum _ => ∅
  end.

(** [for (const x of v)]: the elements, or [None] when [v] is not
    iterable. *)
Definition iterate (v : JVal) : option (list JVal) :=
  match v with
  | JArr l => Some l
  | JStr s => Some (chars s)
  | _ => None
  end.

(** [iso.split("T")[0]] *)
Fixpoint before_T (iso : string) : string :=
  match iso with
  | EmptyString => EmptyString
  | String c r =>
      if String.eqb (String c EmptyString) "T" then EmptyString else String c (before_T r)
  end.

End Js.

(** ** The world the service runs in *)

Record World : Type := mkWorld {
  (** [db], the Firestore handle exported by [services/firebase], is truthy *)
  db : bool;
  (** what [isFirebaseConfigured()] returns *)
  firebaseConfigured : bool;
  (** what [new Date().toISOString()] returns *)
  clock : string;
  (** what [Date.now() + Math.random()] evaluates to, given the past *)
  generatedId : list Event -> JVal;
  (** which calls the transport rejects, given the past *)
  faults : list Event -> Call -> bool;
  (** the value each imported Local Store loader returns for an absent slot *)
  slotDefault : Slot -> JVal;
  (** which [localStorage.setItem] calls throw (a full quota, a blocked
      store), given the past *)
  storageFull : list Event -> Slot -> JVal -> bool;
  (** Remote Store: documents at [users/{userId}/data/{docId}] *)
  remote : gmap (string * string) Doc;
  (** Local Store: the parsed JSON held by each slot *)
  localStorage : gmap Slot JVal;
  (** the local recipe and template collections *)
  recipeDb : list JVal;
  templateDb : list JVal;
  (** everything observable so far, oldest first *)
  trace : list Event;
}.

Definition with_trace (t : list Event) (w : World) : World :=
  mkWorld (db w) (firebaseConfigured w) (clock w) (generatedId w) (faults w)
    (slotDefault w) (storageFull w) (remote w) (localStorage w) (recipeDb w) (templateDb w) t.

Definition with_remote (r : gmap (string * string) Doc) (w : World) : World :=
  mkWorld (db w) (firebaseConfigured w) (clock w) (generatedId w) (faults w)
    (slotDefault w) (storageFull w) r (localStorage w) (recipeDb w) (templateDb w) (trace w).

Definition with_localStorage (l : gmap Slot JVal) (w : World) : World :=
  mkWorld (db w) (firebaseConfigured w) (clock w) (generatedId w) (faults w)
    (slotDefault w) (storageFull w) (remote w) l (recipeDb w) (templateDb w) (trace w).

Definition with_recipeDb (l : list JVal) (w : World) : World :=
  mkWorld (db w) (firebaseConfigured w) (clock w) (generatedId w) (faults w)
    (slotDefault w) (storageFull w) (remote w) (localStorage w) l (templateDb w) (trace w).

Definition with_templateDb (l : list JVal) (w : World) : World :=
  mkWorld (db w) (firebaseConfigured w) (clock w) (generatedId w) (faults w)
    (slotDefault w) (storageFull w) (remote w) (localStorage w) (recipeDb w) l (trace w).

(** The clock moves between operations, never inside the model of one. *)
Definition with_clock (c : string) (w : World) : World :=
  mkWorld (db w) (firebaseConfigured w) c (generatedId w) (faults w)
    (slotDefault w) (storageFull w) (remote w) (localStorage w) (recipeDb w) (templateDb w)
    (trace w).

(** ** Promises: a state and error monad over the world *)

Inductive Result (A : Type) : Type :=
| Ok (a : A)
| Err (e : Exn).
Arguments Ok {A} a.
Arguments Err {A} e.

Definition M (A : Type) : Type := World -> Result A * World.

Definition ret {A} (a : A) : M A := fun w => (Ok a, w).

Definition throw {A} (e : Exn) : M A := fun w => (Err e, w).

Definition bind {A B} (m : M A) (k : A -> M B) : M B :=
  fun w =>
    match m w with
    | (Ok a, w') => k a w'
    | (Err e, w') => (Err e, w')
    end.

(** [try { m } catch (err) { h err }] *)
Definition try_catch {A} (m : M A) (h : Exn -> M A) : M A :=
  fun w =>
    match m w with
    | (Ok a, w') => (Ok a, w')
    | (Err e, w') => h e w'
    end.

(** The outcome of a promise, as [Promise.allSettled] reports it. *)
Definition settle {A} (m : M A) : M (Result A) :=
  fun w => let '(r, w') := m w in (Ok r, w').

Definition gets {A} (f : World -> A) : M A := fun w => (Ok (f w), w).

Definition modify (f : World -> World) : M unit := fun w => (Ok tt, f w).

Declare Scope js_scope.
Delimit Scope js_scope with js.
Notation "'let*' x ':=' m 'in' k" := (bind m (fun x => k))
  (at level 10, x name, m at level 100, k at level 200) : js_scope.
Notation "m ;; k" := (bind m (fun _ => k))
  (at level 100, k at level 200, right associativity) : js_scope.
Local Open Scope js_scope.

Definition when (b : bool) (m : M unit) : M unit :=
  if b then m else ret tt.

(** [for (const x of l) { await body x }] *)
Fixpoint for_each {A} (l : list A) (body : A -> M unit) : M unit :=
  match l with
  | [] => ret tt
  | x :: r => body x ;; for_each r body
  end.

Definition emit (e : Event) : M unit :=
  modify (fun w => with_trace (trace w ++ [e]) w).

(** A call that goes through the transport: it is recorded with its
    outcome, and rejects when the transport fails it. *)
Definition attempt (c : Call) : M unit :=
  fun w =>
    if faults w (trace w) c
    then (Err (Rejected c), with_trace (trace w ++ [Attempt c false]) w)
    else (Ok tt, with_trace (trace w ++ [Attempt c true]) w).

(** [v.k] as a statement that may throw. *)
Definition prop_of (v : JVal) (k : string) : M (option JVal) :=
  match Js.prop v k with
  | Some r => ret r
  | None => throw TypeError
  end.

Definition new_Date_toISOString : M string := gets clock.

Definition isFirebaseConfigured : M bool := gets firebaseConfigured.

Definition console_error (msg : string) (e : Exn) : M unit :=
  emit (ConsoleError msg e).

(** [window.dispatchEvent(new CustomEvent("nutrinote-sync-complete", ...))] *)
Definition dispatch_sync_complete (now : string) : M unit :=
  emit (SyncComplete now).

(** ** Firestore *)

(** [doc(db, "users", userId, "data", docId)] throws without a Firestore
    handle; every function below but [syncOnSignIn] tests [db] first. *)
Definition doc (userId docId : string) : M (string * string) :=
  let* handle := gets db in
  if handle then ret (userId, docId) else throw InvalidFirestore.

(** A snapshot is [None] when [snap.exists()] is false, else [snap.data()]. *)
Definition getDoc (ref : string * string) : M (option Doc) :=
  attempt (GetDoc ref.1 ref.2) ;;
  gets (fun w => remote w !! ref).

(** [setDoc(ref, data)] without merge options replaces the document. *)
Definition setDoc (ref : string * string) (data : Doc) : M unit :=
  attempt (SetDoc ref.1 ref.2 data) ;;
  modify (fun w => with_remote (<[ref := data]> (remote w)) w).

Definition deleteDoc (ref : string * string) : M unit :=
  attempt (DeleteDoc ref.1 ref.2) ;;
  modify (fun w => with_remote (delete ref (remote w)) w).

Definition apply_writes (userId : string) (writes : list (string * Doc))
    (r : gmap (string * string) Doc) : gmap (string * string) Doc :=
  foldl (fun acc kd => <[(userId, kd.1) := kd.2]> acc) r writes.

(** [batch.commit()] of the [batch.set] calls collected in [writes]:
    all of them are applied, or none. *)
Definition batch_commit (userId : string) (writes : list (string * Doc))
    : M unit :=
  attempt (BatchCommit userId writes) ;;
  modify (fun w => with_remote (apply_writes userId writes (remote w)) w).

(** ** Local Store *)

Definition loadFromLocalStorage (key : Slot) (defaultValue : JVal) : M JVal :=
  gets (fun w => default defaultValue (localStorage w !! key)).

(** [localStorage.setItem(key, JSON.stringify(data))], when it does not
    throw. *)
Definition setItem (key : Slot) (data : JVal) : M unit :=
  emit (LocalSet key data) ;;
  modify (fun w => with_localStorage (<[key := data]> (localStorage w)) w).

(** A throwing [setItem] is caught: nothing is stored, nothing is logged,
    and [false] is returned. *)
Definition saveToLocalStorage (key : Slot) (data : JVal) : M bool :=
  let* full := gets (fun w => storageFull w (trace w) key data) in
  if full then ret false else setItem key data ;; ret true.

(** Modelled from the spec: the loaders and savers imported from
    [utils/localStorage] are missing from the sources.  The spec gives
    their contract: Local Store get/set per named slot, synchronous,
    returning a default value if the slot is absent, never throwing. *)
Definition load_slot (key : Slot) : M JVal :=
  let* d := gets (fun w => slotDefault w key) in
  loadFromLocalStorage key d.

Definition save_slot (key : Slot) (data : JVal) : M unit :=
  setItem key data.

Definition loadUserProfile : M JVal := load_slot USER_PROFILE.
Definition loadDailyTarget : M JVal := load_slot DAILY_TARGET.
Definition loadMacroGoals : M JVal := load_slot MACRO_GOALS.
Definition loadMicronutrientGoals : M JVal := load_slot MICRONUTRIENT_GOALS.
Definition loadPreferences : M JVal := load_slot PREFERENCES.
Definition loadWeeklyHistory : M JVal := load_slot WEEKLY_HISTORY.
Definition loadRecentFoods : M JVal := load_slot RECENT_FOODS.
Definition loadFavoriteFoods : M JVal := load_slot FAVORITE_FOODS.
Definition loadWeightLog : M JVal := load_slot WEIGHT_LOG.
Definition loadStreakData : M JVal := load_slot STREAK_DATA.

Definition saveUserProfile : JVal -> M unit := save_slot USER_PROFILE.
Definition saveDailyTarget : JVal -> M unit := save_slot DAILY_TARGET.
Definition saveMacroGoals : JVal -> M unit := save_slot MACRO_GOALS.
Definition saveMicronutrientGoals : JVal -> M unit :=
  save_slot MICRONUTRIENT_GOALS.
Definition savePreferences : JVal -> M unit := save_slot PREFERENCES.
Definition saveFoodLog : JVal -> M unit := save_slot FOOD_LOG.
Definition saveExerciseLog : JVal -> M unit := save_slot EXERCISE_LOG.
Definition saveWeeklyHistory : JVal -> M unit := save_slot WEEKLY_HISTORY.
Definition saveWaterLog : JVal -> M unit := save_slot WATER_LOG.

(** Modelled from the spec: [markOnboardingComplete] (missing) marks
    onboarding complete locally. *)
Definition markOnboardingComplete : M unit := save_slot ONBOARDING (JBool true).

(** Modelled from the spec: [saveLastSyncTime] (missing) persists the
    last-synced timestamp to the Local Store. *)
Definition saveLastSyncTime (now : string) : M unit :=
  save_slot LAST_SYNC (JStr now).

(** ** The local recipe and template collections *)

Definition same_id (a b : JVal) : bool :=
  match Js.opt_prop (Some a) "id", Js.opt_prop (Some b) "id" with
  | Some (JNum x), Some (JNum y) => Z.eqb x y
  | Some (JStr x), Some (JStr y) => String.eqb x y
  | _, _ => false
  end.

Definition upsert (item : JVal) (items : list JVal) : list JVal :=
  if existsb (same_id item) items
  then map (fun x => if same_id item x then item else x) items
  else items ++ [item].

(** Modelled from the spec: [getAllRecipes], [saveRecipe]
    ([services/recipeDatabase]) and [getAllTemplates], [saveTemplate]
    ([services/templateDatabase]) are missing from the sources.  The spec
    gives their contract: an asynchronous list read and a per-item upsert
    by id. *)
Definition getAllRecipes : M JVal :=
  attempt GetAllRecipes ;; gets (fun w => JArr (recipeDb w)).

Definition saveRecipe (recipe : JVal) : M unit :=
  attempt (SaveRecipe recipe) ;;
  modify (fun w => with_recipeDb (upsert recipe (recipeDb w)) w).

Definition getAllTemplates : M JVal :=
  attempt GetAllTemplates ;; gets (fun w => JArr (templateDb w)).

Definition saveTemplate (template : JVal) : M unit :=
  attempt (SaveTemplate template) ;;
  modify (fun w => with_templateDb (upsert template (templateDb w)) w).

(** ** [services/syncService.js] *)

(** [arr.filter(pred)]; calling [filter] on anything but an array throws. *)
Fixpoint filter_list (pred : JVal -> M bool) (l : list JVal) : M (list JVal) :=
  match l with
  | [] => ret []
  | x :: r =>
      let* keep := pred x in
      let* r' := filter_list pred r in
      ret (if keep then x :: r' else r')
  end.

Definition array_filter (v : JVal) (pred : JVal -> M bool) : M JVal :=
  match v with
  | JArr l => let* l' := filter_list pred l in ret (JArr l')
  | _ => throw TypeError
  end.

Definition syncRecipesToCloud (userId : string) (recipes : JVal) : M unit :=
  let* handle := gets db in
  let* configured := isFirebaseConfigured in
  if negb handle || String.eqb userId "" || negb configured then ret tt else
  try_catch
    (let* ref := doc userId "recipes" in
     let* now := new_Date_toISOString in
     setDoc ref (<["updatedAt" := JStr now]> (<["items" := recipes]> ∅)))
    (fun err => console_error "syncRecipesToCloud failed:" err).

Definition syncTemplatesToCloud (userId : string) (templates : JVal)
    : M unit :=
  let* handle := gets db in
  let* configured := isFirebaseConfigured in
  if negb handle || String.eqb userId "" || negb configured then ret tt else
  try_catch
    (let* userTemplates :=
       array_filter (if Js.truthy templates then templates else JArr [])
         (fun t =>
            let* isPrebuilt := prop_of t "isPrebuilt" in
            ret (negb (Js.truthy_opt isPrebuilt))) in
     let* ref := doc userId "templates" in
     let* now := new_Date_toISOString in
     setDoc ref (<["updatedAt" := JStr now]> (<["items" := userTemplates]> ∅)))
    (fun err => console_error "syncTemplatesToCloud failed:" err).

(** The documents [uploadLocalToCloud] puts in its batch, in the order of
    its [batch.set] calls. *)
Definition upload_batch (now : string)
    (profile dailyTarget macroGoals microGoals preferences foodLog
     exerciseLog weeklyHistory waterLog recentFoods favoriteFoods weightLog
     streakData foodHistory currentDate onboarding : JVal)
    : list (string * Doc) :=
  let profileDoc : Doc :=
    <["updatedAt" := JStr now]>
      (<["currentDate" := currentDate]>
         (<["onboarding" := onboarding]>
            (<["preferences" := preferences]>
               (<["micronutrientGoals" := microGoals]>
                  (<["macroGoals" := macroGoals]>
                     (<["dailyTarget" := dailyTarget]>
                        (<["userProfile" := profile]> ∅))))))) in
  let today := Js.before_T now in
  let foodLogDoc : Doc :=
    <["updatedAt" := JStr now]>
      (<[today :=
           JObj (<["water" := waterLog]>
                   (<["exercise" := exerciseLog]>
                      (<["entries" := foodLog]> ∅)))]> ∅) in
  [ ("profile", profileDoc);
    ("foodLog", foodLogDoc);
    ("history", <["updatedAt" := JStr now]> (Js.spread weeklyHistory));
    ("foodHistory", <["updatedAt" := JStr now]> (Js.spread foodHistory));
    ("favorites",
      <["updatedAt" := JStr now]> (<["items" := favoriteFoods]> ∅));
    ("recentFoods",
      <["updatedAt" := JStr now]> (<["items" := recentFoods]> ∅));
    ("weightLog", <["updatedAt" := JStr now]> (<["items" := weightLog]> ∅));
    ("streakData", <["updatedAt" := JStr now]> (Js.spread streakData)) ].

(** [userRef], built first in the source, is never used: with [db]
    truthy building it has no effect, and it is left out. *)
Definition uploadLocalToCloud (userId : string) : M unit :=
  let* handle := gets db in
  let* configured := isFirebaseConfigured in
  if negb handle || negb configured then ret tt else
  let* profile := loadUserProfile in
  let* dailyTarget := loadDailyTarget in
  let* macroGoals := loadMacroGoals in
  let* microGoals := loadMicronutrientGoals in
  let* preferences := loadPreferences in
  let* foodLog := loadFromLocalStorage FOOD_LOG (JArr []) in
  let* exerciseLog := loadFromLocalStorage EXERCISE_LOG (JArr []) in
  let* weeklyHistory := loadWeeklyHistory in
  let* waterLog := loadFromLocalStorage WATER_LOG (JNum 0) in
  let* recentFoods := loadRecentFoods in
  let* favoriteFoods := loadFavoriteFoods in
  let* weightLog := loadWeightLog in
  let* streakData := loadStreakData in
  let* foodHistory := loadFromLocalStorage FOOD_HISTORY (JObj ∅) in
  let* currentDate := loadFromLocalStorage CURRENT_DATE JNull in
  let* onboarding := loadFromLocalStorage ONBOARDING (JBool false) in
  let* iso := new_Date_toISOString in
  batch_commit userId
    (upload_batch iso profile dailyTarget macroGoals microGoals preferences
       foodLog exerciseLog weeklyHistory waterLog recentFoods favoriteFoods
       weightLog streakData foodHistory currentDate onboarding) ;;
  let* now := new_Date_toISOString in
  saveLastSyncTime now ;;
  dispatch_sync_complete now ;;
  try_catch
    (let* recipes := getAllRecipes in
     syncRecipesToCloud userId recipes ;;
     let* templates := getAllTemplates in
     syncTemplatesToCloud userId templates)
    (fun err => console_error "Recipe/template upload failed:" err).

(** [await getDoc(doc(db, "users", userId, "data", docId))] *)
Definition fetch (userId docId : string) : M (option Doc) :=
  let* ref := doc userId docId in
  getDoc ref.

(** [if (o) save(o)] *)
Definition if_truthy (o : option JVal) (save : JVal -> M unit) : M unit :=
  match o with
  | Some v => when (Js.truthy v) (save v)
  | None => ret tt
  end.

(** [if (o != null) save(o)] *)
Definition if_not_nullish (o : option JVal) (save : JVal -> M unit)
    : M unit :=
  match o with
  | Some v => when (Js.not_nullish (Some v)) (save v)
  | None => ret tt
  end.

(** [if (snap.exists()) { const d = snap.data(); ... }] *)
Definition if_exists (snap : option Doc) (body : Doc -> M unit) : M unit :=
  match snap with
  | Some d => body d
  | None => ret tt
  end.

(** The loop over a downloaded [items] list: each item is saved with its
    own id, or with a generated one when it has none. *)
Definition merge_items (snap : option Doc) (save : JVal -> M unit) : M unit :=
  if_exists snap (fun d =>
    when (Js.gt_zero (Js.opt_prop (d !! "items") "length"))
      (match d !! "items" with
       | Some items =>
           match Js.iterate items with
           | Some l =>
               for_each l (fun item =>
                 let* id := prop_of item "id" in
                 let* fresh := gets (fun w => generatedId w (trace w)) in
                 save (JObj (<["id" := Js.or_else id fresh]> (Js.spread item))))
           | None => throw TypeError
           end
       | None => throw TypeError
       end)).

Definition syncFromCloud (userId : string) : M unit :=
  let* handle := gets db in
  let* configured := isFirebaseConfigured in
  if negb handle || negb configured then ret tt else
  try_catch
    (let* profileSnap := fetch userId "profile" in
     let* foodLogSnap := fetch userId "foodLog" in
     let* historySnap := fetch userId "history" in
     let* foodHistorySnap := fetch userId "foodHistory" in
     let* favoritesSnap := fetch userId "favorites" in
     let* recentSnap := fetch userId "recentFoods" in
     let* weightSnap := fetch userId "weightLog" in
     let* streakSnap := fetch userId "streakData" in
     if_exists profileSnap (fun d =>
       if_truthy (d !! "userProfile") saveUserProfile ;;
       if_not_nullish (d !! "dailyTarget") saveDailyTarget ;;
       if_truthy (d !! "macroGoals") saveMacroGoals ;;
       if_truthy (d !! "micronutrientGoals") saveMicronutrientGoals ;;
       if_truthy (d !! "preferences") savePreferences ;;
       when (Js.not_nullish (d !! "onboarding"))
         (when (Js.truthy_opt (d !! "onboarding")) markOnboardingComplete)) ;;
     if_exists foodLogSnap (fun d =>
       let* iso := new_Date_toISOString in
       let today := Js.before_T iso in
       if_truthy (d !! today) (fun todayData =>
         let* entries := prop_of todayData "entries" in
         if_truthy entries saveFoodLog ;;
         let* exercise := prop_of todayData "exercise" in
         if_truthy exercise saveExerciseLog ;;
         let* water := prop_of todayData "water" in
         if_not_nullish water saveWaterLog)) ;;
     if_exists historySnap (fun d =>
       saveWeeklyHistory (JObj (delete "updatedAt" d))) ;;
     if_exists foodHistorySnap (fun d =>
       saveToLocalStorage FOOD_HISTORY (JObj (delete "updatedAt" d)) ;;
       ret tt) ;;
     if_exists favoritesSnap (fun d =>
       saveToLocalStorage FAVORITE_FOODS (Js.or_else (d !! "items") (JArr [])) ;;
       ret tt) ;;
     if_exists recentSnap (fun d =>
       saveToLocalStorage RECENT_FOODS (Js.or_else (d !! "items") (JArr [])) ;;
       ret tt) ;;
     if_exists weightSnap (fun d =>
       saveToLocalStorage WEIGHT_LOG (Js.or_else (d !! "items") (JArr [])) ;;
       ret tt) ;;
     if_exists streakSnap (fun d =>
       saveToLocalStorage STREAK_DATA (JObj (delete "updatedAt" d)) ;;
       ret tt) ;;
     let* recipesSnap := fetch userId "recipes" in
     merge_items recipesSnap saveRecipe ;;
     let* templatesSnap := fetch userId "templates" in
     merge_items templatesSnap saveTemplate ;;
     let* now := new_Date_toISOString in
     saveLastSyncTime now ;;
     dispatch_sync_complete now)
    (fun err => console_error "syncFromCloud failed:" err).

(** [user] is [None] for a falsy user, else the user's [uid]. *)
Definition syncOnSignIn (user : option string) : M unit :=
  match user with
  | None => ret tt
  | Some userId =>
      let* configured := isFirebaseConfigured in
      if negb configured then ret tt else
      let* profileSnap := fetch userId "profile" in
      match profileSnap with
      | Some _ => syncFromCloud userId
      | None =>
          let* profile := loadUserProfile in
          let* hasLocalData :=
            (if Js.truthy profile then ret true
             else
               let* foodLog := loadFromLocalStorage FOOD_LOG (JArr []) in
               let* len := prop_of foodLog "length" in
               ret (Js.gt_zero len)) in
          when hasLocalData (uploadLocalToCloud userId)
      end
  end.

(** The cases of the [switch (dataType)] in [syncToCloud]. *)
Definition handled_types : list string :=
  [ "profile"; "foodLog"; "history"; "foodHistory"; "favorites";
    "recentFoods"; "weightLog"; "streakData" ].

Definition syncToCloud (userId dataType : string) (payload : JVal) : M unit :=
  let* handle := gets db in
  let* configured := isFirebaseConfigured in
  if negb handle || String.eqb userId "" || negb configured then ret tt else
  try_catch
    (let* updatedAt := new_Date_toISOString in
     if String.eqb dataType "profile" then
       let* ref := doc userId "profile" in
       setDoc ref (<["updatedAt" := JStr updatedAt]> (Js.spread payload))
     else if String.eqb dataType "foodLog" then
       let* iso := new_Date_toISOString in
       let today := Js.before_T iso in
       let* foodLogRef := doc userId "foodLog" in
       let* snap := getDoc foodLogRef in
       let existing : Doc := default ∅ snap in
       let* entries := prop_of payload "entries" in
       let* exercise := prop_of payload "exercise" in
       let* water := prop_of payload "water" in
       let existing1 : Doc :=
         <[today :=
             JObj (<["water" := Js.coalesce water (JNum 0)]>
                     (<["exercise" := Js.or_else exercise (JArr [])]>
                        (<["entries" := Js.or_else entries (JArr [])]> ∅)))]>
           existing in
       let existing2 : Doc := <["updatedAt" := JStr updatedAt]> existing1 in
       setDoc foodLogRef existing2
     else if String.eqb dataType "history" then
       let* ref := doc userId "history" in
       setDoc ref (<["updatedAt" := JStr updatedAt]> (Js.spread payload))
     else if String.eqb dataType "foodHistory" then
       let* ref := doc userId "foodHistory" in
       setDoc ref (<["updatedAt" := JStr updatedAt]> (Js.spread payload))
     else if String.eqb dataType "favorites" then
       let* ref := doc userId "favorites" in
       setDoc ref (<["updatedAt" := JStr updatedAt]> (<["items" := payload]> ∅))
     else if String.eqb dataType "recentFoods" then
       let* ref := doc userId "recentFoods" in
       setDoc ref (<["updatedAt" := JStr updatedAt]> (<["items" := payload]> ∅))
     else if String.eqb dataType "weightLog" then
       let* ref := doc userId "weightLog" in
       setDoc ref (<["updatedAt" := JStr updatedAt]> (<["items" := payload]> ∅))
     else if String.eqb dataType "streakData" then
       let* ref := doc userId "streakData" in
       setDoc ref (<["updatedAt" := JStr updatedAt]> (Js.spread payload))
     else ret tt)
    (fun err => console_error "syncToCloud failed:" err ;; throw err).

Definition USER_DATA_DOCS : list string :=
  [ "profile"; "foodLog"; "history"; "foodHistory"; "favorites";
    "recentFoods"; "weightLog"; "streakData"; "recipes"; "templates" ].

(** [list.map(f)] where [f] starts a promise: every call is issued, and
    the outcome of each is kept for [Promise.allSettled]. *)
Fixpoint map_settled {A B} (f : A -> M B) (l : list A) : M (list (Result B)) :=
  match l with
  | [] => ret []
  | x :: r =>
      let* o := settle (f x) in
      let* os := map_settled f r in
      ret (o :: os)
  end.

Definition deleteUserCloudData (userId : string) : M unit :=
  let* handle := gets db in
  let* configured := isFirebaseConfigured in
  if negb handle || String.eqb userId "" || negb configured then ret tt else
  let* promises :=
    map_settled (fun docId =>
      let* ref := doc userId docId in deleteDoc ref) USER_DATA_DOCS in
  ret tt.

(** ** [contexts/AuthContext.js]: the auth state-change handler *)

Record AuthState : Type := mkAuthState {
  user : option string;
  loading : bool;
}.

(** The callback passed to [onAuthStateChanged]: the React state it
    leaves behind is returned whether or not its promise rejects. *)
Definition authStateChanged (firebaseUser : option string) (st : AuthState)
    (w : World) : Result unit * AuthState * World :=
  let st1 := mkAuthState firebaseUser (loading st) in
  match
    (match firebaseUser with
     | Some _ => syncOnSignIn firebaseUser
     | None => ret tt
     end) w
  with
  | (Ok _, w') => (Ok tt, mkAuthState (user st1) false, w')
  | (Err e, w') => (Err e, st1, w')
  end.


(** [loadRecipesFromCloud] and [loadTemplatesFromCloud]: what they return
    is the [items] of the document, [[]] when there are none, and [JNull]
    for JavaScript's [null]. *)
Definition loadRecipesFromCloud (userId : string) : M JVal :=
  let* handle := gets db in
  let* configured := isFirebaseConfigured in
  if negb handle || String.eqb userId "" || negb configured then ret JNull else
  try_catch
    (let* snap := fetch userId "recipes" in
     ret (match snap with
          | Some d => Js.or_else (d !! "items") (JArr [])
          | None => JNull
          end))
    (fun err => console_error "loadRecipesFromCloud failed:" err ;; ret JNull).

Definition loadTemplatesFromCloud (userId : string) : M JVal :=
  let* handle := gets db in
  let* configured := isFirebaseConfigured in
  if negb handle || String.eqb userId "" || negb configured then ret JNull else
  try_catch
    (let* snap := fetch userId "templates" in
     ret (match snap with
          | Some d => Js.or_else (d !! "items") (JArr [])
          | None => JNull
          end))
    (fun err => console_error "loadTemplatesFromCloud failed:" err ;; ret JNull).

(** ** [contexts/SyncStatusContext.js] and the callers of the service *)

Inductive Status : Type := idle | syncing | success | error.

(** The React state of the sync status: [status] and [lastSyncTime] of
    [SyncStatusProvider], [retrying] of [SyncStatusIndicator]. *)
Record SyncUi : Type := mkSyncUi {
  status : Status;
  lastSyncTime : option string;
  retrying : bool;
}.

Definition setStatus (s : Status) (ui : SyncUi) : SyncUi :=
  mkSyncUi s (lastSyncTime ui) (retrying ui).

Definition setRetrying (b : bool) (ui : SyncUi) : SyncUi :=
  mkSyncUi (status ui) (lastSyncTime ui) b.

(** [setLastSyncTime] of [SyncStatusProvider]: the state is set and the
    timestamp persisted. *)
Definition setLastSyncTime (ts : string) (ui : SyncUi) : M SyncUi :=
  saveLastSyncTime ts ;;
  ret (mkSyncUi (status ui) (Some ts) (retrying ui)).

(** [onSyncComplete] of [SyncStatusProvider], for a sync-complete event
    whose [detail.time] is [time]: the state is set, nothing is
    persisted. *)
Definition onSyncComplete (time : option string) (ui : SyncUi) : SyncUi :=
  match time with
  | Some t => mkSyncUi (status ui) (Some t) (retrying ui)
  | None => ui
  end.

(** The callback [SyncBridgeSetup] (App.js) installs with [setSyncBridge]:
    the state and world once the promise chain
    [syncToCloud(...).then(...).catch(...)] has settled. *)
Definition syncBridge (uid type : string) (payload : JVal) (ui : SyncUi)
    (w : World) : SyncUi * World :=
  let ui1 := setStatus syncing ui in
  match syncToCloud uid type payload w with
  | (Ok _, w1) =>
      let ui2 := setStatus success ui1 in
      match (let* now := new_Date_toISOString in setLastSyncTime now ui2) w1 with
      | (Ok ui3, w2) => (ui3, w2)
      | (Err _, w2) => (setStatus error ui2, w2)
      end
  | (Err _, w1) => (setStatus error ui1, w1)
  end.

(** [handleRetry] of [SyncStatusIndicator]. *)
Definition handleRetry (user : option string) (ui : SyncUi) (w : World)
    : SyncUi * World :=
  match user with
  | None => (ui, w)
  | Some uid =>
      if retrying ui then (ui, w) else
      let ui1 := setStatus syncing (setRetrying true ui) in
      match uploadLocalToCloud uid w with
      | (Ok _, w1) =>
          let ui2 := setStatus success ui1 in
          match (let* now := new_Date_toISOString in
                 setLastSyncTime now ui2) w1 with
          | (Ok ui3, w2) => (setRetrying false ui3, w2)
          | (Err _, w2) => (setRetrying false (setStatus error ui2), w2)
          end
      | (Err _, w1) => (setRetrying false (setStatus error ui1), w1)
      end
  end.

(** [formatLastSync] of [SyncStatusIndicator]: [now] and [date] are the
    times in milliseconds of [new Date()] and of the date given, [None]
    for a [null] date.  [Math.floor] of a quotient of such integers is
    the floor division of [Z]. *)
Definition formatLastSync (now : Z) (date : option Z) : option string :=
  match date with
  | None => None
  | Some date =>
      let diffMs := now - date in
      let diffMins := diffMs / 60000 in
      let diffHours := diffMins / 60 in
      if diffMins <? 1 then Some "Just now"
      else if diffMins <? 60 then Some (String.append (pretty diffMins) "m ago")
      else if diffHours <? 24
           then Some (String.append (pretty diffHours) "h ago")
      else Some (String.append (pretty (diffHours / 24)) "d ago")
  end.

(** * Vocabulary of the properties *)

Definition is_ok {A} (r : Result A) : bool :=
  match r with Ok _ => true | Err _ => false end.

(** The parts of the world no operation of the service changes. *)
Definition same_env (w w' : World) : Prop :=
  db w' = db w /\ firebaseConfigured w' = firebaseConfigured w /\
  clock w' = clock w /\ generatedId w' = generatedId w /\
  faults w' = faults w /\ slotDefault w' = slotDefault w /\
  storageFull w' = storageFull w.

Definition is_write_call (c : Call) : bool :=
  match c with
  | SetDoc _ _ _ | BatchCommit _ _ | DeleteDoc _ _ => true
  | _ => false
  end.

(** What a recorded event does to the Remote Store: a successful write
    puts the document it carries in place of whatever was there. *)
Definition apply_event (r : gmap (string * string) Doc) (e : Event)
    : gmap (string * string) Doc :=
  match e with
  | Attempt (SetDoc userId docId d) true => <[(userId, docId) := d]> r
  | Attempt (BatchCommit userId ws) true => apply_writes userId ws r
  | Attempt (DeleteDoc userId docId) true => delete (userId, docId) r
  | _ => r
  end.

Definition replay (evs : list Event) (r : gmap (string * string) Doc)
    : gmap (string * string) Doc :=
  foldl apply_event r evs.

(** What a recorded event does to the Local Store. *)
Definition apply_local (l : gmap Slot JVal) (e : Event) : gmap Slot JVal :=
  match e with
  | LocalSet s v => <[s := v]> l
  | _ => l
  end.

Definition replay_local (evs : list Event) (l : gmap Slot JVal)
    : gmap Slot JVal :=
  foldl apply_local l evs.

Definition is_save_call (c : Call) : bool :=
  match c with
  | SaveRecipe _ | SaveTemplate _ => true
  | _ => false
  end.

(** What a recorded event does to the local recipe and template
    collections: a successful save upserts its item. *)
Definition apply_saved (dbs : list JVal * list JVal) (e : Event)
    : list JVal * list JVal :=
  match e with
  | Attempt (SaveRecipe r) true => (upsert r dbs.1, dbs.2)
  | Attempt (SaveTemplate t) true => (dbs.1, upsert t dbs.2)
  | _ => dbs
  end.

Definition replay_saved (evs : list Event) (dbs : list JVal * list JVal)
    : list JVal * list JVal :=
  foldl apply_saved dbs evs.

(** [emits c P m]: run at clock [c], [m] only appends events to the
    trace and leaves the environment alone; every event [e] it appends
    satisfies [P ok e], where [ok] tells whether [m] resolved; and the
    Remote Store, the Local Store and the local collections change by
    the recorded successful writes and by nothing else. *)
Definition emits {A} (c : string) (P : bool -> Event -> Prop) (m : M A)
    : Prop :=
  forall w, clock w = c ->
    exists evs, trace (m w).2 = trace w ++ evs /\
                same_env w (m w).2 /\
                Forall (P (is_ok (m w).1)) evs /\
                remote (m w).2 = replay evs (remote w) /\
                localStorage (m w).2 = replay_local evs (localStorage w) /\
                (recipeDb (m w).2, templateDb (m w).2) =
                  replay_saved evs (recipeDb w, templateDb w).

(** [P] asks no more of the events of a rejected run than of a resolved
    one. *)
Definition lenient (P : bool -> Event -> Prop) : Prop :=
  forall e, P true e -> P false e.

(** [P] does not look at the outcome. *)
Definition blind (P : bool -> Event -> Prop) : Prop :=
  forall b b' e, P b e -> P b' e.

Definition is_remote_write (e : Event) : Prop :=
  match e with
  | Attempt c _ => is_write_call c = true
  | _ => False
  end.

Definition is_remote_call (e : Event) : Prop :=
  match e with
  | Attempt (GetDoc _ _) _ => True
  | Attempt c _ => is_write_call c = true
  | _ => False
  end.

(** The documents a write carries. *)
Definition written_docs (e : Event) : list Doc :=
  match e with
  | Attempt (SetDoc _ _ d) _ => [d]
  | Attempt (BatchCommit _ ws) _ => map snd ws
  | _ => []
  end.

Definition stamped (now : string) (e : Event) : Prop :=
  Forall (fun d : Doc => d !! "updatedAt" = Some (JStr now)) (written_docs e).

(** The trace [deleteUserCloudData] leaves when the deletions of
    [docIds] have the outcomes [oks]. *)
Definition deletions (userId : string) (docIds : list string)
    (oks : list bool) : list Event :=
  zip_with (fun docId ok => Attempt (DeleteDoc userId docId) ok) docIds oks.

(** A run of [m] from [w] writes only documents stamped with the time of
    the run, and leaves the Remote Store as the replay of the recorded
    successful writes, each of which replaces a whole document. *)
Definition writes_stamped_whole_docs (m : M unit) (w : World) : Prop :=
  exists evs,
    trace (m w).2 = trace w ++ evs /\
    Forall (stamped (clock w)) evs /\
    remote (m w).2 = replay evs (remote w).

Definition is_handled (dataType : string) : bool :=
  existsb (String.eqb dataType) handled_types.

(** The guard [!db || !userId || !isFirebaseConfigured()] lets the call
    through. *)
Definition backend_ready (w : World) (userId : string) : bool :=
  db w && negb (String.eqb userId "") && firebaseConfigured w.

(** [t.isPrebuilt] is truthy. *)
Definition is_prebuilt (t : JVal) : bool :=
  Js.truthy_opt (Js.opt_prop (Some t) "isPrebuilt").

(** The templates whose [isPrebuilt] field is falsy. *)
Definition user_templates (l : list JVal) : list JVal :=
  List.filter (fun t => negb (is_prebuilt t)) l.

Definition not_null (v : JVal) : bool :=
  match v with JNull => false | _ => true end.

(** The remote [templates] document holding [items]. *)
Definition templates_doc (items : list JVal) (now : string) : Doc :=
  <["updatedAt" := JStr now]> (<["items" := JArr items]> ∅).

(** What happened to a document sent with [setDoc] by a function that
    logs a rejection under [msg] and carries on. *)
Definition sent_and_logged (msg : string) (userId docId : string) (d : Doc)
    (w : World) : list Event :=
  if faults w (trace w) (SetDoc userId docId d)
  then [ Attempt (SetDoc userId docId d) false;
         ConsoleError msg (Rejected (SetDoc userId docId d)) ]
  else [ Attempt (SetDoc userId docId d) true ].

(** The world after [try { await setDoc(doc(...), d) } catch (err) {
    console.error(msg, err) }]. *)
Definition swallowed_push (msg : string) (userId docId : string) (d : Doc)
    (w : World) : World :=
  if faults w (trace w) (SetDoc userId docId d)
  then with_trace (trace w ++ [Attempt (SetDoc userId docId d) false] ++
                   [ConsoleError msg (Rejected (SetDoc userId docId d))]) w
  else with_remote (<[(userId, docId) := d]> (remote w))
         (with_trace (trace w ++ [Attempt (SetDoc userId docId d) true]) w).

(** The items [syncTemplatesToCloud] sends for [templates], if it gets to
    sending: a falsy list counts as empty, and filtering throws on
    anything but an array without [null] elements. *)
Definition sendable_templates (templates : JVal) : option (list JVal) :=
  match (if Js.truthy templates then templates else JArr []) with
  | JArr l => if forallb not_null l then Some (user_templates l) else None
  | _ => None
  end.

(** The entry a [foodLog] push stores under today's date. *)
Definition day_entry (payload : JVal) : JVal :=
  JObj (<["water" := Js.coalesce (Js.opt_prop (Some payload) "water") (JNum 0)]>
          (<["exercise" :=
               Js.or_else (Js.opt_prop (Some payload) "exercise") (JArr [])]>
             (<["entries" :=
                  Js.or_else (Js.opt_prop (Some payload) "entries") (JArr [])]>
                ∅))).

(** The [foodLog] document a push rewrites, from the snapshot it read. *)
Definition foodLog_after (snap : option Doc) (now : string) (payload : JVal)
    : Doc :=
  <["updatedAt" := JStr now]>
    (<[Js.before_T now := day_entry payload]> (default ∅ snap)).

(** The run of [try { await setDoc(doc(...), d) } catch (err) {
    console.error("syncToCloud failed:", err); throw err }]. *)
Definition push_outcome (userId docId : string) (d : Doc) (w : World)
    : Result unit * World :=
  if faults w (trace w) (SetDoc userId docId d)
  then (Err (Rejected (SetDoc userId docId d)),
        with_trace (trace w ++ [Attempt (SetDoc userId docId d) false] ++
                    [ConsoleError "syncToCloud failed:"
                       (Rejected (SetDoc userId docId d))]) w)
  else (Ok tt,
        with_remote (<[(userId, docId) := d]> (remote w))
          (with_trace (trace w ++ [Attempt (SetDoc userId docId d) true]) w)).

(** The document a push of a type other than [foodLog] writes: the
    payload's own fields, or the payload as [items], with [updatedAt]. *)
Definition wrapped (dataType : string) (payload : JVal) (now : string)
    : Doc :=
  if existsb (String.eqb dataType) ["favorites"; "recentFoods"; "weightLog"]
  then <["updatedAt" := JStr now]> (<["items" := payload]> ∅)
  else <["updatedAt" := JStr now]> (Js.spread payload).

(** What [loadFromLocalStorage key d] reads in [w]. *)
Definition stored (w : World) (key : Slot) (d : JVal) : JVal :=
  default d (localStorage w !! key).

(** What the imported loader of [key] reads in [w]. *)
Definition loaded (w : World) (key : Slot) : JVal :=
  stored w key (slotDefault w key).

(** The batch bulk upload commits in [w]. *)
Definition local_batch (w : World) : list (string * Doc) :=
  upload_batch (clock w)
    (loaded w USER_PROFILE) (loaded w DAILY_TARGET) (loaded w MACRO_GOALS)
    (loaded w MICRONUTRIENT_GOALS) (loaded w PREFERENCES)
    (stored w FOOD_LOG (JArr [])) (stored w EXERCISE_LOG (JArr []))
    (loaded w WEEKLY_HISTORY) (stored w WATER_LOG (JNum 0))
    (loaded w RECENT_FOODS) (loaded w FAVORITE_FOODS) (loaded w WEIGHT_LOG)
    (loaded w STREAK_DATA) (stored w FOOD_HISTORY (JObj ∅))
    (stored w CURRENT_DATE JNull) (stored w ONBOARDING (JBool false)).

(** The best-effort step of bulk upload, after the batch. *)
Definition upload_recipes_and_templates (userId : string) : M unit :=
  try_catch
    (let* recipes := getAllRecipes in
     syncRecipesToCloud userId recipes ;;
     let* templates := getAllTemplates in
     syncTemplatesToCloud userId templates)
    (fun err => console_error "Recipe/template upload failed:" err).

(** The world bulk upload has reached when it starts its best-effort
    step: the batch is committed, the last-synced timestamp saved and
    sync-complete notified. *)
Definition after_commit (userId : string) (w : World) : World :=
  with_trace
    (trace w ++ [ Attempt (BatchCommit userId (local_batch w)) true;
                  LocalSet LAST_SYNC (JStr (clock w));
                  SyncComplete (clock w) ])
    (with_localStorage (<[LAST_SYNC := JStr (clock w)]> (localStorage w))
       (with_remote (apply_writes userId (local_batch w) (remote w)) w)).

(** The events of the best-effort step: reads of the local collections,
    writes of the [recipes] and [templates] documents, console messages. *)
Definition best_effort_event (e : Event) : Prop :=
  match e with
  | Attempt GetAllRecipes _ | Attempt GetAllTemplates _ => True
  | Attempt (SetDoc _ docId _) _ => docId = "recipes" \/ docId = "templates"
  | ConsoleError _ _ => True
  | _ => False
  end.

(** The pass of bulk download: everything in its [try] block before the
    last-synced timestamp is saved. *)
Definition download_pass (userId : string) : M unit :=
  let* profileSnap := fetch userId "profile" in
  let* foodLogSnap := fetch userId "foodLog" in
  let* historySnap := fetch userId "history" in
  let* foodHistorySnap := fetch userId "foodHistory" in
  let* favoritesSnap := fetch userId "favorites" in
  let* recentSnap := fetch userId "recentFoods" in
  let* weightSnap := fetch userId "weightLog" in
  let* streakSnap := fetch userId "streakData" in
  if_exists profileSnap (fun d =>
    if_truthy (d !! "userProfile") saveUserProfile ;;
    if_not_nullish (d !! "dailyTarget") saveDailyTarget ;;
    if_truthy (d !! "macroGoals") saveMacroGoals ;;
    if_truthy (d !! "micronutrientGoals") saveMicronutrientGoals ;;
    if_truthy (d !! "preferences") savePreferences ;;
    when (Js.not_nullish (d !! "onboarding"))
      (when (Js.truthy_opt (d !! "onboarding")) markOnboardingComplete)) ;;
  if_exists foodLogSnap (fun d =>
    let* iso := new_Date_toISOString in
    let today := Js.before_T iso in
    if_truthy (d !! today) (fun todayData =>
      let* entries := prop_of todayData "entries" in
      if_truthy entries saveFoodLog ;;
      let* exercise := prop_of todayData "exercise" in
      if_truthy exercise saveExerciseLog ;;
      let* water := prop_of todayData "water" in
      if_not_nullish water saveWaterLog)) ;;
  if_exists historySnap (fun d =>
    saveWeeklyHistory (JObj (delete "updatedAt" d))) ;;
  if_exists foodHistorySnap (fun d =>
    saveToLocalStorage FOOD_HISTORY (JObj (delete "updatedAt" d)) ;;
    ret tt) ;;
  if_exists favoritesSnap (fun d =>
    saveToLocalStorage FAVORITE_FOODS (Js.or_else (d !! "items") (JArr [])) ;;
    ret tt) ;;
  if_exists recentSnap (fun d =>
    saveToLocalStorage RECENT_FOODS (Js.or_else (d !! "items") (JArr [])) ;;
    ret tt) ;;
  if_exists weightSnap (fun d =>
    saveToLocalStorage WEIGHT_LOG (Js.or_else (d !! "items") (JArr [])) ;;
    ret tt) ;;
  if_exists streakSnap (fun d =>
    saveToLocalStorage STREAK_DATA (JObj (delete "updatedAt" d)) ;;
    ret tt) ;;
  let* recipesSnap := fetch userId "recipes" in
  merge_items recipesSnap saveRecipe ;;
  let* templatesSnap := fetch userId "templates" in
  merge_items templatesSnap saveTemplate.

(** The events of the pass of a bulk download that resolved ([ok]) or
    threw: calls that are not remote writes, all successful when the pass
    resolved, and writes of Local Store slots other than [LAST_SYNC]. *)
Definition download_event (ok : bool) (e : Event) : Prop :=
  match e with
  | Attempt c b => is_write_call c = false /\ (ok = true -> b = true)
  | LocalSet s _ => s <> LAST_SYNC
  | SyncComplete _ | ConsoleError _ _ => False
  end.

(** The last-synced timestamp is saved, or sync-complete is notified. *)
Definition announces (e : Event) : Prop :=
  match e with
  | LocalSet LAST_SYNC _ | SyncComplete _ => True
  | _ => False
  end.

(** A call failed, or an error was caught and logged. *)
Definition failure (e : Event) : Prop :=
  match e with
  | Attempt _ false | ConsoleError _ _ => True
  | _ => False
  end.

(** ** The upload and download cycle *)

(** Bulk upload followed immediately by bulk download. *)
Definition upload_then_download (userId : string) : M unit :=
  uploadLocalToCloud userId ;; syncFromCloud userId.

(** The default under which bulk upload reads each slot: the one written
    in [uploadLocalToCloud] for the slots it reads with
    [loadFromLocalStorage], the imported loader's own for the others. *)
Definition upload_default (w : World) (key : Slot) : JVal :=
  match key with
  | FOOD_LOG | EXERCISE_LOG => JArr []
  | WATER_LOG => JNum 0
  | FOOD_HISTORY => JObj ∅
  | CURRENT_DATE => JNull
  | ONBOARDING => JBool false
  | _ => slotDefault w key
  end.

(** The value of a slot, as the service reads it. *)
Definition read_slot (w : World) (key : Slot) : JVal :=
  stored w key (upload_default w key).

(** After the run from [w] to [w'], every slot selected by [keep] reads
    as it did before. *)
Definition restores (keep : Slot -> bool) (w w' : World) : Prop :=
  forall key, keep key = true -> read_slot w' key = read_slot w key.

Definition every_slot (key : Slot) : bool := true.

Definition data_slot (key : Slot) : bool :=
  match key with LAST_SYNC => false | _ => true end.

(** An object without an [updatedAt] field. *)
Definition is_plain_object (v : JVal) : bool :=
  match v with
  | JObj m => match m !! "updatedAt" with None => true | Some _ => false end
  | _ => false
  end.

(** Falsy, or the boolean [true]. *)
Definition is_flag (v : JVal) : bool :=
  match v with
  | JBool _ => true
  | _ => negb (Js.truthy v)
  end.

(** The shapes bulk upload and bulk download are written for: history,
    food history and streak data are objects without an [updatedAt] field
    of their own, the favorites, recent foods and weight log lists are
    truthy, and the onboarding flag is falsy or [true]. *)
Definition well_shaped (w : World) : bool :=
  is_plain_object (read_slot w WEEKLY_HISTORY) &&
  is_plain_object (read_slot w FOOD_HISTORY) &&
  is_plain_object (read_slot w STREAK_DATA) &&
  Js.truthy (read_slot w FAVORITE_FOODS) &&
  Js.truthy (read_slot w RECENT_FOODS) &&
  Js.truthy (read_slot w WEIGHT_LOG) &&
  is_flag (read_slot w ONBOARDING).

(** A Local Store write that stores in a data slot the value the slot
    read in [w]. *)
Definition restoring (w : World) (e : Event) : Prop :=
  match e with
  | LocalSet key v => key <> LAST_SYNC /\ v = read_slot w key
  | _ => True
  end.

(** The world after the last-synced timestamp is saved and sync-complete
    is notified. *)
Definition announced (w : World) : World :=
  with_trace
    (trace w ++ [ LocalSet LAST_SYNC (JStr (clock w)); SyncComplete (clock w) ])
    (with_localStorage (<[LAST_SYNC := JStr (clock w)]> (localStorage w)) w).

(** ** Concrete worlds *)

Definition no_faults : list Event -> Call -> bool := fun _ _ => false.

(** A Local Store that takes every write. *)
Definition roomy : list Event -> Slot -> JVal -> bool := fun _ _ _ => false.

(** A Local Store that takes no write. *)
Definition crammed : list Event -> Slot -> JVal -> bool := fun _ _ _ => true.

(** Only the deletion of the [templates] document succeeds. *)
Definition nine_deletions_fail : list Event -> Call -> bool :=
  fun _ c =>
    match c with
    | DeleteDoc _ docId => negb (String.eqb docId "templates")
    | _ => false
    end.

(** Every read of a document is rejected. *)
Definition reads_fail : list Event -> Call -> bool :=
  fun _ c => match c with GetDoc _ _ => true | _ => false end.

Definition sample_defaults (key : Slot) : JVal :=
  match key with
  | WEEKLY_HISTORY | STREAK_DATA | FOOD_HISTORY => JObj ∅
  | RECENT_FOODS | FAVORITE_FOODS | WEIGHT_LOG | FOOD_LOG | EXERCISE_LOG =>
      JArr []
  | WATER_LOG => JNum 0
  | ONBOARDING => JBool false
  | _ => JNull
  end.

(** A signed-in browser with nothing stored, locally or remotely, on
    the morning of 2025-02-23. *)
Definition fresh_world (transport : list Event -> Call -> bool) : World :=
  mkWorld true true "2025-02-23T10:00:00.000Z" (fun _ => JNum 1740304800000)
    transport sample_defaults roomy ∅ ∅ [] [] [].

Definition apple_day : JVal :=
  JObj (<["water" := JNum 500]>
          (<["exercise" := JArr []]>
             (<["entries" :=
                  JArr [JObj (<["calories" := JNum 95]>
                                (<["food" := JStr "apple"]> ∅))]]> ∅))).

Definition prebuilt_template : JVal :=
  JObj (<["isPrebuilt" := JBool true]> (<["id" := JStr "keto"]> ∅)).

Definition own_template : JVal :=
  JObj (<["name" := JStr "my lunch"]> (<["id" := JStr "t1"]> ∅)).

(** A browser that has been used before sign-in: a profile, today's food
    log, a completed onboarding and a day of history are stored. *)
Definition used_world (transport : list Event -> Call -> bool) : World :=
  mkWorld true true "2025-02-23T10:00:00.000Z" (fun _ => JNum 1740304800000)
    transport sample_defaults roomy ∅
    (<[USER_PROFILE := JObj (<["name" := JStr "Sam"]> ∅)]>
       (<[FOOD_LOG := JArr [JObj (<["food" := JStr "apple"]> ∅)]]>
          (<[ONBOARDING := JBool true]>
             (<[WEEKLY_HISTORY :=
                  JObj (<["2025-02-22" := JNum 1800]> ∅)]> ∅))))
    [] [] [].

(** ** Vocabulary of the further properties *)

(** A browser whose backend is not configured. *)
Definition offline_world : World :=
  mkWorld true false "2025-02-23T10:00:00.000Z" (fun _ => JNum 1740304800000)
    no_faults sample_defaults roomy ∅ ∅ [] [] [].

(** A configured backend without a Firestore handle. *)
Definition handleless_world : World :=
  mkWorld false true "2025-02-23T10:00:00.000Z" (fun _ => JNum 1740304800000)
    no_faults sample_defaults roomy ∅ ∅ [] [] [].

(** Every remote call of the event is on a document of [userId]. *)
Definition touches_only (userId : string) (e : Event) : Prop :=
  match e with
  | Attempt (GetDoc u _) _ | Attempt (SetDoc u _ _) _
  | Attempt (DeleteDoc u _) _ | Attempt (BatchCommit u _) _ => u = userId
  | _ => True
  end.

(** A run of [m] from any world calls the Remote Store only on documents
    of [userId], and leaves the documents of every other user as they
    were. *)
Definition confined_to {A} (userId : string) (m : M A) : Prop :=
  forall w,
    (exists evs, trace (m w).2 = trace w ++ evs /\
                 Forall (touches_only userId) evs) /\
    (forall other docId, other <> userId ->
       remote (m w).2 !! (other, docId) = remote w !! (other, docId)).

(** A call to the Remote Store on one document, or a console message. *)
Definition cloud_only (e : Event) : Prop :=
  match e with
  | Attempt (GetDoc _ _) _ | Attempt (SetDoc _ _ _) _
  | Attempt (DeleteDoc _ _) _ | ConsoleError _ _ => True
  | _ => False
  end.

(** A run of [m] from any world leaves the Local Store and the local
    collections as they were, reads neither collection, and does not
    notify sync-complete. *)
Definition leaves_device_alone {A} (m : M A) : Prop :=
  forall w,
    localStorage (m w).2 = localStorage w /\
    recipeDb (m w).2 = recipeDb w /\
    templateDb (m w).2 = templateDb w /\
    exists evs, trace (m w).2 = trace w ++ evs /\ Forall cloud_only evs.

(** The Local Store writes bulk download may make at clock [now]: none
    to the current-date slot, [true] alone to the onboarding flag, the
    time of the run alone to the last-synced slot. *)
Definition download_write (now : string) (e : Event) : Prop :=
  match e with
  | LocalSet CURRENT_DATE _ => False
  | LocalSet ONBOARDING v => v = JBool true
  | LocalSet LAST_SYNC v => v = JStr now
  | _ => True
  end.

(** What a cloud loader makes of the snapshot it read: [null] for a
    missing document, else [items || []]. *)
Definition items_or_null (snap : option Doc) : JVal :=
  match snap with
  | Some d => Js.or_else (d !! "items") (JArr [])
  | None => JNull
  end.

(** [load] resolves, in every world, with what [items_or_null] makes of
    the document [docId] when the backend is ready and the read is
    answered, and with [null] otherwise. *)
Definition loads_items (docId : string) (load : string -> M JVal) : Prop :=
  forall w userId,
    (load userId w).1 =
    Ok (if backend_ready w userId &&
           negb (faults w (trace w) (GetDoc userId docId))
        then items_or_null (remote w !! (userId, docId))
        else JNull).

(** Two accounts in the Remote Store: [u1] with a profile, yesterday's
    food log, a template list and a favorites list, [u2] with a profile;
    locally, [u1]'s food log of today. *)
Definition shared_world (transport : list Event -> Call -> bool) : World :=
  mkWorld true true "2025-02-23T10:00:00.000Z" (fun _ => JNum 1740304800000)
    transport sample_defaults roomy
    (<[("u1", "profile") := <["userProfile" := JObj (<["name" := JStr "Sam"]> ∅)]> ∅]>
       (<[("u1", "foodLog") := <["2025-02-22" := apple_day]> ∅]>
          (<[("u1", "templates") := <["items" := JArr [own_template]]> ∅]>
          (<[("u1", "favorites") := <["items" := JArr [JStr "oats"]]> ∅]>
             (<[("u2", "profile") :=
                  <["userProfile" := JObj (<["name" := JStr "Kim"]> ∅)]> ∅]> ∅)))))
    (<[FOOD_LOG := JArr [JObj (<["food" := JStr "pear"]> ∅)]]> ∅)
    [] [] [].

(** The world after [setLastSyncTime(new Date())]: the last-synced
    timestamp is persisted. *)
Definition timestamp_saved (w : World) : World :=
  with_localStorage (<[LAST_SYNC := JStr (clock w)]> (localStorage w))
    (with_trace (trace w ++ [LocalSet LAST_SYNC (JStr (clock w))]) w).

(** The label for a last sync [ms] milliseconds ago, by thresholds on
    the milliseconds themselves. *)
Definition elapsed_label (ms : Z) : string :=
  if ms <? 60000 then "Just now"
  else if ms <? 3600000 then String.append (pretty (ms / 60000)) "m ago"
  else if ms <? 86400000 then String.append (pretty (ms / 3600000)) "h ago"
  else String.append (pretty (ms / 86400000)) "d ago".

Definition idle_ui : SyncUi := mkSyncUi idle None false.

(** A read of a document of [userId], whatever its outcome. *)
Definition is_read_of (userId : string) (e : Event) : Prop :=
  match e with
  | Attempt (GetDoc u _) _ => u = userId
  | _ => False
  end.

(** A signed-in browser whose food log slot holds the JSON [null]. *)
Definition null_log_world : World :=
  mkWorld true true "2025-02-23T10:00:00.000Z" (fun _ => JNum 1740304800000)
    no_faults sample_defaults roomy ∅ (<[FOOD_LOG := JNull]> ∅) [] [] [].

(** The run from [w] to [w'] notified sync-complete with the time [t]. *)
Definition notified (w w' : World) (t : string) : Prop :=
  exists evs, trace w' = trace w ++ evs /\ SyncComplete t ∈ evs.

(** A document without its [updatedAt] field, as an object. *)
Definition without_stamp (d : Doc) : JVal := JObj (delete "updatedAt" d).

(** [d.items || []] *)
Definition items_or_empty (d : Doc) : JVal :=
  Js.or_else (d !! "items") (JArr []).

(** The documents bulk download copies into a slot whenever they exist,
    with the value it makes of each. *)
Definition mirrored : list (string * Slot * (Doc -> JVal)) :=
  [ ("history", WEEKLY_HISTORY, without_stamp);
    ("foodHistory", FOOD_HISTORY, without_stamp);
    ("favorites", FAVORITE_FOODS, items_or_empty);
    ("recentFoods", RECENT_FOODS, items_or_empty);
    ("weightLog", WEIGHT_LOG, items_or_empty);
    ("streakData", STREAK_DATA, without_stamp) ].

(** When [m] resolves in a world whose Local Store fails the writes
    told by [full], slot [s] holds [x]. *)
Definition sets {A} (full : list Event -> Slot -> JVal -> bool)
    (s : Slot) (x : JVal) (m : M A) : Prop :=
  forall w, storageFull w = full -> is_ok (m w).1 = true ->
    localStorage (m w).2 !! s = Some x.

(** When slot [s] holds [x], it still does after [m]. *)
Definition keeps {A} (s : Slot) (x : JVal) (m : M A) : Prop :=
  forall w, localStorage w !! s = Some x -> localStorage (m w).2 !! s = Some x.

(** A write to slot [s], if it is one, stores [x]. *)
Definition writes_as (s : Slot) (x : JVal) (e : Event) : Prop :=
  match e with
  | LocalSet s' v => s' = s -> v = x
  | _ => True
  end.

(** Not a write to slot [s]. *)
Definition spares (s : Slot) (e : Event) : Prop :=
  match e with
  | LocalSet s' _ => s' <> s
  | _ => True
  end.

(** The two accounts of [shared_world] seen from a browser whose Local
    Store is full. *)
Definition crammed_world : World :=
  mkWorld true true "2025-02-23T10:00:00.000Z" (fun _ => JNum 1740304800000)
    no_faults sample_defaults crammed (remote (shared_world no_faults))
    (localStorage (shared_world no_faults)) [] [] [].

(** ** The outcomes of sign-in reconciliation *)


(** The events of one bulk upload from [w] whose commit had the outcome
    [ok]: the commit of the batch of the eight documents read from the
    Local Store of [w], and, when it is accepted, the save of the
    last-synced timestamp, the sync-complete notification and the events
    of the recipes and templates step. *)
Definition bulk_upload_events (userId : string) (w : World) (ok : bool)
    (evs : list Event) : Prop :=
  exists rest,
    evs = Attempt (BatchCommit userId (local_batch w)) ok :: rest /\
    if ok
    then exists rest',
           rest = [ LocalSet LAST_SYNC (JStr (clock w));
                    SyncComplete (clock w) ] ++ rest' /\
           Forall best_effort_event rest'
    else rest = [].

(** ** Remote writes that happen *)

(** The run of [m] from [w] sends the document [d] to the path of
    [docId] under [userId], and makes no other remote write: accepted,
    the write leaves exactly [d] under that path, whatever was there;
    rejected, it leaves the Remote Store as it was. *)
Definition sends_whole (m : M unit) (w : World) (userId docId : string)
    (d : Doc) : Prop :=
  exists pre ok post,
    trace (m w).2 =
      trace w ++ pre ++ Attempt (SetDoc userId docId d) ok :: post /\
    Forall (fun e => ~ is_remote_write e) (pre ++ post) /\
    (ok = true -> remote (m w).2 !! (userId, docId) = Some d) /\
    (ok = false -> remote (m w).2 = remote w).

(** The run of [m] from [w] starts by committing the batch [ws] under
    [userId]: accepted, the commit leaves under the path of each
    document of the batch exactly that document; rejected, it leaves the
    Remote Store as it was. *)
Definition commits_whole (m : M unit) (w : World) (userId : string)
    (ws : list (string * Doc)) : Prop :=
  exists ok rest,
    trace (m w).2 = trace w ++ Attempt (BatchCommit userId ws) ok :: rest /\
    (ok = true ->
     forall docId d, (docId, d) ∈ ws ->
       remote (m w).2 !! (userId, docId) = Some d) /\
    (ok = false -> remote (m w).2 = remote w).

(** The [updatedAt] field of [d] is the clock reading [now]. *)
Definition stamped_at (now : string) (d : Doc) : Prop :=
  d !! "updatedAt" = Some (JStr now).

(** * Reasoning about runs *)

Lemma blind_lenient P : blind P -> lenient P.
Proof. intros H e. apply H. Qed.

Lemma blind_const (Q : Event -> Prop) : blind (fun _ => Q).
Proof. intros b b' e H. exact H. Qed.

Lemma lenient_const (Q : Event -> Prop) : lenient (fun _ => Q).
Proof. intros e H. exact H. Qed.

#[global] Hint Resolve blind_const lenient_const : core.

Lemma same_env_refl w : same_env w w.
Proof. repeat split. Qed.

Lemma same_env_trans w1 w2 w3 :
  same_env w1 w2 -> same_env w2 w3 -> same_env w1 w3.
Proof.
  unfold same_env. intros (?&?&?&?&?&?&?) (?&?&?&?&?&?&?).
  repeat split; congruence.
Qed.

Lemma Forall_lenient P b evs :
  lenient P -> Forall (P true) evs -> Forall (P b) evs.
Proof.
  intros HP H. destruct b; [done|].
  eapply Forall_impl; [exact H|]. exact HP.
Qed.

Lemma replay_app evs1 evs2 r :
  replay (evs1 ++ evs2) r = replay evs2 (replay evs1 r).
Proof. unfold replay. apply foldl_app. Qed.

Lemma replay_local_app evs1 evs2 l :
  replay_local (evs1 ++ evs2) l = replay_local evs2 (replay_local evs1 l).
Proof. unfold replay_local. apply foldl_app. Qed.

Lemma replay_saved_app evs1 evs2 dbs :
  replay_saved (evs1 ++ evs2) dbs = replay_saved evs2 (replay_saved evs1 dbs).
Proof. unfold replay_saved. apply foldl_app. Qed.

(** ** Stepping through a run *)

Lemma bind_gets {A B} (f : World -> A) (k : A -> M B) w :
  bind (gets f) k w = k (f w) w.
Proof. reflexivity. Qed.

Lemma bind_ret {A B} (a : A) (k : A -> M B) w : bind (ret a) k w = k a w.
Proof. reflexivity. Qed.

Lemma bind_modify {B} (f : World -> World) (k : unit -> M B) w :
  bind (modify f) k w = k tt (f w).
Proof. reflexivity. Qed.

Lemma bind_ok {A B} (m : M A) (k : A -> M B) w a w' :
  m w = (Ok a, w') -> bind m k w = k a w'.
Proof. intros H. unfold bind. by rewrite H. Qed.

Lemma bind_err {A B} (m : M A) (k : A -> M B) w e w' :
  m w = (Err e, w') -> bind m k w = (Err e, w').
Proof. intros H. unfold bind. by rewrite H. Qed.

Lemma bind_assoc {A B C} (m : M A) (f : A -> M B) (g : B -> M C) w :
  bind (bind m f) g w = bind m (fun a => bind (f a) g) w.
Proof. unfold bind. by destruct (m w) as [[a|e] w']. Qed.

Lemma bind_ext {A B} (m : M A) (k k' : A -> M B) w :
  (forall a w', k a w' = k' a w') -> bind m k w = bind m k' w.
Proof. intros H. unfold bind. destruct (m w) as [[a|e] w']; auto. Qed.

(** The guard [!db || !isFirebaseConfigured()] and its variants. *)
Lemma guard_open {B} (k : bool -> bool -> M B) w :
  (let* handle := gets db in
   let* configured := isFirebaseConfigured in
   k handle configured) w = k (db w) (firebaseConfigured w) w.
Proof. reflexivity. Qed.

(** ** Rules for [emits] *)

Ltac emits_split := split; [|split; [|split; [|split; [|split]]]].

Section EmitsRules.
Context {c : string} {P : bool -> Event -> Prop}.

Lemma emits_pure {A} (m : M A) :
  (forall w, (m w).2 = w) -> emits c P m.
Proof.
  intros H w _. exists []. rewrite H, app_nil_r.
  emits_split; [done | apply same_env_refl | done | done | done | done].
Qed.

Lemma emits_ret {A} (a : A) : emits c P (ret a).
Proof. by apply emits_pure. Qed.

Lemma emits_throw {A} (e : Exn) : emits c P (@throw A e).
Proof. by apply emits_pure. Qed.

Lemma emits_gets {A} (f : World -> A) : emits c P (gets f).
Proof. by apply emits_pure. Qed.

Lemma emits_bind {A B} (m : M A) (k : A -> M B) :
  lenient P -> emits c P m -> (forall a, emits c P (k a)) ->
  emits c P (bind m k).
Proof.
  intros HP Hm Hk w Hc. unfold bind.
  destruct (Hm w Hc) as (evs1 & Ht1 & He1 & HF1 & Hr1 & Hl1 & Hs1).
  destruct (m w) as [[a|e] w1]; simpl in *.
  - destruct (Hk a w1) as (evs2 & Ht2 & He2 & HF2 & Hr2 & Hl2 & Hs2).
    { destruct He1 as (?&?&?&?). congruence. }
    exists (evs1 ++ evs2). emits_split.
    + rewrite Ht2, Ht1. by rewrite app_assoc.
    + by eapply same_env_trans.
    + apply Forall_app. split; [|done]. by apply Forall_lenient.
    + by rewrite Hr2, Hr1, replay_app.
    + by rewrite Hl2, Hl1, replay_local_app.
    + by rewrite Hs2, Hs1, replay_saved_app.
  - exists evs1. auto 10.
Qed.

(** The clock is read: the continuation only has to behave at [c]. *)
Lemma emits_bind_now {B} (k : string -> M B) :
  emits c P (k c) -> emits c P (bind new_Date_toISOString k).
Proof.
  intros Hk w Hc. unfold new_Date_toISOString. rewrite bind_gets, Hc.
  by apply Hk.
Qed.

(** A document reference is the path it was built from. *)
Lemma emits_bind_doc {B} (userId docId : string) (k : string * string -> M B) :
  emits c P (k (userId, docId)) -> emits c P (bind (doc userId docId) k).
Proof.
  intros Hk w Hc. unfold doc. rewrite bind_assoc, bind_gets.
  destruct (db w).
  - rewrite bind_ret. by apply Hk.
  - exists []. cbn. rewrite app_nil_r.
    emits_split; [done | apply same_env_refl | done | done | done | done].
Qed.

Lemma emits_bind_ret {A B} (a : A) (k : A -> M B) :
  emits c P (k a) -> emits c P (bind (ret a) k).
Proof. intros Hk w Hc. rewrite bind_ret. by apply Hk. Qed.

Lemma emits_try_catch {A} (m : M A) (h : Exn -> M A) :
  blind P -> emits c P m -> (forall e, emits c P (h e)) ->
  emits c P (try_catch m h).
Proof.
  intros HP Hm Hh w Hc. unfold try_catch.
  destruct (Hm w Hc) as (evs1 & Ht1 & He1 & HF1 & Hr1 & Hl1 & Hs1).
  destruct (m w) as [[a|e] w1]; simpl in *.
  - exists evs1. auto 10.
  - destruct (Hh e w1) as (evs2 & Ht2 & He2 & HF2 & Hr2 & Hl2 & Hs2).
    { destruct He1 as (?&?&?&?). congruence. }
    exists (evs1 ++ evs2). emits_split.
    + rewrite Ht2, Ht1. by rewrite app_assoc.
    + by eapply same_env_trans.
    + apply Forall_app. split; [|done].
      eapply Forall_impl; [exact HF1|]. intros x. apply HP.
    + by rewrite Hr2, Hr1, replay_app.
    + by rewrite Hl2, Hl1, replay_local_app.
    + by rewrite Hs2, Hs1, replay_saved_app.
Qed.

Lemma emits_settle {A} (m : M A) :
  blind P -> emits c P m -> emits c P (settle m).
Proof.
  intros HP Hm w Hc. unfold settle.
  destruct (Hm w Hc) as (evs1 & Ht1 & He1 & HF1 & Hr1 & Hl1 & Hs1).
  destruct (m w) as [r w1]; simpl in *.
  exists evs1. emits_split; try done.
  eapply Forall_impl; [exact HF1|]. intros x. apply HP.
Qed.

Lemma emits_modify (f : World -> World) :
  (forall w, trace (f w) = trace w) -> (forall w, same_env w (f w)) ->
  (forall w, remote (f w) = remote w) ->
  (forall w, localStorage (f w) = localStorage w) ->
  (forall w, recipeDb (f w) = recipeDb w) ->
  (forall w, templateDb (f w) = templateDb w) ->
  emits c P (modify f).
Proof.
  intros Ht He Hr Hl Hs1 Hs2 w _. exists []. simpl.
  rewrite app_nil_r, Hs1, Hs2. auto 10.
Qed.

Lemma emits_saveRecipe (recipe : JVal) :
  P true (Attempt (SaveRecipe recipe) true) ->
  P false (Attempt (SaveRecipe recipe) false) ->
  emits c P (saveRecipe recipe).
Proof.
  intros Ht Hf w _. unfold saveRecipe, bind, attempt, modify.
  destruct (faults w (trace w) _); simpl.
  - exists [Attempt (SaveRecipe recipe) false].
    emits_split; [done | done | by constructor | done | done | done].
  - exists [Attempt (SaveRecipe recipe) true].
    emits_split; [done | done | by constructor | done | done | done].
Qed.

Lemma emits_saveTemplate (template : JVal) :
  P true (Attempt (SaveTemplate template) true) ->
  P false (Attempt (SaveTemplate template) false) ->
  emits c P (saveTemplate template).
Proof.
  intros Ht Hf w _. unfold saveTemplate, bind, attempt, modify.
  destruct (faults w (trace w) _); simpl.
  - exists [Attempt (SaveTemplate template) false].
    emits_split; [done | done | by constructor | done | done | done].
  - exists [Attempt (SaveTemplate template) true].
    emits_split; [done | done | by constructor | done | done | done].
Qed.

Lemma emits_setItem (key : Slot) (data : JVal) :
  P true (LocalSet key data) -> emits c P (setItem key data).
Proof.
  intros He w _. exists [LocalSet key data]. simpl.
  emits_split; [done | done | by constructor | done | done | done].
Qed.

Lemma emits_saveToLocalStorage (key : Slot) (data : JVal) :
  P true (LocalSet key data) -> emits c P (saveToLocalStorage key data).
Proof.
  intros He w _. unfold saveToLocalStorage. rewrite bind_gets.
  destruct (storageFull w (trace w) key data).
  - exists []. simpl. rewrite app_nil_r.
    emits_split; [done | apply same_env_refl | done | done | done | done].
  - exists [LocalSet key data]. simpl.
    emits_split; [done | done | by constructor | done | done | done].
Qed.

Lemma emits_emit (e : Event) :
  P true e -> (forall r, apply_event r e = r) ->
  (forall l, apply_local l e = l) -> (forall dbs, apply_saved dbs e = dbs) ->
  emits c P (emit e).
Proof.
  intros He Hr Hl Hs w _. exists [e]. simpl.
  emits_split;
    [done | done | by constructor | by rewrite Hr | by rewrite Hl | by rewrite Hs].
Qed.

Lemma emits_attempt (call : Call) :
  P true (Attempt call true) -> P false (Attempt call false) ->
  is_write_call call = false -> is_save_call call = false ->
  emits c P (attempt call).
Proof.
  intros Ht Hf Hw Hs w _. unfold attempt.
  destruct (faults w (trace w) call); simpl.
  - exists [Attempt call false].
    emits_split;
      [done | done | by constructor | by destruct call | done | by destruct call].
  - exists [Attempt call true].
    emits_split;
      [done | done | by constructor | by destruct call | done | by destruct call].
Qed.

Lemma emits_setDoc (ref : string * string) (d : Doc) :
  P true (Attempt (SetDoc ref.1 ref.2 d) true) ->
  P false (Attempt (SetDoc ref.1 ref.2 d) false) ->
  emits c P (setDoc ref d).
Proof.
  intros Ht Hf w _. unfold setDoc, bind, attempt, modify.
  destruct (faults w (trace w) _); simpl.
  - exists [Attempt (SetDoc ref.1 ref.2 d) false].
    emits_split; [done | done | by constructor | done | done | done].
  - exists [Attempt (SetDoc ref.1 ref.2 d) true].
    emits_split;
      [done | done | by constructor | by destruct ref | done | done].
Qed.

Lemma emits_deleteDoc (ref : string * string) :
  P true (Attempt (DeleteDoc ref.1 ref.2) true) ->
  P false (Attempt (DeleteDoc ref.1 ref.2) false) ->
  emits c P (deleteDoc ref).
Proof.
  intros Ht Hf w _. unfold deleteDoc, bind, attempt, modify.
  destruct (faults w (trace w) _); simpl.
  - exists [Attempt (DeleteDoc ref.1 ref.2) false].
    emits_split; [done | done | by constructor | done | done | done].
  - exists [Attempt (DeleteDoc ref.1 ref.2) true].
    emits_split;
      [done | done | by constructor | by destruct ref | done | done].
Qed.

Lemma emits_batch_commit (userId : string) (ws : list (string * Doc)) :
  P true (Attempt (BatchCommit userId ws) true) ->
  P false (Attempt (BatchCommit userId ws) false) ->
  emits c P (batch_commit userId ws).
Proof.
  intros Ht Hf w _. unfold batch_commit, bind, attempt, modify.
  destruct (faults w (trace w) _); simpl.
  - exists [Attempt (BatchCommit userId ws) false].
    emits_split; [done | done | by constructor | done | done | done].
  - exists [Attempt (BatchCommit userId ws) true].
    emits_split; [done | done | by constructor | done | done | done].
Qed.

Lemma emits_when (b : bool) (m : M unit) :
  (b = true -> emits c P m) -> emits c P (when b m).
Proof. destruct b; simpl; [auto|]. intros _. apply emits_ret. Qed.

Lemma emits_for_each {A} (l : list A) (body : A -> M unit) :
  lenient P -> (forall x, emits c P (body x)) -> emits c P (for_each l body).
Proof.
  intros HP Hb. induction l as [|x r IH]; simpl.
  - apply emits_ret.
  - apply emits_bind; auto.
Qed.

Lemma emits_filter_list (pred : JVal -> M bool) (l : list JVal) :
  lenient P -> (forall x, emits c P (pred x)) ->
  emits c P (filter_list pred l).
Proof.
  intros HP Hb. induction l as [|x r IH]; simpl.
  - apply emits_ret.
  - apply emits_bind; auto. intros keep.
    apply emits_bind; auto. intros r'. apply emits_ret.
Qed.

Lemma emits_map_settled {A B} (f : A -> M B) (l : list A) :
  blind P -> (forall x, emits c P (f x)) -> emits c P (map_settled f l).
Proof.
  intros HP Hf. pose proof (blind_lenient _ HP) as HL.
  induction l as [|x r IH]; simpl.
  - apply emits_ret.
  - apply emits_bind; auto using emits_settle. intros o.
    apply emits_bind; auto. intros os. apply emits_ret.
Qed.

End EmitsRules.

Lemma emits_weaken {A} c (P Q : bool -> Event -> Prop) (m : M A) :
  (forall b e, P b e -> Q b e) -> emits c P m -> emits c Q m.
Proof.
  intros HPQ Hm w Hc. destruct (Hm w Hc) as (evs & ? & ? & HF & ? & ? & ?).
  exists evs. emits_split; try done.
  eapply Forall_impl; [exact HF|]. apply HPQ.
Qed.

Create HintDb sync discriminated.

#[global] Hint Unfold
  getDoc fetch
  loadFromLocalStorage load_slot save_slot
  loadUserProfile loadDailyTarget loadMacroGoals loadMicronutrientGoals
  loadPreferences loadWeeklyHistory loadRecentFoods loadFavoriteFoods
  loadWeightLog loadStreakData
  saveUserProfile saveDailyTarget saveMacroGoals saveMicronutrientGoals
  savePreferences saveFoodLog saveExerciseLog saveWeeklyHistory saveWaterLog
  markOnboardingComplete saveLastSyncTime
  getAllRecipes getAllTemplates
  prop_of isFirebaseConfigured console_error dispatch_sync_complete
  array_filter if_truthy if_not_nullish if_exists merge_items
  : sync.

(** One step of a syntax-directed proof of [emits]: the side conditions
    on the events themselves are left to the caller. *)
Ltac emits_step :=
  lazymatch goal with
  | |- emits _ _ (ret _) => apply emits_ret
  | |- emits _ _ (throw _) => apply emits_throw
  | |- emits _ _ (gets _) => apply emits_gets
  | |- emits _ _ (doc _ _) => unfold doc
  | |- emits _ _ (modify _) =>
      apply emits_modify; intros;
      [ reflexivity | repeat split | reflexivity | reflexivity
      | reflexivity | reflexivity ]
  | |- emits _ _ (bind new_Date_toISOString _) => apply emits_bind_now
  | |- emits _ _ (bind (doc _ _) _) => apply emits_bind_doc
  | |- emits _ _ (bind (ret _) _) => apply emits_bind_ret
  | |- emits _ _ (bind _ _) => apply emits_bind; [ | | intros ?]
  | |- emits _ _ (try_catch _ _) => apply emits_try_catch; [ | | intros ?]
  | |- emits _ _ (settle _) => apply emits_settle
  | |- emits _ _ (when _ _) => apply emits_when; intros ?
  | |- emits _ _ (for_each _ _) => apply emits_for_each; [ | intros ?]
  | |- emits _ _ (filter_list _ _) => apply emits_filter_list; [ | intros ?]
  | |- emits _ _ (map_settled _ _) => apply emits_map_settled; [ | intros ?]
  | |- emits _ _ (attempt _) => apply emits_attempt
  | |- emits _ _ (setDoc _ _) => apply emits_setDoc
  | |- emits _ _ (deleteDoc _) => apply emits_deleteDoc
  | |- emits _ _ (batch_commit _ _) => apply emits_batch_commit
  | |- emits _ _ (setItem _ _) => apply emits_setItem
  | |- emits _ _ (saveToLocalStorage _ _) => apply emits_saveToLocalStorage
  | |- emits _ _ (saveRecipe _) => apply emits_saveRecipe
  | |- emits _ _ (saveTemplate _) => apply emits_saveTemplate
  | |- emits _ _ (emit _) => apply emits_emit
  | |- emits _ _ (match Some _ with Some _ => _ | None => _ end) =>
      cbv beta iota
  | |- emits _ _ (if ?b then _ else _) => destruct b
  | |- emits _ _ (match ?x with _ => _ end) => destruct x
  | |- emits _ _ (let _ := _ in _) => cbv zeta
  | |- emits _ _ _ => progress autounfold with sync
  end.

Ltac emits_steps := repeat emits_step.

(** Bulk download never writes to the Remote Store. *)
Lemma syncFromCloud_reads_only c userId :
  emits c (fun _ e => ~ is_remote_write e) (syncFromCloud userId).
Proof.
  unfold syncFromCloud. emits_steps; simpl; auto.
Qed.

(** * Every remote write carries [updatedAt] and replaces a whole document *)

Ltac stamped_side :=
  try solve
    [ auto
    | reflexivity
    | intros; reflexivity
    | unfold stamped, upload_batch; simpl;
      repeat constructor; apply lookup_insert_eq ].

Lemma syncRecipesToCloud_stamped c userId recipes :
  emits c (fun _ => stamped c) (syncRecipesToCloud userId recipes).
Proof. unfold syncRecipesToCloud. emits_steps; stamped_side. Qed.

Lemma syncTemplatesToCloud_stamped c userId templates :
  emits c (fun _ => stamped c) (syncTemplatesToCloud userId templates).
Proof. unfold syncTemplatesToCloud. emits_steps; stamped_side. Qed.

Lemma syncToCloud_stamped c userId dataType payload :
  emits c (fun _ => stamped c) (syncToCloud userId dataType payload).
Proof. unfold syncToCloud. emits_steps; stamped_side. Qed.

Lemma uploadLocalToCloud_stamped c userId :
  emits c (fun _ => stamped c) (uploadLocalToCloud userId).
Proof.
  unfold uploadLocalToCloud.
  repeat lazymatch goal with
  | |- emits _ _ (syncRecipesToCloud _ _) => apply syncRecipesToCloud_stamped
  | |- emits _ _ (syncTemplatesToCloud _ _) =>
      apply syncTemplatesToCloud_stamped
  | |- _ => emits_step
  end;
  stamped_side.
Qed.

Lemma apply_writes_other userId ws : forall r ref,
  ref.1 <> userId \/ ref.2 ∉ ws.*1 ->
  apply_writes userId ws r !! ref = r !! ref.
Proof.
  induction ws as [|[k d] ws IH]; intros r ref H; [done|].
  unfold apply_writes in *. simpl. rewrite IH.
  - apply lookup_insert_ne. intros <-. simpl in H.
    destruct H as [H|H]; [done|]. apply H. by left.
  - destruct H as [H|H]; [by left|]. right. intros Hin. apply H. by right.
Qed.

Lemma apply_writes_lookup userId ws : forall r k d,
  NoDup ws.*1 -> (k, d) ∈ ws ->
  apply_writes userId ws r !! (userId, k) = Some d.
Proof.
  induction ws as [|[k0 d0] ws IH]; intros r k d Hnd Hin.
  - by apply elem_of_nil in Hin.
  - apply NoDup_cons in Hnd as [Hk0 Hnd].
    apply elem_of_cons in Hin as [Heq|Hin].
    + injection Heq as -> ->. unfold apply_writes. simpl.
      fold (apply_writes userId ws (<[(userId, k0) := d0]> r)).
      rewrite apply_writes_other; [apply lookup_insert_eq|]. by right.
    + unfold apply_writes. simpl.
      fold (apply_writes userId ws (<[(userId, k0) := d0]> r)). by apply IH.
Qed.

Lemma NoDup_handled_types : NoDup handled_types.
Proof. apply (bool_decide_unpack _). by vm_compute. Qed.


(** * Runs of the Firestore calls *)

Lemma doc_run userId docId w :
  db w = true -> doc userId docId w = (Ok (userId, docId), w).
Proof. intros H. unfold doc. by rewrite bind_gets, H. Qed.

Lemma setDoc_run ref d w :
  setDoc ref d w =
  if faults w (trace w) (SetDoc ref.1 ref.2 d)
  then (Err (Rejected (SetDoc ref.1 ref.2 d)),
        with_trace (trace w ++ [Attempt (SetDoc ref.1 ref.2 d) false]) w)
  else (Ok tt,
        with_remote (<[ref := d]> (remote w))
          (with_trace (trace w ++ [Attempt (SetDoc ref.1 ref.2 d) true]) w)).
Proof.
  unfold setDoc, bind, attempt, modify.
  by destruct (faults w (trace w) (SetDoc ref.1 ref.2 d)).
Qed.

Lemma getDoc_run ref w :
  getDoc ref w =
  if faults w (trace w) (GetDoc ref.1 ref.2)
  then (Err (Rejected (GetDoc ref.1 ref.2)),
        with_trace (trace w ++ [Attempt (GetDoc ref.1 ref.2) false]) w)
  else (Ok (remote w !! ref),
        with_trace (trace w ++ [Attempt (GetDoc ref.1 ref.2) true]) w).
Proof.
  unfold getDoc, bind, attempt, gets.
  by destruct (faults w (trace w) (GetDoc ref.1 ref.2)).
Qed.

Lemma fetch_run userId docId w :
  db w = true ->
  fetch userId docId w =
  if faults w (trace w) (GetDoc userId docId)
  then (Err (Rejected (GetDoc userId docId)),
        with_trace (trace w ++ [Attempt (GetDoc userId docId) false]) w)
  else (Ok (remote w !! (userId, docId)),
        with_trace (trace w ++ [Attempt (GetDoc userId docId) true]) w).
Proof.
  intros H. unfold fetch. rewrite (bind_ok _ _ _ _ _ (doc_run _ _ _ H)).
  apply getDoc_run.
Qed.

Lemma bind_fetch {B} userId docId (k : option Doc -> M B) w :
  db w = true ->
  (let* snap := fetch userId docId in k snap) w =
  if faults w (trace w) (GetDoc userId docId)
  then (Err (Rejected (GetDoc userId docId)),
        with_trace (trace w ++ [Attempt (GetDoc userId docId) false]) w)
  else k (remote w !! (userId, docId))
         (with_trace (trace w ++ [Attempt (GetDoc userId docId) true]) w).
Proof.
  intros Hdb. unfold bind. rewrite (fetch_run _ _ _ Hdb).
  by destruct (faults w (trace w) (GetDoc userId docId)).
Qed.

Lemma bind_fetch_after {B} userId docId (k : option Doc -> M B) w reads :
  db w = true ->
  (let* snap := fetch userId docId in k snap)
    (with_trace (trace w ++ reads) w) =
  if faults w (trace w ++ reads) (GetDoc userId docId)
  then (Err (Rejected (GetDoc userId docId)),
        with_trace
          (trace w ++ reads ++ [Attempt (GetDoc userId docId) false]) w)
  else k (remote w !! (userId, docId))
         (with_trace
            (trace w ++ reads ++ [Attempt (GetDoc userId docId) true]) w).
Proof.
  intros Hdb. rewrite bind_fetch by exact Hdb.
  cbn [faults trace remote with_trace]. rewrite <- !app_assoc.
  by destruct (faults w _ _).
Qed.

Lemma backend_ready_true w userId :
  backend_ready w userId = true ->
  db w = true /\ String.eqb userId "" = false /\ firebaseConfigured w = true.
Proof.
  unfold backend_ready. intros H.
  apply andb_true_iff in H as [H H3]. apply andb_true_iff in H as [H1 H2].
  apply negb_true_iff in H2. done.
Qed.

(** * Templates: prebuilt ones are never uploaded *)

Lemma prop_of_not_null (t : JVal) (k : string) w :
  not_null t = true -> prop_of t k w = (Ok (Js.opt_prop (Some t) k), w).
Proof. by destruct t. Qed.

Lemma prop_of_null (k : string) w : prop_of JNull k w = (Err TypeError, w).
Proof. reflexivity. Qed.

Lemma filter_list_isPrebuilt (l : list JVal) w :
  filter_list
    (fun t =>
       let* isPrebuilt := prop_of t "isPrebuilt" in
       ret (negb (Js.truthy_opt isPrebuilt))) l w =
  if forallb not_null l then (Ok (user_templates l), w)
  else (Err TypeError, w).
Proof.
  induction l as [|t r IH]; [done|].
  cbn [filter_list forallb]. rewrite bind_assoc.
  destruct (not_null t) eqn:Ht.
  - rewrite (bind_ok _ _ _ _ _ (prop_of_not_null t "isPrebuilt" w Ht)).
    rewrite bind_ret. unfold bind at 1. rewrite IH.
    destruct (forallb not_null r); [|done].
    unfold user_templates, is_prebuilt. cbn [List.filter].
    by destruct (negb _).
  - destruct t; try discriminate. by rewrite (bind_err _ _ _ _ _ (prop_of_null _ w)).
Qed.

Lemma user_templates_not_prebuilt (l : list JVal) :
  Forall (fun t => is_prebuilt t = false) (user_templates l).
Proof.
  apply Forall_forall. intros t Hin. apply list_elem_of_In in Hin.
  apply filter_In in Hin as [_ H]. by apply negb_true_iff in H.
Qed.

Lemma swallowed_push_run msg userId docId d w :
  db w = true ->
  try_catch (let* ref := doc userId docId in setDoc ref d)
    (fun err => console_error msg err) w =
  (Ok tt, swallowed_push msg userId docId d w).
Proof.
  intros Hdb. unfold try_catch, swallowed_push.
  rewrite (bind_ok _ _ _ _ _ (doc_run _ _ _ Hdb)), setDoc_run. cbn [fst snd].
  destruct (faults w (trace w) (SetDoc userId docId d)); [|done].
  unfold console_error, emit, modify. cbn. by rewrite <- app_assoc.
Qed.

Lemma backend_ready_guard w userId :
  negb (db w) || String.eqb userId "" || negb (firebaseConfigured w) =
  negb (backend_ready w userId).
Proof.
  unfold backend_ready.
  by destruct (db w), (String.eqb userId ""), (firebaseConfigured w).
Qed.

Lemma syncRecipesToCloud_run_eq w userId recipes :
  backend_ready w userId = true ->
  syncRecipesToCloud userId recipes w =
  (Ok tt,
   swallowed_push "syncRecipesToCloud failed:" userId "recipes"
     (<["updatedAt" := JStr (clock w)]> (<["items" := recipes]> ∅)) w).
Proof.
  intros Hready. unfold syncRecipesToCloud.
  rewrite guard_open, backend_ready_guard, Hready. cbn [negb].
  apply backend_ready_true in Hready as (Hdb & _).
  rewrite <- (swallowed_push_run _ _ _ _ _ Hdb).
  unfold try_catch. rewrite !(bind_ok _ _ _ _ _ (doc_run _ _ _ Hdb)).
  unfold new_Date_toISOString. by rewrite bind_gets.
Qed.

Lemma trace_swallowed_push msg userId docId d w :
  trace (swallowed_push msg userId docId d w) =
  trace w ++ sent_and_logged msg userId docId d w.
Proof.
  unfold swallowed_push, sent_and_logged.
  by destruct (faults w (trace w) (SetDoc userId docId d)).
Qed.

Lemma syncTemplatesToCloud_run_eq w userId templates :
  backend_ready w userId = true ->
  syncTemplatesToCloud userId templates w =
  (Ok tt,
   match sendable_templates templates with
   | Some items =>
       swallowed_push "syncTemplatesToCloud failed:" userId "templates"
         (templates_doc items (clock w)) w
   | None =>
       with_trace
         (trace w ++ [ConsoleError "syncTemplatesToCloud failed:" TypeError]) w
   end).
Proof.
  intros Hready. apply backend_ready_true in Hready as (Hdb & Huid & Hcfg).
  unfold syncTemplatesToCloud. rewrite guard_open, Hdb, Huid, Hcfg.
  cbn [negb orb]. unfold sendable_templates, array_filter.
  destruct (if Js.truthy templates then templates else JArr []) as [| | | |l|];
    try reflexivity.
  destruct (forallb not_null l) eqn:Hnn.
  - unfold try_catch. rewrite bind_assoc. unfold bind at 1.
    rewrite filter_list_isPrebuilt, Hnn.
    rewrite bind_ret, (bind_ok _ _ _ _ _ (doc_run _ _ _ Hdb)).
    unfold new_Date_toISOString. rewrite bind_gets, setDoc_run.
    unfold swallowed_push, templates_doc. cbn [fst snd].
    destruct (faults w (trace w) _); [|done].
    unfold console_error, emit, modify. cbn. by rewrite <- app_assoc.
  - unfold try_catch. rewrite bind_assoc. unfold bind at 1.
    rewrite filter_list_isPrebuilt, Hnn. reflexivity.
Qed.

Lemma syncTemplatesToCloud_run w userId templates :
  backend_ready w userId = true ->
  (syncTemplatesToCloud userId templates w).1 = Ok tt /\
  trace (syncTemplatesToCloud userId templates w).2 =
    trace w ++
    match sendable_templates templates with
    | Some items =>
        sent_and_logged "syncTemplatesToCloud failed:" userId "templates"
          (templates_doc items (clock w)) w
    | None => [ConsoleError "syncTemplatesToCloud failed:" TypeError]
    end.
Proof.
  intros Hready. rewrite (syncTemplatesToCloud_run_eq _ _ _ Hready).
  split; [done|]. cbn [snd].
  destruct (sendable_templates templates); [|done].
  apply trace_swallowed_push.
Qed.

(** C9.  With the backend ready, [syncTemplatesToCloud] resolves, and
    the only call it makes is one write of the [templates] document for
    the items of [sendable_templates]: the templates of the list whose
    [isPrebuilt] field is falsy, so that no prebuilt template is ever
    among the items sent, and the empty list for a [null] (or otherwise
    falsy) template list.  When filtering throws, nothing is sent. *)
Theorem syncTemplatesToCloud_skips_prebuilt (w : World) (userId : string)
    (templates : JVal) (Hready : backend_ready w userId = true) :
  (syncTemplatesToCloud userId templates w).1 = Ok tt /\
  trace (syncTemplatesToCloud userId templates w).2 =
    trace w ++
    match sendable_templates templates with
    | Some items =>
        sent_and_logged "syncTemplatesToCloud failed:" userId "templates"
          (<["updatedAt" := JStr (clock w)]> (<["items" := JArr items]> ∅)) w
    | None => [ConsoleError "syncTemplatesToCloud failed:" TypeError]
    end /\
  (forall items, sendable_templates templates = Some items ->
     Forall (fun t => is_prebuilt t = false) items) /\
  (forall ts, templates = JArr ts -> forallb not_null ts = true ->
     sendable_templates templates =
       Some (List.filter (fun t => negb (is_prebuilt t)) ts)) /\
  (Js.truthy templates = false -> sendable_templates templates = Some []).
Proof.
  destruct (syncTemplatesToCloud_run w userId templates Hready) as [Hres Htr].
  split; [exact Hres|]. split; [exact Htr|]. split; [|split].
  - intros items. unfold sendable_templates.
    destruct (if Js.truthy templates then templates else JArr [])
      as [| | | |l|]; try done.
    destruct (forallb not_null l); [|done].
    intros [= <-]. apply user_templates_not_prebuilt.
  - intros ts -> Hnn. unfold sendable_templates. cbn [Js.truthy].
    by rewrite Hnn.
  - intros Hf. unfold sendable_templates. by rewrite Hf.
Qed.

(** * Single-record push *)

(** Decide the comparisons of string literals in the goal. *)
Ltac eval_eqb :=
  repeat match goal with
  | |- context [String.eqb ?a ?b] =>
      let v := eval vm_compute in (String.eqb a b) in
      lazymatch v with
      | true => change (String.eqb a b) with true
      | false => change (String.eqb a b) with false
      end
  end.

Lemma rethrow_run (msg : string) (e : Exn) w :
  (console_error msg e ;; throw e) w =
  ((Err e : Result unit), with_trace (trace w ++ [ConsoleError msg e]) w).
Proof. reflexivity. Qed.

Lemma syncToCloud_foodLog_run w userId payload :
  backend_ready w userId = true ->
  let get := GetDoc userId "foodLog" in
  let new := foodLog_after (remote w !! (userId, "foodLog")) (clock w) payload in
  let w1 := with_trace (trace w ++ [Attempt get true]) w in
  syncToCloud userId "foodLog" payload w =
  if faults w (trace w) get then
    (Err (Rejected get),
     with_trace (trace w ++ [Attempt get false] ++
                 [ConsoleError "syncToCloud failed:" (Rejected get)]) w)
  else if not_null payload then
    if faults w1 (trace w1) (SetDoc userId "foodLog" new) then
      (Err (Rejected (SetDoc userId "foodLog" new)),
       with_trace (trace w ++ [Attempt get true] ++
                   [Attempt (SetDoc userId "foodLog" new) false] ++
                   [ConsoleError "syncToCloud failed:"
                      (Rejected (SetDoc userId "foodLog" new))]) w)
    else
      (Ok tt,
       with_remote (<[(userId, "foodLog") := new]> (remote w))
         (with_trace (trace w ++ [Attempt get true] ++
                      [Attempt (SetDoc userId "foodLog" new) true]) w))
  else
    (Err TypeError,
     with_trace (trace w ++ [Attempt get true] ++
                 [ConsoleError "syncToCloud failed:" TypeError]) w).
Proof.
  intros Hready. apply backend_ready_true in Hready as (Hdb & Huid & Hcfg).
  intros get new w1.
  unfold syncToCloud. rewrite guard_open, Hdb, Huid, Hcfg.
  cbn [negb orb]. unfold try_catch, new_Date_toISOString.
  rewrite bind_gets. eval_eqb. cbv beta iota. rewrite bind_gets.
  rewrite (bind_ok _ _ _ _ _ (doc_run _ _ _ Hdb)).
  unfold bind at 1. rewrite getDoc_run. cbn [fst snd]. fold get.
  destruct (faults w (trace w) get); cbv beta iota.
  { rewrite rethrow_run. cbn. by rewrite <- app_assoc. }
  fold w1.
  destruct payload; cbn [not_null];
  [ cbn [prop_of Js.prop]; unfold bind at 1; cbn [throw];
    cbv beta iota; rewrite rethrow_run; cbn; by rewrite <- app_assoc
  | unfold prop_of; cbn [Js.prop]; rewrite !bind_ret, setDoc_run;
    cbn [fst snd];
    match goal with
    | |- context [SetDoc userId "foodLog" ?d] => change d with new
    end;
    destruct (faults w1 (trace w1) (SetDoc userId "foodLog" new));
    cbv beta iota;
    [ rewrite rethrow_run; cbn; by rewrite <- !app_assoc
    | unfold w1; cbn; by rewrite <- !app_assoc ] .. ].
Qed.

Lemma syncToCloud_foodLog_ok w userId payload :
  backend_ready w userId = true ->
  is_ok (syncToCloud userId "foodLog" payload w).1 = true ->
  let new := foodLog_after (remote w !! (userId, "foodLog")) (clock w) payload in
  syncToCloud userId "foodLog" payload w =
    (Ok tt,
     with_remote (<[(userId, "foodLog") := new]> (remote w))
       (with_trace (trace w ++ [Attempt (GetDoc userId "foodLog") true] ++
                    [Attempt (SetDoc userId "foodLog" new) true]) w)).
Proof.
  intros Hready Hok new.
  pose proof (syncToCloud_foodLog_run w userId payload Hready) as Hrun.
  cbv zeta in Hrun. fold new in Hrun. rewrite Hrun in Hok |- *.
  destruct (faults w (trace w) (GetDoc userId "foodLog")); [done|].
  destruct (not_null payload); [|done].
  by destruct (faults _ _ (SetDoc userId "foodLog" new)).
Qed.

Lemma foodLog_after_frame snap now payload (k : string) :
  k <> Js.before_T now -> k <> "updatedAt" ->
  foodLog_after snap now payload !! k = default ∅ snap !! k.
Proof.
  intros H1 H2. unfold foodLog_after.
  rewrite lookup_insert_ne by done. by rewrite lookup_insert_ne.
Qed.

Lemma foodLog_after_today snap now payload :
  Js.before_T now <> "updatedAt" ->
  foodLog_after snap now payload !! Js.before_T now = Some (day_entry payload).
Proof.
  intros H. unfold foodLog_after.
  rewrite lookup_insert_ne by done. apply lookup_insert_eq.
Qed.

(** C2.  A [foodLog] push that resolves is a read-modify-write: it
    fetches the remote [foodLog] document, then rewrites it whole, and
    makes no other call.  The rewritten document holds the payload's
    entries, exercise and water under today's date and the clock reading
    under [updatedAt]; under every other key it holds what the fetched
    document held.  Hence, when a push on day [D1] is followed, with the
    remote [foodLog] document left alone in between, by a push on another
    day, the document still holds the first push's entry under [D1]. *)
Theorem syncToCloud_foodLog_read_modify_write (w : World) (userId : string)
    (payload : JVal)
    (Hready : backend_ready w userId = true)
    (Hok : is_ok (syncToCloud userId "foodLog" payload w).1 = true)
    (Hday : String.eqb (Js.before_T (clock w)) "updatedAt" = false) :
  let D1 := Js.before_T (clock w) in
  let old := default ∅ (remote w !! (userId, "foodLog")) in
  let w' := (syncToCloud userId "foodLog" payload w).2 in
  exists new : Doc,
    trace w' = trace w ++ [ Attempt (GetDoc userId "foodLog") true;
                            Attempt (SetDoc userId "foodLog" new) true ] /\
    remote w' = <[(userId, "foodLog") := new]> (remote w) /\
    new !! "updatedAt" = Some (JStr (clock w)) /\
    new !! D1 = Some (day_entry payload) /\
    (forall k, k <> D1 -> k <> "updatedAt" -> new !! k = old !! k) /\
    (forall (w1 : World) (payload2 : JVal),
       remote w1 !! (userId, "foodLog") = remote w' !! (userId, "foodLog") ->
       backend_ready w1 userId = true ->
       is_ok (syncToCloud userId "foodLog" payload2 w1).1 = true ->
       Js.before_T (clock w1) <> D1 ->
       exists new2 : Doc,
         remote (syncToCloud userId "foodLog" payload2 w1).2
           !! (userId, "foodLog") = Some new2 /\
         new2 !! D1 = Some (day_entry payload)).
Proof.
  intros D1 old w'. apply String.eqb_neq in Hday.
  pose proof (syncToCloud_foodLog_ok w userId payload Hready Hok) as Hrun.
  cbv zeta in Hrun.
  set (new := foodLog_after (remote w !! (userId, "foodLog")) (clock w) payload)
    in *.
  assert (Hw' : w' = (Ok tt,
     with_remote (<[(userId, "foodLog") := new]> (remote w))
       (with_trace (trace w ++ [Attempt (GetDoc userId "foodLog") true] ++
                    [Attempt (SetDoc userId "foodLog" new) true]) w)).2).
  { unfold w'. by rewrite Hrun. }
  cbn [snd] in Hw'. exists new.
  assert (Htoday : new !! D1 = Some (day_entry payload))
    by (by apply foodLog_after_today).
  split; [by rewrite Hw'|]. split; [by rewrite Hw'|].
  split; [apply lookup_insert_eq|]. split; [exact Htoday|].
  split; [intros k Hk1 Hk2; by apply foodLog_after_frame|].
  intros w1 payload2 Hsame Hready1 Hok1 Hother.
  pose proof (syncToCloud_foodLog_ok w1 userId payload2 Hready1 Hok1) as Hrun1.
  cbv zeta in Hrun1. rewrite Hrun1. cbn [snd remote with_remote].
  eexists. split; [apply lookup_insert_eq|].
  rewrite foodLog_after_frame by done.
  rewrite Hsame, Hw'. cbn [remote with_remote].
  by rewrite lookup_insert_eq.
Qed.

Lemma push_doc_run w userId docId d :
  db w = true ->
  try_catch (let* ref := doc userId docId in setDoc ref d)
    (fun err => console_error "syncToCloud failed:" err ;; throw err) w =
  push_outcome userId docId d w.
Proof.
  intros Hdb. unfold try_catch, push_outcome.
  rewrite (bind_ok _ _ _ _ _ (doc_run _ _ _ Hdb)), setDoc_run. cbn [fst snd].
  destruct (faults w (trace w) (SetDoc userId docId d)); [|done].
  unfold console_error, emit, throw. rewrite bind_modify.
  cbn. by rewrite <- app_assoc.
Qed.

Lemma is_handled_cases dataType :
  is_handled dataType = true ->
  dataType = "foodLog" \/
  dataType ∈ ["profile"; "history"; "foodHistory"; "favorites";
              "recentFoods"; "weightLog"; "streakData"].
Proof.
  unfold is_handled, handled_types. cbn [existsb].
  repeat match goal with
  | |- context [String.eqb dataType ?s] =>
      destruct (String.eqb_spec dataType s) as [->|?];
      [ intros _; first [ by left | right; set_solver ] | ]
  end.
  done.
Qed.

Lemma syncToCloud_unknown_run w userId dataType payload :
  is_handled dataType = false ->
  syncToCloud userId dataType payload w = (Ok tt, w).
Proof.
  unfold is_handled, handled_types. cbn [existsb]. intros H.
  repeat (apply orb_false_iff in H as [? H]).
  unfold syncToCloud. rewrite guard_open.
  destruct (negb (db w) || String.eqb userId "" || negb (firebaseConfigured w));
    [done|].
  unfold try_catch, new_Date_toISOString. rewrite bind_gets.
  repeat match goal with
  | Hne : String.eqb dataType ?s = false |- _ => rewrite Hne; clear Hne
  end.
  done.
Qed.

Lemma syncToCloud_wrapped_run w userId dataType payload :
  backend_ready w userId = true ->
  dataType ∈ ["profile"; "history"; "foodHistory"; "favorites";
              "recentFoods"; "weightLog"; "streakData"] ->
  syncToCloud userId dataType payload w =
  push_outcome userId dataType (wrapped dataType payload (clock w)) w.
Proof.
  intros Hready Hin. apply backend_ready_true in Hready as (Hdb & Huid & Hcfg).
  unfold syncToCloud. rewrite guard_open, Hdb, Huid, Hcfg. cbn [negb orb].
  repeat (apply elem_of_cons in Hin as [->|Hin]);
    [ .. | by apply elem_of_nil in Hin ].
  all: rewrite <- (push_doc_run _ _ _ _ Hdb);
    unfold try_catch at 1, new_Date_toISOString; rewrite bind_gets;
    eval_eqb; reflexivity.
Qed.

Lemma syncToCloud_not_ready_run w userId dataType payload :
  backend_ready w userId = false ->
  syncToCloud userId dataType payload w = (Ok tt, w).
Proof.
  unfold backend_ready, syncToCloud. intros H. rewrite guard_open.
  destruct (db w), (String.eqb userId ""), (firebaseConfigured w); done.
Qed.

Ltac invert_elem H :=
  repeat (apply elem_of_cons in H as [H|H]);
  [ try discriminate H; try (injection H as <-) .. | by apply elem_of_nil in H ].

(** C8.  A push whose record type tag is not one of the eight handled
    types resolves and leaves the world as it found it: no remote read,
    no remote write, no message.  A push of a handled type, with the
    backend ready, makes at least one remote call; and whenever the
    transport fails a call of a push, the push rejects, with the
    transport's error. *)
Theorem syncToCloud_unknown_noop_failure_rejects (w : World)
    (userId dataType : string) (payload : JVal) :
  (is_handled dataType = false ->
   syncToCloud userId dataType payload w = (Ok tt, w)) /\
  (is_handled dataType = true -> backend_ready w userId = true ->
   exists c ok rest,
     trace (syncToCloud userId dataType payload w).2 =
       trace w ++ Attempt c ok :: rest) /\
  (exists evs,
     trace (syncToCloud userId dataType payload w).2 = trace w ++ evs /\
     forall c, Attempt c false ∈ evs ->
       (syncToCloud userId dataType payload w).1 = Err (Rejected c)).
Proof.
  split; [apply syncToCloud_unknown_run|].
  assert (Hfood : backend_ready w userId = true -> dataType = "foodLog" ->
    exists c ok rest evs,
      trace (syncToCloud userId dataType payload w).2 = trace w ++ evs /\
      evs = Attempt c ok :: rest /\
      forall c, Attempt c false ∈ evs ->
        (syncToCloud userId dataType payload w).1 = Err (Rejected c)).
  { intros Hready ->.
    rewrite (syncToCloud_foodLog_run w userId payload Hready).
    destruct (faults w (trace w) (GetDoc userId "foodLog")).
    { eexists _, _, _, _. split; [reflexivity|]. split; [reflexivity|].
      intros c H. invert_elem H. done. }
    destruct (not_null payload).
    2: { eexists _, _, _, _. split; [reflexivity|]. split; [reflexivity|].
         intros c H. invert_elem H. }
    destruct (faults _ _ (SetDoc _ _ _)).
    - eexists _, _, _, _. split; [reflexivity|]. split; [reflexivity|].
      intros c H. invert_elem H. done.
    - eexists _, _, _, _. split; [reflexivity|]. split; [reflexivity|].
      intros c H. invert_elem H. }
  assert (Hwrap : backend_ready w userId = true ->
    dataType ∈ ["profile"; "history"; "foodHistory"; "favorites";
                "recentFoods"; "weightLog"; "streakData"] ->
    exists c ok rest evs,
      trace (syncToCloud userId dataType payload w).2 = trace w ++ evs /\
      evs = Attempt c ok :: rest /\
      forall c, Attempt c false ∈ evs ->
        (syncToCloud userId dataType payload w).1 = Err (Rejected c)).
  { intros Hready Hin.
    rewrite (syncToCloud_wrapped_run w userId dataType payload Hready Hin).
    unfold push_outcome. destruct (faults _ _ (SetDoc _ _ _)).
    - eexists _, _, _, _. split; [reflexivity|]. split; [reflexivity|].
      intros c H. invert_elem H. done.
    - eexists _, _, _, _. split; [reflexivity|]. split; [reflexivity|].
      intros c H. invert_elem H. }
  split.
  - intros Hh Hready. apply is_handled_cases in Hh as [Hh|Hh].
    + destruct (Hfood Hready Hh) as (c & ok & rest & evs & Ht & -> & _). eauto.
    + destruct (Hwrap Hready Hh) as (c & ok & rest & evs & Ht & -> & _). eauto.
  - destruct (backend_ready w userId) eqn:Hready.
    2: { exists []. rewrite syncToCloud_not_ready_run by done.
         split; [by rewrite app_nil_r|]. intros c H. by apply elem_of_nil in H. }
    destruct (is_handled dataType) eqn:Hh.
    2: { exists []. rewrite syncToCloud_unknown_run by done.
         split; [by rewrite app_nil_r|]. intros c H. by apply elem_of_nil in H. }
    apply is_handled_cases in Hh as [Hh|Hh].
    + destruct (Hfood eq_refl Hh) as (c & ok & rest & evs & Ht & _ & H). eauto.
    + destruct (Hwrap eq_refl Hh) as (c & ok & rest & evs & Ht & _ & H). eauto.
Qed.

(** * Account erasure *)

Lemma delete_one_run userId docId w :
  db w = true ->
  (let* ref := doc userId docId in deleteDoc ref) w =
  if faults w (trace w) (DeleteDoc userId docId)
  then (Err (Rejected (DeleteDoc userId docId)),
        with_trace (trace w ++ [Attempt (DeleteDoc userId docId) false]) w)
  else (Ok tt,
        with_remote (delete (userId, docId) (remote w))
          (with_trace (trace w ++ [Attempt (DeleteDoc userId docId) true]) w)).
Proof.
  intros Hdb. rewrite (bind_ok _ _ _ _ _ (doc_run _ _ _ Hdb)).
  unfold deleteDoc, bind, attempt, modify. cbn [fst snd].
  by destruct (faults w (trace w) (DeleteDoc userId docId)).
Qed.

Lemma map_settled_deleteDoc userId (docIds : list string) : forall w,
  db w = true ->
  exists oks outcomes w',
    map_settled (fun docId => let* ref := doc userId docId in deleteDoc ref)
      docIds w = (Ok outcomes, w') /\
    length oks = length docIds /\
    trace w' = trace w ++ deletions userId docIds oks /\
    db w' = true.
Proof.
  induction docIds as [|d r IH]; intros w Hdb.
  - exists [], [], w. simpl. by rewrite app_nil_r.
  - cbn [map_settled]. unfold bind at 1, settle.
    rewrite (delete_one_run userId d w Hdb).
    destruct (faults w (trace w) (DeleteDoc userId d)) eqn:Hf.
    + set (w1 := with_trace _ w).
      destruct (IH w1 Hdb) as (oks & outs & w2 & Hrun & Hlen & Htr & Hdb').
      exists (false :: oks), (Err (Rejected (DeleteDoc userId d)) :: outs), w2.
      unfold bind at 1. rewrite Hrun. simpl. repeat split; [lia| |done].
      rewrite Htr. unfold w1. simpl. by rewrite <- app_assoc.
    + set (w1 := with_remote _ _).
      destruct (IH w1 Hdb) as (oks & outs & w2 & Hrun & Hlen & Htr & Hdb').
      exists (true :: oks), (Ok tt :: outs), w2.
      unfold bind at 1. rewrite Hrun. simpl. repeat split; [lia| |done].
      rewrite Htr. unfold w1. simpl. by rewrite <- app_assoc.
Qed.

(** C6.  For a non-empty user id and a configured backend, erasing an
    account resolves whatever the transport does, and issues one delete
    for each of the ten document types, in the order of
    [USER_DATA_DOCS], and nothing else: each deletion is attempted
    whatever the outcomes [oks] of the others, the tenth included when
    the first nine fail. *)
Theorem deleteUserCloudData_attempts_all (w : World) (userId : string)
    (Hdb : db w = true) (Hcfg : firebaseConfigured w = true)
    (Huid : String.eqb userId "" = false) :
  (deleteUserCloudData userId w).1 = Ok tt /\
  exists oks : list bool,
    length oks = 10%nat /\
    trace (deleteUserCloudData userId w).2 =
      trace w ++ deletions userId
        [ "profile"; "foodLog"; "history"; "foodHistory"; "favorites";
          "recentFoods"; "weightLog"; "streakData"; "recipes"; "templates" ]
        oks.
Proof.
  destruct (map_settled_deleteDoc userId USER_DATA_DOCS w Hdb)
    as (oks & outs & w2 & Hrun & Hlen & Htr & _).
  assert (Hsame : deleteUserCloudData userId w = (Ok tt, w2)).
  { unfold deleteUserCloudData. rewrite guard_open, Hdb, Hcfg, Huid.
    cbn [negb orb]. by rewrite (bind_ok _ _ _ _ _ Hrun). }
  rewrite Hsame. split; [done|].
  exists oks. split; [exact Hlen | exact Htr].
Qed.

(** * Bulk upload *)

Lemma swallow_resolves (m : M unit) (msg : string) w :
  (try_catch m (fun err => console_error msg err) w).1 = Ok tt.
Proof. unfold try_catch. by destruct (m w) as [[[]|e] w']. Qed.

Lemma syncRecipesToCloud_resolves userId recipes w :
  (syncRecipesToCloud userId recipes w).1 = Ok tt.
Proof.
  unfold syncRecipesToCloud. rewrite guard_open.
  destruct (negb _ || _ || negb _); [done|]. apply swallow_resolves.
Qed.

Lemma syncTemplatesToCloud_resolves userId templates w :
  (syncTemplatesToCloud userId templates w).1 = Ok tt.
Proof.
  unfold syncTemplatesToCloud. rewrite guard_open.
  destruct (negb _ || _ || negb _); [done|]. apply swallow_resolves.
Qed.

Lemma upload_recipes_and_templates_events c userId :
  emits c (fun _ => best_effort_event) (upload_recipes_and_templates userId).
Proof.
  unfold upload_recipes_and_templates, syncRecipesToCloud,
    syncTemplatesToCloud.
  emits_steps; try solve [auto | reflexivity | intros; reflexivity];
    simpl; auto.
Qed.

Lemma uploadLocalToCloud_unfold w userId :
  db w = true -> firebaseConfigured w = true ->
  uploadLocalToCloud userId w =
  (batch_commit userId (local_batch w) ;;
   let* now := new_Date_toISOString in
   saveLastSyncTime now ;;
   dispatch_sync_complete now ;;
   upload_recipes_and_templates userId) w.
Proof.
  intros Hdb Hcfg. unfold uploadLocalToCloud.
  rewrite guard_open, Hdb, Hcfg. reflexivity.
Qed.

Lemma batch_commit_run userId ws w :
  batch_commit userId ws w =
  if faults w (trace w) (BatchCommit userId ws)
  then (Err (Rejected (BatchCommit userId ws)),
        with_trace (trace w ++ [Attempt (BatchCommit userId ws) false]) w)
  else (Ok tt,
        with_remote (apply_writes userId ws (remote w))
          (with_trace (trace w ++ [Attempt (BatchCommit userId ws) true]) w)).
Proof.
  unfold batch_commit, bind, attempt, modify.
  by destruct (faults w (trace w) (BatchCommit userId ws)).
Qed.

Lemma uploadLocalToCloud_rejected w userId :
  db w = true -> firebaseConfigured w = true ->
  faults w (trace w) (BatchCommit userId (local_batch w)) = true ->
  uploadLocalToCloud userId w =
    (Err (Rejected (BatchCommit userId (local_batch w))),
     with_trace
       (trace w ++ [Attempt (BatchCommit userId (local_batch w)) false]) w).
Proof.
  intros Hdb Hcfg Hf. rewrite (uploadLocalToCloud_unfold w userId Hdb Hcfg).
  unfold bind at 1. by rewrite batch_commit_run, Hf.
Qed.

Lemma replay_local_attempts rest : forall l,
  Forall best_effort_event rest -> replay_local rest l = l.
Proof.
  induction rest as [|e rest IH]; intros l HF; [done|].
  apply Forall_cons in HF as [He HF]. cbn.
  fold (replay_local rest (apply_local l e)). rewrite IH by done.
  by destruct e.
Qed.

Lemma uploadLocalToCloud_committed_run w userId :
  db w = true -> firebaseConfigured w = true ->
  faults w (trace w) (BatchCommit userId (local_batch w)) = false ->
  uploadLocalToCloud userId w =
  upload_recipes_and_templates userId (after_commit userId w).
Proof.
  intros Hdb Hcfg Hf. rewrite (uploadLocalToCloud_unfold w userId Hdb Hcfg).
  unfold bind at 1. rewrite batch_commit_run, Hf.
  unfold new_Date_toISOString. rewrite bind_gets.
  unfold saveLastSyncTime, save_slot, setItem, emit.
  rewrite !bind_assoc, !bind_modify.
  unfold dispatch_sync_complete, emit. rewrite bind_modify.
  f_equal. unfold after_commit, with_trace, with_localStorage, with_remote.
  cbn. by rewrite <- !app_assoc.
Qed.

Lemma upload_recipes_and_templates_resolves userId w :
  (upload_recipes_and_templates userId w).1 = Ok tt.
Proof. apply swallow_resolves. Qed.

Lemma replay_best_effort_other rest : forall r (ref : string * string),
  Forall best_effort_event rest ->
  ref.2 <> "recipes" -> ref.2 <> "templates" ->
  replay rest r !! ref = r !! ref.
Proof.
  induction rest as [|e rest IH]; intros r ref HF H1 H2; [done|].
  apply Forall_cons in HF as [He HF]. cbn. fold (replay rest (apply_event r e)).
  rewrite IH by done.
  destruct e as [[] []| | |]; try done. cbn in *.
  apply lookup_insert_ne. intros <-. cbn in *. by destruct He.
Qed.



(** Bulk upload, when its commit succeeds. *)
Lemma uploadLocalToCloud_committed w userId :
  db w = true -> firebaseConfigured w = true ->
  faults w (trace w) (BatchCommit userId (local_batch w)) = false ->
  exists wU,
    uploadLocalToCloud userId w = (Ok tt, wU) /\
    same_env w wU /\
    localStorage wU = <[LAST_SYNC := JStr (clock w)]> (localStorage w) /\
    (forall docId d, (docId, d) ∈ local_batch w ->
       remote wU !! (userId, docId) = Some d).
Proof.
  intros Hdb Hcfg Hf.
  rewrite (uploadLocalToCloud_committed_run w userId Hdb Hcfg Hf).
  destruct (upload_recipes_and_templates_events (clock w) userId
              (after_commit userId w) eq_refl)
    as (rest & Ht & He & HF & Hr & Hl & _).
  pose proof (upload_recipes_and_templates_resolves userId
                (after_commit userId w)) as Hres.
  destruct (upload_recipes_and_templates userId (after_commit userId w))
    as [res wU].
  cbn [fst snd] in *. subst res. exists wU.
  split; [done|]. split; [exact He|]. split.
  - rewrite Hl. by apply replay_local_attempts.
  - intros docId d Hin. rewrite Hr.
    assert (Hk : docId ∈ handled_types).
    { change handled_types with (local_batch w).*1.
      apply list_elem_of_fmap. by exists (docId, d). }
    rewrite replay_best_effort_other; [| done | |].
    + cbn [remote after_commit with_trace with_remote with_localStorage].
      apply apply_writes_lookup; [|done].
      change (local_batch w).*1 with handled_types.
      apply NoDup_handled_types.
    + cbn. intros ->. revert Hk. apply (bool_decide_unpack _). by vm_compute.
    + cbn. intros ->. revert Hk. apply (bool_decide_unpack _). by vm_compute.
Qed.

(** C4.  With the backend configured, bulk upload commits one batch.
    When the commit is rejected, bulk upload rejects with the commit's
    error and does nothing more.  When the commit succeeds, bulk upload
    saves the last-synced timestamp and emits the sync-complete
    notification next, before any event of the recipes and templates
    step, and resolves whatever happens in that step, whose events are
    only reads of the local collections, writes of the [recipes] and
    [templates] documents and console messages. *)
Theorem uploadLocalToCloud_commit_then_best_effort (w : World)
    (userId : string)
    (Hdb : db w = true) (Hcfg : firebaseConfigured w = true) :
  let commit := BatchCommit userId (local_batch w) in
  (faults w (trace w) commit = true ->
   uploadLocalToCloud userId w =
     (Err (Rejected commit),
      with_trace (trace w ++ [Attempt commit false]) w)) /\
  (faults w (trace w) commit = false ->
   (uploadLocalToCloud userId w).1 = Ok tt /\
   exists rest,
     trace (uploadLocalToCloud userId w).2 =
       trace w ++ [ Attempt commit true;
                    LocalSet LAST_SYNC (JStr (clock w));
                    SyncComplete (clock w) ] ++ rest /\
     Forall best_effort_event rest /\
     localStorage (uploadLocalToCloud userId w).2 =
       <[LAST_SYNC := JStr (clock w)]> (localStorage w)).
Proof.
  intros commit. split; [by apply uploadLocalToCloud_rejected|].
  intros Hf. rewrite (uploadLocalToCloud_committed_run w userId Hdb Hcfg Hf).
  split; [apply upload_recipes_and_templates_resolves|].
  destruct (upload_recipes_and_templates_events (clock w) userId
              (after_commit userId w) eq_refl)
    as (rest & Ht & _ & HF & _ & Hl & _).
  exists rest. split; [|split; [exact HF|]].
  - rewrite Ht. cbn. by rewrite <- app_assoc.
  - rewrite Hl. by apply replay_local_attempts.
Qed.

(** One bulk upload, seen from outside. *)
Lemma uploadLocalToCloud_one_upload w userId :
  db w = true -> firebaseConfigured w = true ->
  let commit := BatchCommit userId (local_batch w) in
  let ok := negb (faults w (trace w) commit) in
  exists evs,
    trace (uploadLocalToCloud userId w).2 = trace w ++ evs /\
    bulk_upload_events userId w ok evs /\
    (ok = true ->
     (uploadLocalToCloud userId w).1 = Ok tt /\
     forall docId d, (docId, d) ∈ local_batch w ->
       remote (uploadLocalToCloud userId w).2 !! (userId, docId) = Some d) /\
    (ok = false ->
     (uploadLocalToCloud userId w).1 = Err (Rejected commit) /\
     remote (uploadLocalToCloud userId w).2 = remote w).
Proof.
  intros Hdb Hcfg commit ok. unfold ok, commit.
  destruct (faults w (trace w) (BatchCommit userId (local_batch w))) eqn:Hf;
    cbn [negb].
  - rewrite (uploadLocalToCloud_rejected w userId Hdb Hcfg Hf).
    eexists. split; [reflexivity|]. split; [by eexists|]. by split.
  - destruct (uploadLocalToCloud_committed w userId Hdb Hcfg Hf)
      as (wU & Hrun & _ & _ & Hdocs).
    destruct (upload_recipes_and_templates_events (clock w) userId
                (after_commit userId w) eq_refl)
      as (rest & Ht & _ & HF & _).
    rewrite <- (uploadLocalToCloud_committed_run w userId Hdb Hcfg Hf) in Ht.
    eexists. split; [|split; [|split; [|done]]].
    + rewrite Ht. cbn. rewrite <- app_assoc. reflexivity.
    + eexists. split; [reflexivity|]. by exists rest.
    + intros _. rewrite Hrun. by split.
Qed.

(** * Every remote write carries [updatedAt] and replaces a whole document *)

Ltac no_writes :=
  simpl;
  repeat (constructor;
          [simpl; solve [by intros [] | discriminate | done]|]);
  try constructor.

Lemma push_outcome_sends (m : M unit) w userId docId d :
  m w = push_outcome userId docId d w -> sends_whole m w userId docId d.
Proof.
  intros Hrun. unfold sends_whole. rewrite Hrun. unfold push_outcome.
  destruct (faults w (trace w) (SetDoc userId docId d)).
  - exists [], false, [ConsoleError "syncToCloud failed:"
                          (Rejected (SetDoc userId docId d))].
    split; [reflexivity|]. split; [no_writes|by split].
  - exists [], true, []. split; [reflexivity|]. split; [constructor|].
    split; [|done]. intros _. apply lookup_insert_eq.
Qed.

Lemma swallowed_push_sends (m : M unit) msg w userId docId d :
  m w = (Ok tt, swallowed_push msg userId docId d w) ->
  sends_whole m w userId docId d.
Proof.
  intros Hrun. unfold sends_whole. rewrite Hrun. unfold swallowed_push.
  destruct (faults w (trace w) (SetDoc userId docId d)).
  - exists [], false, [ConsoleError msg (Rejected (SetDoc userId docId d))].
    split; [reflexivity|]. split; [no_writes|by split].
  - exists [], true, []. split; [reflexivity|]. split; [constructor|].
    split; [|done]. intros _. apply lookup_insert_eq.
Qed.

Lemma foodLog_push_sends w userId payload :
  backend_ready w userId = true ->
  faults w (trace w) (GetDoc userId "foodLog") = false ->
  not_null payload = true ->
  sends_whole (syncToCloud userId "foodLog" payload) w userId "foodLog"
    (foodLog_after (remote w !! (userId, "foodLog")) (clock w) payload).
Proof.
  intros Hready Hread Hnn. unfold sends_whole.
  pose proof (syncToCloud_foodLog_run w userId payload Hready) as Hrun.
  cbv zeta in Hrun. rewrite Hrun, Hread, Hnn.
  set (new := foodLog_after _ _ _).
  destruct (faults _ _ (SetDoc userId "foodLog" new)).
  - exists [Attempt (GetDoc userId "foodLog") true], false,
      [ConsoleError "syncToCloud failed:"
         (Rejected (SetDoc userId "foodLog" new))].
    split; [reflexivity|]. split; [no_writes|by split].
  - exists [Attempt (GetDoc userId "foodLog") true], true, [].
    split; [reflexivity|]. split; [no_writes|].
    split; [|done]. intros _. apply lookup_insert_eq.
Qed.

Lemma wrapped_stamped dataType payload now :
  stamped_at now (wrapped dataType payload now).
Proof.
  unfold stamped_at, wrapped. destruct (existsb _ _); apply lookup_insert_eq.
Qed.

Lemma local_batch_stamped w :
  Forall (fun kd : string * Doc => stamped_at (clock w) kd.2) (local_batch w).
Proof.
  unfold local_batch, upload_batch, stamped_at.
  repeat constructor; apply lookup_insert_eq.
Qed.

(** C7.  With the backend ready, each operation that writes to the
    Remote Store does write, a whole document stamped with the clock
    reading of the operation (one operation reads the same clock value
    at every [new Date()]).  Bulk upload first commits the batch of the
    eight documents built from the Local Store, one for each record
    type and each carrying [updatedAt].  A single-record push of one of
    the seven spread or list types sends the payload's own fields, or
    the payload as [items], with [updatedAt]; a [foodLog] push whose
    read was answered sends the fetched document with today's entry and
    [updatedAt] replaced.  The recipes and templates writes send the
    items with [updatedAt].  In each case the write is attempted
    whatever the Remote Store holds; accepted, it leaves under its path
    exactly the document sent, so that no field of the previous document
    survives unless the new document carries it; rejected, it leaves the
    Remote Store as it was.  And these operations make no other remote
    write that is not stamped: every document of every write they
    attempt carries the clock reading, and the Remote Store changes by
    the replay of the accepted writes alone. *)
Theorem remote_writes_stamped_and_whole (w : World) (userId dataType : string)
    (payload recipes templates : JVal)
    (Hready : backend_ready w userId = true) :
  let now := clock w in
  (commits_whole (uploadLocalToCloud userId) w userId (local_batch w) /\
   (local_batch w).*1 = handled_types /\ NoDup handled_types /\
   Forall (fun kd : string * Doc => stamped_at now kd.2) (local_batch w)) /\
  (dataType ∈ ["profile"; "history"; "foodHistory"; "favorites";
               "recentFoods"; "weightLog"; "streakData"] ->
   sends_whole (syncToCloud userId dataType payload) w userId dataType
     (wrapped dataType payload now) /\
   stamped_at now (wrapped dataType payload now)) /\
  (faults w (trace w) (GetDoc userId "foodLog") = false ->
   not_null payload = true ->
   let new := foodLog_after (remote w !! (userId, "foodLog")) now payload in
   sends_whole (syncToCloud userId "foodLog" payload) w userId "foodLog" new /\
   stamped_at now new) /\
  (let d : Doc := <["updatedAt" := JStr now]> (<["items" := recipes]> ∅) in
   sends_whole (syncRecipesToCloud userId recipes) w userId "recipes" d /\
   stamped_at now d) /\
  (forall items, sendable_templates templates = Some items ->
     sends_whole (syncTemplatesToCloud userId templates) w userId "templates"
       (templates_doc items now) /\
     stamped_at now (templates_doc items now)) /\
  writes_stamped_whole_docs (uploadLocalToCloud userId) w /\
  writes_stamped_whole_docs (syncToCloud userId dataType payload) w /\
  writes_stamped_whole_docs (syncRecipesToCloud userId recipes) w /\
  writes_stamped_whole_docs (syncTemplatesToCloud userId templates) w.
Proof.
  intros now.
  pose proof (backend_ready_true _ _ Hready) as (Hdb & Huid & Hcfg).
  assert (Hof : forall m : M unit,
             emits (clock w) (fun _ => stamped (clock w)) m ->
             writes_stamped_whole_docs m w).
  { intros m Hm. destruct (Hm w eq_refl) as (evs & Ht & _ & HF & Hr & _).
    by exists evs. }
  split; [|split; [|split; [|split; [|split]]]].
  - split; [|split; [reflexivity|split;
                     [apply NoDup_handled_types | apply local_batch_stamped]]].
    destruct (uploadLocalToCloud_one_upload w userId Hdb Hcfg)
      as (evs & Ht & (rest & -> & _) & Hok & Hko).
    eexists _, rest. split; [exact Ht|]. split.
    + intros H. by destruct (Hok H).
    + intros H. by destruct (Hko H).
  - intros Hin. split; [|apply wrapped_stamped].
    apply push_outcome_sends. by apply syncToCloud_wrapped_run.
  - intros Hread Hnn new. split; [by apply foodLog_push_sends|].
    apply lookup_insert_eq.
  - split; [|apply lookup_insert_eq].
    eapply swallowed_push_sends. by apply syncRecipesToCloud_run_eq.
  - intros items Hitems. split; [|apply lookup_insert_eq].
    eapply swallowed_push_sends.
    rewrite (syncTemplatesToCloud_run_eq _ _ _ Hready), Hitems. reflexivity.
  - split; [apply Hof, uploadLocalToCloud_stamped|].
    split; [apply Hof, syncToCloud_stamped|].
    split; [apply Hof, syncRecipesToCloud_stamped|].
    apply Hof, syncTemplatesToCloud_stamped.
Qed.


(** * Bulk download *)

Ltac assoc_step :=
  etransitivity; [| symmetry; apply bind_assoc]; apply bind_ext; intros.

Lemma syncFromCloud_unfold w userId :
  db w = true -> firebaseConfigured w = true ->
  syncFromCloud userId w =
  try_catch
    (download_pass userId ;;
     let* now := new_Date_toISOString in
     saveLastSyncTime now ;;
     dispatch_sync_complete now)
    (fun err => console_error "syncFromCloud failed:" err) w.
Proof.
  intros Hdb Hcfg. unfold syncFromCloud.
  rewrite guard_open, Hdb, Hcfg. cbn [negb orb].
  unfold try_catch.
  match goal with
  | |- match ?a w with _ => _ end = match ?b w with _ => _ end =>
      assert (Hbody : forall w0, a w0 = b w0);
      [ | by rewrite Hbody ]
  end.
  clear. intros w. unfold download_pass.
  do 19 assoc_step. reflexivity.
Qed.

Lemma lenient_download_event : lenient download_event.
Proof. intros [c b| | |]; simpl; [|done..]. intros [? _]. by split. Qed.

#[global] Hint Resolve lenient_download_event : core.

Lemma download_pass_events c userId :
  emits c download_event (download_pass userId).
Proof.
  unfold download_pass.
  emits_steps; try solve [auto | reflexivity | intros; reflexivity];
    simpl; auto; try done.
Qed.

Lemma syncFromCloud_not_ready_run w userId :
  db w && firebaseConfigured w = false ->
  syncFromCloud userId w = (Ok tt, w).
Proof.
  intros H. unfold syncFromCloud. rewrite guard_open.
  by destruct (db w), (firebaseConfigured w).
Qed.

Lemma syncFromCloud_resolves w userId :
  (syncFromCloud userId w).1 = Ok tt.
Proof.
  unfold syncFromCloud. rewrite guard_open.
  destruct (negb _ || negb _); [done|]. apply swallow_resolves.
Qed.

Lemma download_event_quiet ok evs :
  Forall (download_event ok) evs -> Forall (fun e => ~ announces e) evs.
Proof.
  intros H. eapply Forall_impl; [exact H|].
  intros [c b|s v| |]; simpl; [tauto | | done..].
  intros Hs. destruct s; first [tauto | by destruct Hs].
Qed.

Lemma download_event_clean evs :
  Forall (download_event true) evs -> Forall (fun e => ~ failure e) evs.
Proof.
  intros H. eapply Forall_impl; [exact H|].
  intros [c b|s v| |]; simpl; [ | tauto | done..].
  intros [_ Hb]. rewrite Hb; auto.
Qed.

Lemma announce_run w :
  (let* now := new_Date_toISOString in
   saveLastSyncTime now ;; dispatch_sync_complete now) w =
  (Ok tt, announced w).
Proof.
  unfold new_Date_toISOString. rewrite bind_gets.
  unfold saveLastSyncTime, save_slot, setItem, emit.
  rewrite !bind_assoc, !bind_modify.
  unfold dispatch_sync_complete, emit, modify. f_equal.
  unfold announced, with_trace, with_localStorage. cbn.
  by rewrite <- app_assoc.
Qed.

Lemma syncFromCloud_run w userId :
  db w = true -> firebaseConfigured w = true ->
  syncFromCloud userId w =
  match download_pass userId w with
  | (Ok _, w1) => (Ok tt, announced w1)
  | (Err err, w1) =>
      (Ok tt,
       with_trace
         (trace w1 ++ [ConsoleError "syncFromCloud failed:" err]) w1)
  end.
Proof.
  intros Hdb Hcfg. rewrite (syncFromCloud_unfold w userId Hdb Hcfg).
  unfold try_catch, bind at 1.
  destruct (download_pass userId w) as [[[]|err] w1]; [|done].
  by rewrite announce_run.
Qed.

(** C5.  Whatever the user id, the world and the transport, bulk
    download resolves.  Its events are none (backend not configured),
    or those of a pass in which every call succeeded, followed by the
    save of the last-synced timestamp and the sync-complete
    notification, or those of a pass cut short by an error, followed by
    the console message for the error caught: in that case the
    timestamp is not saved and nothing is notified.  So the timestamp
    and the notification come only with a pass without any failure. *)
Theorem syncFromCloud_never_throws (w : World) (userId : string) :
  (syncFromCloud userId w).1 = Ok tt /\
  exists evs,
    trace (syncFromCloud userId w).2 = trace w ++ evs /\
    ( evs = [] \/
      (exists pass,
         evs = pass ++ [ LocalSet LAST_SYNC (JStr (clock w));
                         SyncComplete (clock w) ] /\
         Forall (download_event true) pass) \/
      (exists pass err,
         evs = pass ++ [ConsoleError "syncFromCloud failed:" err] /\
         Forall (download_event false) pass) ) /\
    (Exists announces evs -> Forall (fun e => ~ failure e) evs).
Proof.
  destruct (db w && firebaseConfigured w) eqn:Hready.
  2: { rewrite syncFromCloud_not_ready_run by done. split; [done|].
       exists []. rewrite app_nil_r. split; [done|]. split; [by left|].
       intros H. by apply Exists_nil in H. }
  apply andb_true_iff in Hready as [Hdb Hcfg].
  rewrite (syncFromCloud_run w userId Hdb Hcfg).
  destruct (download_pass_events (clock w) userId w eq_refl)
    as (pass & Ht & He & HF & _).
  destruct (download_pass userId w) as [[[]|err] w1]; cbn [fst snd] in *.
  - destruct He as (_ & _ & Hc & _).
    split; [done|].
    exists (pass ++ [LocalSet LAST_SYNC (JStr (clock w)); SyncComplete (clock w)]).
    split; [cbn; rewrite Ht, Hc; by rewrite <- app_assoc|].
    split; [right; left; eauto|]. intros _.
    apply Forall_app. split; [by apply download_event_clean|].
    repeat constructor; simpl; auto.
  - split; [done|].
    exists (pass ++ [ConsoleError "syncFromCloud failed:" err]).
    split; [cbn; rewrite Ht; by rewrite <- app_assoc|].
    split; [right; right; eauto|]. intros Hex.
    apply Exists_app in Hex as [Hex|Hex].
    + apply download_event_quiet in HF.
      apply Exists_exists in Hex as (e & Hin & Ha).
      rewrite Forall_forall in HF. by destruct (HF e Hin).
    + apply Exists_cons in Hex as [Hex|Hex]; [done|].
      by apply Exists_nil in Hex.
Qed.

(** * Sign-in reconciliation *)

Lemma load_slot_run key w : load_slot key w = (Ok (loaded w key), w).
Proof. reflexivity. Qed.

Lemma loadFromLocalStorage_run key d w :
  loadFromLocalStorage key d w = (Ok (stored w key d), w).
Proof. reflexivity. Qed.

Lemma syncOnSignIn_check_run w userId :
  firebaseConfigured w = true -> db w = true ->
  syncOnSignIn (Some userId) w =
  if faults w (trace w) (GetDoc userId "profile")
  then (Err (Rejected (GetDoc userId "profile")),
        with_trace (trace w ++ [Attempt (GetDoc userId "profile") false]) w)
  else
    let w1 := with_trace (trace w ++ [Attempt (GetDoc userId "profile") true]) w in
    match remote w !! (userId, "profile") with
    | Some _ => syncFromCloud userId w1
    | None =>
        (let* profile := loadUserProfile in
         let* hasLocalData :=
           (if Js.truthy profile then ret true
            else
              let* foodLog := loadFromLocalStorage FOOD_LOG (JArr []) in
              let* len := prop_of foodLog "length" in
              ret (Js.gt_zero len)) in
         when hasLocalData (uploadLocalToCloud userId)) w1
    end.
Proof.
  intros Hcfg Hdb. unfold syncOnSignIn, isFirebaseConfigured.
  rewrite bind_gets, Hcfg. cbn [negb].
  unfold bind at 1. rewrite (fetch_run _ _ _ Hdb).
  destruct (faults w (trace w) (GetDoc userId "profile")); [done|].
  by destruct (remote w !! (userId, "profile")).
Qed.

Section SignInRuns.
Context (w : World) (userId : string).
Context (Hcfg : firebaseConfigured w = true) (Hdb : db w = true).
Context (Hcheck : faults w (trace w) (GetDoc userId "profile") = false).

Let w1 := with_trace (trace w ++ [Attempt (GetDoc userId "profile") true]) w.

Lemma syncOnSignIn_download_run :
  is_Some (remote w !! (userId, "profile")) ->
  syncOnSignIn (Some userId) w = syncFromCloud userId w1.
Proof.
  intros [d Hd].
  rewrite (syncOnSignIn_check_run w userId Hcfg Hdb), Hcheck. cbv zeta.
  by rewrite Hd.
Qed.

Lemma syncOnSignIn_upload_run :
  remote w !! (userId, "profile") = None ->
  Js.truthy (loaded w USER_PROFILE) = true \/
  (exists x l, stored w FOOD_LOG (JArr []) = JArr (x :: l)) ->
  syncOnSignIn (Some userId) w = uploadLocalToCloud userId w1.
Proof.
  intros Hnone Hlocal.
  rewrite (syncOnSignIn_check_run w userId Hcfg Hdb), Hcheck. cbv zeta.
  rewrite Hnone. fold w1. unfold loadUserProfile.
  rewrite (bind_ok _ _ _ _ _ (load_slot_run USER_PROFILE w1)).
  change (loaded w1 USER_PROFILE) with (loaded w USER_PROFILE).
  destruct (Js.truthy (loaded w USER_PROFILE)) eqn:Hp; [done|].
  destruct Hlocal as [?|(x & l & Hfl)]; [done|].
  rewrite bind_assoc.
  rewrite (bind_ok _ _ _ _ _ (loadFromLocalStorage_run FOOD_LOG _ w1)).
  change (stored w1 FOOD_LOG (JArr [])) with (stored w FOOD_LOG (JArr [])).
  rewrite Hfl. reflexivity.
Qed.


End SignInRuns.





(** C10.  With a user and the backend configured, sign-in reconciliation
    rejects when the profile existence check is rejected, and when the
    bulk upload it starts is rejected at its batch commit, with the
    error of the rejected call; when the remote profile exists it
    resolves, whatever fails inside the bulk download it starts.  The
    auth state-change handler awaits it without a handler of its own:
    when sign-in reconciliation rejects, so does the handler, with the
    same error, after setting the user and without clearing [loading]. *)
Theorem syncOnSignIn_propagates_check_and_upload (w : World)
    (userId : string)
    (Hcfg : firebaseConfigured w = true) (Hdb : db w = true) :
  let check := GetDoc userId "profile" in
  let w1 := with_trace (trace w ++ [Attempt check true]) w in
  let commit := BatchCommit userId (local_batch w) in
  (faults w (trace w) check = true ->
   (syncOnSignIn (Some userId) w).1 = Err (Rejected check)) /\
  (faults w (trace w) check = false ->
   remote w !! (userId, "profile") = None ->
   Js.truthy (loaded w USER_PROFILE) = true \/
   (exists x l, stored w FOOD_LOG (JArr []) = JArr (x :: l)) ->
   faults w1 (trace w1) commit = true ->
   (syncOnSignIn (Some userId) w).1 = Err (Rejected commit)) /\
  (faults w (trace w) check = false ->
   is_Some (remote w !! (userId, "profile")) ->
   (syncOnSignIn (Some userId) w).1 = Ok tt) /\
  (forall (st : AuthState) (err : Exn),
     (syncOnSignIn (Some userId) w).1 = Err err ->
     (authStateChanged (Some userId) st w).1.1 = Err err /\
     user (authStateChanged (Some userId) st w).1.2 = Some userId /\
     loading (authStateChanged (Some userId) st w).1.2 = loading st).
Proof.
  intros check w1 commit. split; [|split; [|split]].
  - intros Hf. rewrite (syncOnSignIn_check_run w userId Hcfg Hdb).
    fold check. by rewrite Hf.
  - intros Hf Hnone Hlocal Hcommit.
    rewrite (syncOnSignIn_upload_run w userId Hcfg Hdb Hf Hnone Hlocal).
    fold check w1.
    by rewrite (uploadLocalToCloud_rejected w1 userId Hdb Hcfg Hcommit).
  - intros Hf Hsome.
    rewrite (syncOnSignIn_download_run w userId Hcfg Hdb Hf Hsome).
    apply syncFromCloud_resolves.
  - intros st err Herr. unfold authStateChanged.
    destruct (syncOnSignIn (Some userId) w) as [[[]|e] w'] eqn:Hrun;
      cbn [fst snd] in *; [done|]. by injection Herr as ->.
Qed.

(** * The upload and download cycle *)

Lemma fetch_ok userId docId w :
  db w = true -> (forall t c, faults w t c = false) ->
  fetch userId docId w =
    (Ok (remote w !! (userId, docId)),
     with_trace (trace w ++ [Attempt (GetDoc userId docId) true]) w).
Proof. intros Hdb Hnf. by rewrite (fetch_run _ _ _ Hdb), Hnf. Qed.

Ltac fetch_next Hdb Hnf :=
  match goal with
  | |- context [bind (fetch ?u ?k) ?K ?W] =>
      rewrite (bind_ok (fetch u k) K W _ _ (fetch_ok u k W Hdb Hnf))
  end.

(** Spreading an object into a document and stripping [updatedAt] again
    gives the object back when it had no [updatedAt] of its own. *)
Lemma plain_roundtrip (v : JVal) (x : JVal) :
  is_plain_object v = true ->
  JObj (delete "updatedAt" (<["updatedAt" := x]> (Js.spread v))) = v.
Proof.
  destruct v as [| | | | |m]; try done. cbn.
  destruct (m !! "updatedAt") eqn:Hm; [done|]. intros _.
  rewrite delete_insert_eq. f_equal. by apply delete_id.
Qed.

Lemma or_else_truthy (v d : JVal) :
  Js.truthy v = true -> Js.or_else (Some v) d = v.
Proof. intros H. unfold Js.or_else. by rewrite H. Qed.

Lemma flag_true (v : JVal) :
  is_flag v = true -> Js.truthy v = true -> v = JBool true.
Proof.
  destruct v as [|[]| | | |]; cbn; try done.
  all: intros H1 H2; rewrite H2 in H1; done.
Qed.

Ltac lookup_fields :=
  repeat first
    [ rewrite lookup_insert_eq
    | rewrite lookup_insert_ne by (intros ?; discriminate) ].

Ltac restoring_side :=
  try solve
    [ auto
    | reflexivity
    | intros; reflexivity
    | exact I
    | split; [discriminate | reflexivity]
    | split; [discriminate | symmetry; apply flag_true; assumption] ].

(** The pass of a bulk download that finds the documents of the batch
    uploaded from [w]: every slot it writes gets the value the slot read
    in [w]. *)
Lemma download_pass_restoring w W userId :
  db W = true -> (forall t c, faults W t c = false) ->
  clock W = clock w ->
  (forall docId d, (docId, d) ∈ local_batch w ->
     remote W !! (userId, docId) = Some d) ->
  well_shaped w = true ->
  exists evs,
    localStorage (download_pass userId W).2 =
      replay_local evs (localStorage W) /\
    Forall (restoring w) evs /\
    same_env W (download_pass userId W).2.
Proof.
  intros Hdb Hnf Hc Hdocs Hshape.
  unfold well_shaped in Hshape.
  repeat (apply andb_true_iff in Hshape as [Hshape ?]).
  unfold download_pass.
  do 8 fetch_next Hdb Hnf.
  cbn [remote with_trace].
  unfold local_batch, upload_batch in Hdocs.
  pose proof (Hdocs _ _ ltac:(do 0 apply list_elem_of_further; apply list_elem_of_here)) as D1.
  pose proof (Hdocs _ _ ltac:(do 1 apply list_elem_of_further; apply list_elem_of_here)) as D2.
  pose proof (Hdocs _ _ ltac:(do 2 apply list_elem_of_further; apply list_elem_of_here)) as D3.
  pose proof (Hdocs _ _ ltac:(do 3 apply list_elem_of_further; apply list_elem_of_here)) as D4.
  pose proof (Hdocs _ _ ltac:(do 4 apply list_elem_of_further; apply list_elem_of_here)) as D5.
  pose proof (Hdocs _ _ ltac:(do 5 apply list_elem_of_further; apply list_elem_of_here)) as D6.
  pose proof (Hdocs _ _ ltac:(do 6 apply list_elem_of_further; apply list_elem_of_here)) as D7.
  pose proof (Hdocs _ _ ltac:(do 7 apply list_elem_of_further; apply list_elem_of_here)) as D8.
  clear Hdocs.
  rewrite D1, D2, D3, D4, D5, D6, D7, D8.
  cbn [if_exists].
  match goal with
  | |- exists evs, localStorage (?p ?W8).2 = _ /\ _ =>
      assert (Hem : emits (clock w) (fun _ => restoring w) p);
      [ | destruct (Hem W8 Hc) as (evs & _ & He & HF & _ & Hl & _);
          exists evs; split; [exact Hl | split; [exact HF | exact He]] ]
  end.
  lookup_fields.
  rewrite (plain_roundtrip _ _ Hshape), (plain_roundtrip _ _ H4),
    (plain_roundtrip _ _ H3).
  rewrite (or_else_truthy _ _ H2), (or_else_truthy _ _ H1),
    (or_else_truthy _ _ H0).
  assert (Hfood : emits (clock w) (fun _ => restoring w)
    (let* iso := new_Date_toISOString in
     if_truthy
       ((<["updatedAt":=JStr (clock w)]>
          (<[Js.before_T (clock w) :=
               JObj (<["water":=stored w WATER_LOG (JNum 0)]>
                       (<["exercise":=stored w EXERCISE_LOG (JArr [])]>
                          (<["entries":=stored w FOOD_LOG (JArr [])]> ∅)))]>
             ∅) : Doc) !! Js.before_T iso)
       (fun todayData =>
          let* entries := prop_of todayData "entries" in
          if_truthy entries saveFoodLog ;;
          let* exercise := prop_of todayData "exercise" in
          if_truthy exercise saveExerciseLog ;;
          let* water := prop_of todayData "water" in
          if_not_nullish water saveWaterLog))).
  { apply emits_bind_now.
    destruct (decide (Js.before_T (clock w) = "updatedAt")) as [E|NE].
    - rewrite E. lookup_fields.
      repeat first
        [ progress cbn [prop_of Js.prop]
        | progress eval_eqb
        | progress cbv beta iota
        | emits_step ]; auto.
    - rewrite lookup_insert_ne by done. rewrite lookup_insert_eq.
      repeat first
        [ progress cbn [prop_of Js.prop]
        | progress lookup_fields
        | emits_step ]; restoring_side. }
  repeat lazymatch goal with
  | |- emits _ _ (bind (bind new_Date_toISOString _) _) =>
      apply emits_bind; [auto | exact Hfood | intros ?]
  | |- _ => emits_step
  end; restoring_side.
Qed.

Lemma replay_local_restoring w evs : forall (l : gmap Slot JVal) key,
  Forall (restoring w) evs ->
  l !! key = localStorage w !! key \/ l !! key = Some (read_slot w key) ->
  replay_local evs l !! key = localStorage w !! key \/
  replay_local evs l !! key = Some (read_slot w key).
Proof.
  induction evs as [|e evs IH]; intros l key HF Hl; [done|].
  apply Forall_cons in HF as [He HF]. cbn.
  fold (replay_local evs (apply_local l e)). apply IH; [done|].
  destruct e as [c ok|s v| |]; try done. cbn in *. destruct He as [_ ->].
  destruct (decide (s = key)) as [->|Hne].
  - right. apply lookup_insert_eq.
  - by rewrite lookup_insert_ne.
Qed.

Lemma replay_local_keeps_last_sync w evs : forall (l : gmap Slot JVal),
  Forall (restoring w) evs ->
  replay_local evs l !! LAST_SYNC = l !! LAST_SYNC.
Proof.
  induction evs as [|e evs IH]; intros l HF; [done|].
  apply Forall_cons in HF as [He HF]. cbn.
  fold (replay_local evs (apply_local l e)). rewrite IH by done.
  destruct e as [c ok|s v| |]; try done. cbn in *. destruct He as [Hs _].
  by rewrite lookup_insert_ne.
Qed.

Lemma read_slot_restored w w' key :
  slotDefault w' = slotDefault w ->
  localStorage w' !! key = localStorage w !! key \/
  localStorage w' !! key = Some (read_slot w key) ->
  read_slot w' key = read_slot w key.
Proof.
  intros Hd Hl. unfold read_slot, stored, upload_default.
  rewrite Hd. by destruct Hl as [-> | ->].
Qed.

Lemma upsert_length (item : JVal) (items : list JVal) :
  (length items <= length (upsert item items))%nat.
Proof.
  unfold upsert. destruct (existsb (same_id item) items).
  - by rewrite length_map.
  - rewrite length_app. lia.
Qed.

Lemma replay_saved_length evs : forall dbs,
  (length dbs.1 <= length (replay_saved evs dbs).1)%nat /\
  (length dbs.2 <= length (replay_saved evs dbs).2)%nat.
Proof.
  induction evs as [|e evs IH]; intros dbs; [done|].
  cbn. fold (replay_saved evs (apply_saved dbs e)).
  destruct (IH (apply_saved dbs e)) as [H1 H2].
  assert (length dbs.1 <= length (apply_saved dbs e).1 /\
          length dbs.2 <= length (apply_saved dbs e).2)%nat as [H3 H4].
  { destruct e as [[] []| | |]; cbn; auto using upsert_length. }
  lia.
Qed.

Lemma upload_then_download_events c userId :
  emits c (fun _ _ => True) (upload_then_download userId).
Proof.
  unfold upload_then_download. apply emits_bind; [auto| |intros _].
  - eapply emits_weaken; [|apply uploadLocalToCloud_stamped]. done.
  - eapply emits_weaken; [|apply syncFromCloud_reads_only]. done.
Qed.

(** The Local Store after the cycle, slot by slot. *)
Lemma upload_then_download_slots w userId :
  db w = true -> firebaseConfigured w = true ->
  (forall t c, faults w t c = false) -> well_shaped w = true ->
  (upload_then_download userId w).1 = Ok tt /\
  slotDefault (upload_then_download userId w).2 = slotDefault w /\
  localStorage (upload_then_download userId w).2 !! LAST_SYNC =
    Some (JStr (clock w)) /\
  forall key, key <> LAST_SYNC ->
    localStorage (upload_then_download userId w).2 !! key =
      localStorage w !! key \/
    localStorage (upload_then_download userId w).2 !! key =
      Some (read_slot w key).
Proof.
  intros Hdb Hcfg Hnf Hshape.
  destruct (uploadLocalToCloud_committed w userId Hdb Hcfg (Hnf _ _))
    as (wU & Hup & HeU & HlU & Hdocs).
  unfold upload_then_download. rewrite (bind_ok _ _ _ _ _ Hup).
  destruct HeU as (HdbU & HcfgU & HcU & _ & HfU & HdU & _).
  rewrite Hdb in HdbU. rewrite Hcfg in HcfgU.
  assert (HnfU : forall t c, faults wU t c = false)
    by (intros; by rewrite HfU).
  rewrite (syncFromCloud_run wU userId HdbU HcfgU).
  destruct (download_pass_restoring w wU userId HdbU HnfU HcU Hdocs Hshape)
    as (evs & Hl & HF & He).
  destruct He as (_ & _ & Hc1 & _ & _ & Hd1 & _).
  assert (Hlast : localStorage (download_pass userId wU).2 !! LAST_SYNC =
                  Some (JStr (clock w))).
  { rewrite Hl, (replay_local_keeps_last_sync w) by done.
    rewrite HlU. apply lookup_insert_eq. }
  assert (Hkeys : forall key, key <> LAST_SYNC ->
    localStorage (download_pass userId wU).2 !! key = localStorage w !! key \/
    localStorage (download_pass userId wU).2 !! key = Some (read_slot w key)).
  { intros key Hkey. rewrite Hl. apply replay_local_restoring; [done|].
    left. rewrite HlU. by apply lookup_insert_ne. }
  destruct (download_pass userId wU) as [[[]|err] w1]; cbn [fst snd] in *.
  - split; [done|]. split; [cbn; congruence|]. split.
    + cbn. rewrite Hc1, HcU. apply lookup_insert_eq.
    + intros key Hkey. cbn. rewrite lookup_insert_ne by done. by apply Hkeys.
  - split; [done|]. split; [cbn; congruence|]. split; [exact Hlast|].
    intros key Hkey. cbn. by apply Hkeys.
Qed.

(** C3, as amended.  With the backend configured, no call rejected, and
    the Local Store holding the shapes the service is written for
    ([well_shaped]), bulk upload followed immediately by bulk download
    resolves and leaves every data slot reading as it did before the
    upload.  The last-synced slot is not restored: it holds the clock
    reading of the cycle.  The recipe and template collections change
    only by the upserts of the saves recorded in the trace, so they never
    lose an item. *)
Theorem upload_then_download_restores_data_slots (w : World)
    (userId : string)
    (Hdb : db w = true) (Hcfg : firebaseConfigured w = true)
    (Hnf : forall t c, faults w t c = false)
    (Hshape : well_shaped w = true) :
  (upload_then_download userId w).1 = Ok tt /\
  restores data_slot w (upload_then_download userId w).2 /\
  localStorage (upload_then_download userId w).2 !! LAST_SYNC =
    Some (JStr (clock w)) /\
  (exists evs,
     trace (upload_then_download userId w).2 = trace w ++ evs /\
     (recipeDb (upload_then_download userId w).2,
      templateDb (upload_then_download userId w).2) =
       replay_saved evs (recipeDb w, templateDb w)) /\
  (length (recipeDb w) <=
     length (recipeDb (upload_then_download userId w).2))%nat /\
  (length (templateDb w) <=
     length (templateDb (upload_then_download userId w).2))%nat.
Proof.
  destruct (upload_then_download_slots w userId Hdb Hcfg Hnf Hshape)
    as (Hres & Hd & Hlast & Hkeys).
  destruct (upload_then_download_events (clock w) userId w eq_refl)
    as (evs & Ht & _ & _ & _ & _ & Hs).
  split; [exact Hres|]. split; [|split; [exact Hlast|split]].
  - intros key Hkey. apply read_slot_restored; [exact Hd|].
    apply Hkeys. by destruct key.
  - exists evs. by split.
  - destruct (replay_saved_length evs (recipeDb w, templateDb w)) as [H1 H2].
    rewrite <- Hs in H1, H2. by split.
Qed.

(** C3, as stated, fails: in a browser used before sign-in, with no call
    rejected, the cycle does not restore every slot, for it sets the
    last-synced timestamp. *)
Lemma upload_then_download_changes_last_sync :
  ~ restores every_slot (used_world no_faults)
      (upload_then_download "u1" (used_world no_faults)).2.
Proof.
  intros H. specialize (H LAST_SYNC eq_refl).
  vm_compute in H. discriminate H.
Qed.

(** The shapes matter: a food history stored as an array comes back from
    the cycle as an object keyed by index. *)
Example upload_then_download_reshapes_array :
  let w := with_localStorage (<[FOOD_HISTORY := JArr [JNum 7]]> ∅)
             (fresh_world no_faults) in
  read_slot w FOOD_HISTORY = JArr [JNum 7] /\
  read_slot (upload_then_download "u1" w).2 FOOD_HISTORY =
    JObj (<["0" := JNum 7]> ∅).
Proof. split; vm_compute; reflexivity. Qed.

(** * The theorems at concrete worlds *)


Lemma syncToCloud_foodLog_read_modify_write_witness :
  backend_ready (fresh_world no_faults) "u1" = true /\
  exists new : Doc,
    remote (syncToCloud "u1" "foodLog" apple_day (fresh_world no_faults)).2 =
      <[("u1", "foodLog") := new]> ∅ /\
    new !! "2025-02-23" = Some (day_entry apple_day).
Proof.
  split; [reflexivity|].
  assert (Hok : is_ok (syncToCloud "u1" "foodLog" apple_day
                         (fresh_world no_faults)).1 = true)
    by (vm_compute; reflexivity).
  destruct (syncToCloud_foodLog_read_modify_write (fresh_world no_faults)
              "u1" apple_day eq_refl Hok eq_refl)
    as (new & _ & Hr & _ & Hd & _).
  exists new. split; [exact Hr | exact Hd].
Defined.

Lemma uploadLocalToCloud_commit_then_best_effort_witness :
  db (fresh_world no_faults) = true /\
  firebaseConfigured (fresh_world no_faults) = true /\
  (uploadLocalToCloud "u1" (fresh_world no_faults)).1 = Ok tt.
Proof.
  split; [reflexivity|]. split; [reflexivity|].
  destruct (uploadLocalToCloud_commit_then_best_effort
              (fresh_world no_faults) "u1" eq_refl eq_refl) as [_ H].
  destruct (H eq_refl) as [Hres _]. exact Hres.
Defined.

Lemma deleteUserCloudData_attempts_all_witness :
  db (fresh_world nine_deletions_fail) = true /\
  (deleteUserCloudData "u1" (fresh_world nine_deletions_fail)).1 = Ok tt /\
  exists oks : list bool,
    length oks = 10%nat /\
    trace (deleteUserCloudData "u1" (fresh_world nine_deletions_fail)).2 =
      trace (fresh_world nine_deletions_fail) ++
      deletions "u1"
        [ "profile"; "foodLog"; "history"; "foodHistory"; "favorites";
          "recentFoods"; "weightLog"; "streakData"; "recipes"; "templates" ]
        oks.
Proof.
  split; [reflexivity|].
  apply (deleteUserCloudData_attempts_all (fresh_world nine_deletions_fail)
           "u1"); reflexivity.
Defined.

Lemma syncToCloud_unknown_noop_failure_rejects_witness :
  is_handled "recipes" = false /\
  syncToCloud "u1" "recipes" (JArr []) (fresh_world no_faults) =
  (Ok tt, fresh_world no_faults).
Proof.
  split; [reflexivity|].
  destruct (syncToCloud_unknown_noop_failure_rejects (fresh_world no_faults)
              "u1" "recipes" (JArr [])) as [H _].
  apply H. reflexivity.
Defined.

Lemma syncTemplatesToCloud_skips_prebuilt_witness :
  backend_ready (fresh_world no_faults) "u1" = true /\
  sendable_templates (JArr [prebuilt_template; own_template]) =
    Some [own_template].
Proof.
  split; [reflexivity|].
  destruct (syncTemplatesToCloud_skips_prebuilt (fresh_world no_faults) "u1"
              (JArr [prebuilt_template; own_template]) eq_refl)
    as (_ & _ & _ & H & _).
  rewrite (H _ eq_refl eq_refl). vm_compute. reflexivity.
Defined.

Lemma syncOnSignIn_propagates_check_and_upload_witness :
  firebaseConfigured (fresh_world reads_fail) = true /\
  db (fresh_world reads_fail) = true /\
  (syncOnSignIn (Some "u1") (fresh_world reads_fail)).1 =
    Err (Rejected (GetDoc "u1" "profile")).
Proof.
  split; [reflexivity|]. split; [reflexivity|].
  destruct (syncOnSignIn_propagates_check_and_upload (fresh_world reads_fail)
              "u1" eq_refl eq_refl) as [H _].
  apply H. reflexivity.
Defined.

Lemma upload_then_download_restores_data_slots_witness :
  well_shaped (used_world no_faults) = true /\
  restores data_slot (used_world no_faults)
    (upload_then_download "u1" (used_world no_faults)).2.
Proof.
  split; [vm_compute; reflexivity|].
  apply (upload_then_download_restores_data_slots (used_world no_faults) "u1");
    [reflexivity | reflexivity | intros; reflexivity | vm_compute; reflexivity].
Defined.

Lemma remote_writes_stamped_and_whole_witness :
  backend_ready (used_world no_faults) "u1" = true /\
  exists d : Doc,
    remote (syncToCloud "u1" "favorites" (JArr [JStr "oats"])
              (used_world no_faults)).2 !! ("u1", "favorites") = Some d /\
    d !! "updatedAt" = Some (JStr "2025-02-23T10:00:00.000Z") /\
    d !! "items" = Some (JArr [JStr "oats"]).
Proof.
  split; [reflexivity|].
  destruct (remote_writes_stamped_and_whole (used_world no_faults) "u1"
              "favorites" (JArr [JStr "oats"]) JNull JNull eq_refl)
    as (_ & Hpush & _).
  destruct Hpush as [(pre & ok & post & _ & _ & Hok & Hko) Hstamp].
  { do 3 apply list_elem_of_further. apply list_elem_of_here. }
  exists (wrapped "favorites" (JArr [JStr "oats"])
            (clock (used_world no_faults))).
  split; [|split; [exact Hstamp | vm_compute; reflexivity]].
  apply Hok. destruct ok; [reflexivity|]. exfalso.
  assert (Hsame : remote (syncToCloud "u1" "favorites" (JArr [JStr "oats"])
                            (used_world no_faults)).2 !! ("u1", "favorites") =
                  remote (used_world no_faults) !! ("u1", "favorites"))
    by (by rewrite Hko).
  revert Hsame. vm_compute. discriminate.
Defined.


(** * Further properties of the service *)

(** ** Offline mode *)

(** X1.  With the backend not configured, every entry point of the service
    resolves at once and leaves the world untouched: no remote call, no
    local write, no message. *)
Theorem unconfigured_is_noop (w : World) (userId dataType : string)
    (payload : JVal) (user : option string)
    (Hcfg : firebaseConfigured w = false) :
  uploadLocalToCloud userId w = (Ok tt, w) /\
  syncFromCloud userId w = (Ok tt, w) /\
  syncOnSignIn user w = (Ok tt, w) /\
  syncToCloud userId dataType payload w = (Ok tt, w) /\
  deleteUserCloudData userId w = (Ok tt, w) /\
  syncRecipesToCloud userId payload w = (Ok tt, w) /\
  syncTemplatesToCloud userId payload w = (Ok tt, w) /\
  loadRecipesFromCloud userId w = (Ok JNull, w) /\
  loadTemplatesFromCloud userId w = (Ok JNull, w).
Proof.
  unfold uploadLocalToCloud, syncFromCloud, syncToCloud, deleteUserCloudData,
    syncRecipesToCloud, syncTemplatesToCloud, loadRecipesFromCloud,
    loadTemplatesFromCloud.
  rewrite !guard_open, Hcfg. cbn [negb]. rewrite !orb_true_r.
  repeat split.
  destruct user as [uid|]; [|done].
  unfold syncOnSignIn, isFirebaseConfigured. by rewrite bind_gets, Hcfg.
Qed.

Lemma unconfigured_is_noop_witness :
  firebaseConfigured offline_world = false /\
  syncOnSignIn (Some "u1") offline_world = (Ok tt, offline_world) /\
  uploadLocalToCloud "u1" offline_world = (Ok tt, offline_world).
Proof.
  split; [reflexivity|].
  destruct (unconfigured_is_noop offline_world "u1" "profile" JNull
              (Some "u1") eq_refl) as (H1 & _ & H3 & _).
  split; [exact H3 | exact H1].
Defined.

(** X2.  With the backend configured but no Firestore handle, sign-in
    reconciliation is the one entry point that does not test the handle:
    for a user it goes on to build the document reference of its
    existence check, which throws without a handle, and so rejects
    without any remote call; the others resolve and leave the world
    untouched. *)
Theorem without_handle_only_signin_rejects (w : World)
    (userId dataType : string) (payload : JVal)
    (Hdb : db w = false) (Hcfg : firebaseConfigured w = true) :
  syncOnSignIn (Some userId) w = (Err InvalidFirestore, w) /\
  uploadLocalToCloud userId w = (Ok tt, w) /\
  syncFromCloud userId w = (Ok tt, w) /\
  syncToCloud userId dataType payload w = (Ok tt, w) /\
  deleteUserCloudData userId w = (Ok tt, w) /\
  syncRecipesToCloud userId payload w = (Ok tt, w) /\
  syncTemplatesToCloud userId payload w = (Ok tt, w) /\
  loadRecipesFromCloud userId w = (Ok JNull, w) /\
  loadTemplatesFromCloud userId w = (Ok JNull, w).
Proof.
  unfold uploadLocalToCloud, syncFromCloud, syncToCloud, deleteUserCloudData,
    syncRecipesToCloud, syncTemplatesToCloud, loadRecipesFromCloud,
    loadTemplatesFromCloud.
  rewrite !guard_open, Hdb. cbn [negb orb].
  split; [|repeat split].
  unfold syncOnSignIn, isFirebaseConfigured. rewrite bind_gets, Hcfg.
  cbn [negb]. unfold fetch, doc. rewrite !bind_assoc, bind_gets, Hdb.
  reflexivity.
Qed.

Lemma without_handle_only_signin_rejects_witness :
  db handleless_world = false /\
  syncOnSignIn (Some "u1") handleless_world =
    (Err InvalidFirestore, handleless_world).
Proof.
  split; [reflexivity|].
  apply (without_handle_only_signin_rejects handleless_world "u1" "profile"
           JNull eq_refl eq_refl).
Defined.

(** ** One user's documents only *)

Lemma replay_touches_only userId evs : forall r other docId,
  Forall (touches_only userId) evs -> other <> userId ->
  replay evs r !! (other, docId) = r !! (other, docId).
Proof.
  induction evs as [|e evs IH]; intros r other docId HF Hne; [done|].
  apply Forall_cons in HF as [He HF]. cbn. fold (replay evs (apply_event r e)).
  rewrite IH by done.
  destruct e as [[] []| | |]; cbn in *; try done; subst.
  - apply lookup_insert_ne. congruence.
  - apply lookup_delete_ne. congruence.
  - apply (apply_writes_other userId). by left.
Qed.

Lemma emits_confined {A} userId (m : M A) :
  (forall c, emits c (fun _ => touches_only userId) m) ->
  confined_to userId m.
Proof.
  intros Hm w. destruct (Hm (clock w) w eq_refl) as (evs & Ht & _ & HF & Hr & _).
  split; [by exists evs|]. intros other docId Hne. rewrite Hr.
  by apply (replay_touches_only userId).
Qed.

Ltac confined_side := try solve [ simpl; auto | intros; simpl; auto ].

Lemma syncRecipesToCloud_own c userId recipes :
  emits c (fun _ => touches_only userId) (syncRecipesToCloud userId recipes).
Proof. unfold syncRecipesToCloud. emits_steps; confined_side. Qed.

Lemma syncTemplatesToCloud_own c userId templates :
  emits c (fun _ => touches_only userId)
    (syncTemplatesToCloud userId templates).
Proof. unfold syncTemplatesToCloud. emits_steps; confined_side. Qed.

Lemma syncToCloud_own c userId dataType payload :
  emits c (fun _ => touches_only userId) (syncToCloud userId dataType payload).
Proof. unfold syncToCloud. emits_steps; confined_side. Qed.

Lemma uploadLocalToCloud_own c userId :
  emits c (fun _ => touches_only userId) (uploadLocalToCloud userId).
Proof.
  unfold uploadLocalToCloud.
  repeat lazymatch goal with
  | |- emits _ _ (syncRecipesToCloud _ _) => apply syncRecipesToCloud_own
  | |- emits _ _ (syncTemplatesToCloud _ _) => apply syncTemplatesToCloud_own
  | |- _ => emits_step
  end;
  confined_side.
Qed.

Lemma syncFromCloud_own c userId :
  emits c (fun _ => touches_only userId) (syncFromCloud userId).
Proof. unfold syncFromCloud. emits_steps; confined_side. Qed.

Lemma syncOnSignIn_own c userId :
  emits c (fun _ => touches_only userId) (syncOnSignIn (Some userId)).
Proof.
  unfold syncOnSignIn.
  repeat lazymatch goal with
  | |- emits _ _ (syncFromCloud _) => apply syncFromCloud_own
  | |- emits _ _ (uploadLocalToCloud _) => apply uploadLocalToCloud_own
  | |- _ => emits_step
  end;
  confined_side.
Qed.

Lemma deleteUserCloudData_own c userId :
  emits c (fun _ => touches_only userId) (deleteUserCloudData userId).
Proof. unfold deleteUserCloudData. emits_steps; confined_side. Qed.

Lemma loadRecipesFromCloud_own c userId :
  emits c (fun _ => touches_only userId) (loadRecipesFromCloud userId).
Proof. unfold loadRecipesFromCloud. emits_steps; confined_side. Qed.

Lemma loadTemplatesFromCloud_own c userId :
  emits c (fun _ => touches_only userId) (loadTemplatesFromCloud userId).
Proof. unfold loadTemplatesFromCloud. emits_steps; confined_side. Qed.

(** X3.  Every entry point of the service, run for a user, calls the Remote
    Store only on documents of that user -- reads, writes, deletions and
    the batch alike, whether they succeed or not -- and leaves the
    documents of every other user as they were. *)
Theorem service_confined_to_user (userId dataType : string)
    (payload : JVal) :
  confined_to userId (uploadLocalToCloud userId) /\
  confined_to userId (syncFromCloud userId) /\
  confined_to userId (syncOnSignIn (Some userId)) /\
  confined_to userId (syncToCloud userId dataType payload) /\
  confined_to userId (deleteUserCloudData userId) /\
  confined_to userId (syncRecipesToCloud userId payload) /\
  confined_to userId (syncTemplatesToCloud userId payload) /\
  confined_to userId (loadRecipesFromCloud userId) /\
  confined_to userId (loadTemplatesFromCloud userId).
Proof.
  repeat apply conj; apply emits_confined; intros c;
    auto using uploadLocalToCloud_own, syncFromCloud_own, syncOnSignIn_own,
      syncToCloud_own, deleteUserCloudData_own, syncRecipesToCloud_own,
      syncTemplatesToCloud_own, loadRecipesFromCloud_own,
      loadTemplatesFromCloud_own.
Qed.

(** ** What the pushes leave alone *)

Lemma replay_local_cloud_only evs : forall l,
  Forall cloud_only evs -> replay_local evs l = l.
Proof.
  induction evs as [|e evs IH]; intros l HF; [done|].
  apply Forall_cons in HF as [He HF]. cbn.
  fold (replay_local evs (apply_local l e)). rewrite IH by done.
  by destruct e.
Qed.

Lemma replay_saved_cloud_only evs : forall dbs,
  Forall cloud_only evs -> replay_saved evs dbs = dbs.
Proof.
  induction evs as [|e evs IH]; intros dbs HF; [done|].
  apply Forall_cons in HF as [He HF]. cbn.
  fold (replay_saved evs (apply_saved dbs e)). rewrite IH by done.
  by destruct e as [[] []| | |].
Qed.

Lemma emits_device_alone {A} (m : M A) :
  (forall c, emits c (fun _ => cloud_only) m) -> leaves_device_alone m.
Proof.
  intros Hm w.
  destruct (Hm (clock w) w eq_refl) as (evs & Ht & _ & HF & _ & Hl & Hs).
  rewrite replay_local_cloud_only in Hl by done.
  rewrite replay_saved_cloud_only in Hs by done.
  injection Hs as Hr Htp. repeat split; try done. by exists evs.
Qed.

(** X4.  A single-record push, the recipes and templates writes, account
    erasure and the two cloud loaders work on the Remote Store alone:
    whatever the arguments, the world and the transport, they leave every
    Local Store slot -- the last-synced timestamp included -- and both
    local collections as they were, and never notify sync-complete. *)
Theorem pushes_leave_device_alone (userId dataType : string)
    (payload : JVal) :
  leaves_device_alone (syncToCloud userId dataType payload) /\
  leaves_device_alone (syncRecipesToCloud userId payload) /\
  leaves_device_alone (syncTemplatesToCloud userId payload) /\
  leaves_device_alone (deleteUserCloudData userId) /\
  leaves_device_alone (loadRecipesFromCloud userId) /\
  leaves_device_alone (loadTemplatesFromCloud userId).
Proof.
  repeat apply conj; apply emits_device_alone; intros c.
  - unfold syncToCloud. emits_steps; confined_side.
  - unfold syncRecipesToCloud. emits_steps; confined_side.
  - unfold syncTemplatesToCloud. emits_steps; confined_side.
  - unfold deleteUserCloudData. emits_steps; confined_side.
  - unfold loadRecipesFromCloud. emits_steps; confined_side.
  - unfold loadTemplatesFromCloud. emits_steps; confined_side.
Qed.

(** ** What bulk download never writes *)

Lemma syncFromCloud_writes c userId :
  emits c (fun _ => download_write c) (syncFromCloud userId).
Proof. unfold syncFromCloud. emits_steps; confined_side. Qed.

Lemma replay_local_download_write now evs : forall l,
  Forall (download_write now) evs ->
  replay_local evs l !! CURRENT_DATE = l !! CURRENT_DATE /\
  (l !! ONBOARDING = Some (JBool true) ->
   replay_local evs l !! ONBOARDING = Some (JBool true)).
Proof.
  induction evs as [|e evs IH]; intros l HF; [done|].
  apply Forall_cons in HF as [He HF]. cbn.
  fold (replay_local evs (apply_local l e)).
  destruct (IH (apply_local l e) HF) as [Hd Ho]. rewrite Hd. split.
  - destruct e as [| s v | |]; try done. cbn.
    destruct s; try done; by rewrite lookup_insert_ne.
  - intros Hl. apply Ho. destruct e as [| s v | |]; try done. cbn.
    destruct s; cbn in He; subst;
      first [ by rewrite lookup_insert_eq | by rewrite lookup_insert_ne ].
Qed.

(** X5.  Bulk upload sends the current date and the onboarding flag, but bulk
    download restores neither as sent: whatever the remote documents
    hold, it never writes the current-date slot, and the only value it
    ever writes to the onboarding flag is [true], so a completed
    onboarding stays completed. *)
Theorem syncFromCloud_keeps_date_and_onboarding (w : World)
    (userId : string) :
  (exists evs,
     trace (syncFromCloud userId w).2 = trace w ++ evs /\
     Forall (download_write (clock w)) evs) /\
  localStorage (syncFromCloud userId w).2 !! CURRENT_DATE =
    localStorage w !! CURRENT_DATE /\
  (localStorage w !! ONBOARDING = Some (JBool true) ->
   localStorage (syncFromCloud userId w).2 !! ONBOARDING = Some (JBool true)).
Proof.
  destruct (syncFromCloud_writes (clock w) userId w eq_refl)
    as (evs & Ht & _ & HF & _ & Hl & _).
  split; [by exists evs|]. rewrite Hl.
  by apply (replay_local_download_write (clock w)).
Qed.

(** ** What account erasure leaves in the Remote Store *)

Lemma replay_deletions_other userId : forall docIds oks r (ref : string * string),
  ref.1 <> userId \/ ref.2 ∉ docIds ->
  replay (deletions userId docIds oks) r !! ref = r !! ref.
Proof.
  induction docIds as [|d ds IH]; intros [|ok oks] r ref H; try done.
  change (replay (deletions userId (d :: ds) (ok :: oks)) r)
    with (replay (deletions userId ds oks)
            (apply_event r (Attempt (DeleteDoc userId d) ok))).
  rewrite IH.
  - destruct ok; [|done]. cbn. apply lookup_delete_ne. intros <-. cbn in H.
    destruct H as [H|H]; [done|]. apply H. by left.
  - destruct H as [H|H]; [by left|]. right. intros Hin. apply H. by right.
Qed.

Lemma replay_deletions_lookup userId :
  forall (docIds : list string) (oks : list bool) r (i : nat) docId (ok : bool),
  NoDup docIds -> docIds !! i = Some docId -> oks !! i = Some ok ->
  replay (deletions userId docIds oks) r !! (userId, docId) =
  if ok then (None : option Doc) else r !! (userId, docId).
Proof.
  induction docIds as [|d ds IH]; intros [|o oks] r i docId ok Hnd Hi Ho;
    try done.
  apply NoDup_cons in Hnd as [Hd Hnd].
  change (replay (deletions userId (d :: ds) (o :: oks)) r)
    with (replay (deletions userId ds oks)
            (apply_event r (Attempt (DeleteDoc userId d) o))).
  destruct i as [|i]; cbn in Hi, Ho.
  - injection Hi as ->. injection Ho as ->.
    rewrite replay_deletions_other by (by right).
    destruct ok; [apply lookup_delete_eq | done].
  - rewrite (IH _ _ i docId ok) by done. destruct ok; [done|].
    destruct o; [|done]. cbn. apply lookup_delete_ne. intros [= <-].
    apply Hd. by eapply list_elem_of_lookup_2.
Qed.

Lemma erase_run userId (docIds : list string) : forall w,
  db w = true ->
  exists oks outcomes w',
    map_settled (fun docId => let* ref := doc userId docId in deleteDoc ref)
      docIds w = (Ok outcomes, w') /\
    length oks = length docIds /\
    trace w' = trace w ++ deletions userId docIds oks /\
    remote w' = replay (deletions userId docIds oks) (remote w) /\
    ((forall t docId, faults w t (DeleteDoc userId docId) = false) ->
     Forall (eq true) oks).
Proof.
  induction docIds as [|d r IH]; intros w Hdb.
  - exists [], [], w. simpl. by rewrite app_nil_r.
  - cbn [map_settled]. unfold bind at 1, settle.
    rewrite (delete_one_run userId d w Hdb).
    destruct (faults w (trace w) (DeleteDoc userId d)) eqn:Hf.
    + set (w1 := with_trace _ w).
      destruct (IH w1 Hdb) as (oks & outs & w2 & Hrun & Hlen & Htr & Hrem & Hall).
      exists (false :: oks), (Err (Rejected (DeleteDoc userId d)) :: outs), w2.
      unfold bind at 1. rewrite Hrun. simpl.
      split; [done|]. split; [lia|]. split; [|split; [done|]].
      * rewrite Htr. unfold w1. simpl. by rewrite <- app_assoc.
      * intros Hnf. by rewrite Hnf in Hf.
    + set (w1 := with_remote _ _).
      destruct (IH w1 Hdb) as (oks & outs & w2 & Hrun & Hlen & Htr & Hrem & Hall).
      exists (true :: oks), (Ok tt :: outs), w2.
      unfold bind at 1. rewrite Hrun. simpl.
      split; [done|]. split; [lia|]. split; [|split; [done|]].
      * rewrite Htr. unfold w1. simpl. by rewrite <- app_assoc.
      * intros Hnf. constructor; [done|]. by apply Hall.
Qed.

Lemma NoDup_USER_DATA_DOCS : NoDup USER_DATA_DOCS.
Proof. apply (bool_decide_unpack _). by vm_compute. Qed.

(** X6.  For a non-empty user id and a configured backend, account erasure
    removes from the Remote Store exactly the documents whose deletion
    the transport accepted: a document whose deletion was rejected stays
    as it was although erasure resolves, documents of other users and of
    other types are untouched, and when the transport rejects no
    deletion none of the user's ten documents remains. *)
Theorem deleteUserCloudData_removes_accepted (w : World) (userId : string)
    (Hdb : db w = true) (Hcfg : firebaseConfigured w = true)
    (Huid : String.eqb userId "" = false) :
  let after := (deleteUserCloudData userId w).2 in
  exists oks : list bool,
    length oks = length USER_DATA_DOCS /\
    trace after = trace w ++ deletions userId USER_DATA_DOCS oks /\
    (forall (i : nat) docId (ok : bool),
       USER_DATA_DOCS !! i = Some docId -> oks !! i = Some ok ->
       remote after !! (userId, docId) =
         if ok then (None : option Doc) else remote w !! (userId, docId)) /\
    (forall ref : string * string,
       ref.1 <> userId \/ ref.2 ∉ USER_DATA_DOCS ->
       remote after !! ref = remote w !! ref) /\
    ((forall t docId, faults w t (DeleteDoc userId docId) = false) ->
     forall docId, docId ∈ USER_DATA_DOCS ->
       remote after !! (userId, docId) = None).
Proof.
  intros after.
  destruct (erase_run userId USER_DATA_DOCS w Hdb)
    as (oks & outs & w2 & Hrun & Hlen & Htr & Hrem & Hall).
  assert (Hsame : deleteUserCloudData userId w = (Ok tt, w2)).
  { unfold deleteUserCloudData. rewrite guard_open, Hdb, Hcfg, Huid.
    cbn [negb orb]. by rewrite (bind_ok _ _ _ _ _ Hrun). }
  unfold after. rewrite Hsame. cbn [snd]. exists oks.
  split; [exact Hlen|]. split; [exact Htr|]. rewrite Hrem.
  split; [|split].
  - intros i docId ok Hi Ho.
    apply (replay_deletions_lookup userId USER_DATA_DOCS oks _ i);
      [apply NoDup_USER_DATA_DOCS | done | done].
  - intros ref Href. by apply replay_deletions_other.
  - intros Hnf docId Hin.
    apply list_elem_of_lookup_1 in Hin as [i Hi].
    destruct (lookup_lt_is_Some_2 oks i) as [ok Ho].
    { rewrite Hlen. by eapply lookup_lt_Some. }
    rewrite (replay_deletions_lookup userId USER_DATA_DOCS oks _ i docId ok)
      by (done || apply NoDup_USER_DATA_DOCS).
    specialize (Hall Hnf). rewrite Forall_lookup in Hall.
    by rewrite <- (Hall i ok Ho).
Qed.

Lemma deleteUserCloudData_removes_accepted_witness :
  db (shared_world nine_deletions_fail) = true /\
  remote (deleteUserCloudData "u1" (shared_world nine_deletions_fail)).2
    !! ("u1", "templates") = None /\
  remote (deleteUserCloudData "u1" (shared_world nine_deletions_fail)).2
    !! ("u2", "profile") =
  remote (shared_world nine_deletions_fail) !! ("u2", "profile").
Proof.
  split; [reflexivity|].
  destruct (deleteUserCloudData_removes_accepted
              (shared_world nine_deletions_fail) "u1"
              eq_refl eq_refl eq_refl)
    as (oks & Hlen & Htr & _ & Hother & _).
  split; [vm_compute; reflexivity|].
  apply (Hother ("u2", "profile")). left. cbn. discriminate.
Defined.

(** ** Bulk upload rewrites the remote food log *)

(** X7.  With the backend configured and the commit accepted, the remote
    [foodLog] document after bulk upload holds today's entry, built from
    the local food log, exercise log and water, and [updatedAt], and
    nothing else: the entries of other days that the document held
    before are gone, where a single-record [foodLog] push keeps them. *)
Theorem uploadLocalToCloud_drops_other_days (w : World) (userId : string)
    (Hdb : db w = true) (Hcfg : firebaseConfigured w = true)
    (Hcommit :
       faults w (trace w) (BatchCommit userId (local_batch w)) = false) :
  let today := Js.before_T (clock w) in
  exists d : Doc,
    remote (uploadLocalToCloud userId w).2 !! (userId, "foodLog") = Some d /\
    (today <> "updatedAt" ->
     d !! today =
       Some (JObj (<["water" := stored w WATER_LOG (JNum 0)]>
                     (<["exercise" := stored w EXERCISE_LOG (JArr [])]>
                        (<["entries" := stored w FOOD_LOG (JArr [])]> ∅))))) /\
    d !! "updatedAt" = Some (JStr (clock w)) /\
    (forall day, day <> today -> day <> "updatedAt" -> d !! day = None).
Proof.
  intros today.
  destruct (uploadLocalToCloud_committed w userId Hdb Hcfg Hcommit)
    as (wU & Hrun & _ & _ & Hdocs).
  rewrite Hrun. cbn [snd].
  eexists. split.
  - apply Hdocs. unfold local_batch, upload_batch.
    apply list_elem_of_further, list_elem_of_here.
  - split; [|split].
    + intros Hne. rewrite lookup_insert_ne by done. apply lookup_insert_eq.
    + apply lookup_insert_eq.
    + intros day H1 H2. by rewrite !lookup_insert_ne.
Qed.

Lemma uploadLocalToCloud_drops_other_days_witness :
  db (shared_world no_faults) = true /\
  exists d : Doc,
    remote (uploadLocalToCloud "u1" (shared_world no_faults)).2
      !! ("u1", "foodLog") = Some d /\
    d !! "2025-02-22" = None.
Proof.
  split; [reflexivity|].
  destruct (uploadLocalToCloud_drops_other_days (shared_world no_faults) "u1"
              eq_refl eq_refl eq_refl)
    as (d & Hd & _ & _ & Hgone).
  exists d. split; [exact Hd|]. apply Hgone; discriminate.
Defined.

(** ** The cloud loaders *)

Lemma loader_run msg userId docId w :
  db w = true ->
  try_catch
    (let* snap := fetch userId docId in
     ret (match snap with
          | Some d => Js.or_else (d !! "items") (JArr [])
          | None => JNull
          end))
    (fun err => console_error msg err ;; ret JNull) w =
  if faults w (trace w) (GetDoc userId docId)
  then (Ok JNull,
        with_trace (trace w ++ [ Attempt (GetDoc userId docId) false;
                                 ConsoleError msg
                                   (Rejected (GetDoc userId docId)) ]) w)
  else (Ok (items_or_null (remote w !! (userId, docId))),
        with_trace (trace w ++ [Attempt (GetDoc userId docId) true]) w).
Proof.
  intros Hdb. unfold try_catch, bind at 1. rewrite (fetch_run _ _ _ Hdb).
  destruct (faults w (trace w) (GetDoc userId docId)); [|done].
  unfold console_error, emit. rewrite bind_modify. cbn.
  by rewrite <- app_assoc.
Qed.

Lemma loadRecipesFromCloud_run w userId :
  backend_ready w userId = true ->
  loadRecipesFromCloud userId w =
  if faults w (trace w) (GetDoc userId "recipes")
  then (Ok JNull,
        with_trace
          (trace w ++ [ Attempt (GetDoc userId "recipes") false;
                        ConsoleError "loadRecipesFromCloud failed:"
                          (Rejected (GetDoc userId "recipes")) ]) w)
  else (Ok (items_or_null (remote w !! (userId, "recipes"))),
        with_trace (trace w ++ [Attempt (GetDoc userId "recipes") true]) w).
Proof.
  intros Hready. unfold loadRecipesFromCloud.
  rewrite guard_open, backend_ready_guard, Hready. cbn [negb].
  apply backend_ready_true in Hready as (Hdb & _). by apply loader_run.
Qed.

Lemma loadTemplatesFromCloud_run w userId :
  backend_ready w userId = true ->
  loadTemplatesFromCloud userId w =
  if faults w (trace w) (GetDoc userId "templates")
  then (Ok JNull,
        with_trace
          (trace w ++ [ Attempt (GetDoc userId "templates") false;
                        ConsoleError "loadTemplatesFromCloud failed:"
                          (Rejected (GetDoc userId "templates")) ]) w)
  else (Ok (items_or_null (remote w !! (userId, "templates"))),
        with_trace (trace w ++ [Attempt (GetDoc userId "templates") true]) w).
Proof.
  intros Hready. unfold loadTemplatesFromCloud.
  rewrite guard_open, backend_ready_guard, Hready. cbn [negb].
  apply backend_ready_true in Hready as (Hdb & _). by apply loader_run.
Qed.

(** X8.  The two cloud loaders never reject.  Each resolves with [null] when
    the backend is not ready, when its one read is rejected, and when the
    document does not exist -- three cases its caller cannot tell apart
    -- and otherwise with the document's [items], or the empty list when
    [items] is missing or falsy: so the result is [null] or truthy, and
    for an answered read it is [null] only when there is no document. *)
Theorem cloud_loaders_null_or_items :
  loads_items "recipes" loadRecipesFromCloud /\
  loads_items "templates" loadTemplatesFromCloud /\
  (forall snap,
     items_or_null snap = JNull \/ Js.truthy (items_or_null snap) = true) /\
  (forall snap, items_or_null snap = JNull -> snap = None).
Proof.
  assert (Hitems : forall d : Doc,
            Js.truthy (Js.or_else (d !! "items") (JArr [])) = true).
  { intros d. unfold Js.or_else. destruct (d !! "items") as [v|]; [|done].
    by destruct (Js.truthy v) eqn:Hv. }
  repeat apply conj.
  - intros w userId. destruct (backend_ready w userId) eqn:Hready.
    + rewrite (loadRecipesFromCloud_run _ _ Hready).
      by destruct (faults w (trace w) _).
    + unfold loadRecipesFromCloud.
      by rewrite guard_open, backend_ready_guard, Hready.
  - intros w userId. destruct (backend_ready w userId) eqn:Hready.
    + rewrite (loadTemplatesFromCloud_run _ _ Hready).
      by destruct (faults w (trace w) _).
    + unfold loadTemplatesFromCloud.
      by rewrite guard_open, backend_ready_guard, Hready.
  - intros [d|]; [right; apply Hitems | by left].
  - intros [d|]; [|done]. intros Hnull. specialize (Hitems d). cbn in Hnull.
    by rewrite Hnull in Hitems.
Qed.

(** ** Push, then load *)

(** X9.  With the backend ready and a transport that rejects nothing, what
    the recipes loader returns right after a recipes write is the list
    written, prebuilt items included, or the empty list for a falsy one;
    and what the templates loader returns right after a templates write
    is the list of the user's own templates: the prebuilt ones do not
    come back. *)
Theorem push_then_load (w : World) (userId : string)
    (recipes templates : JVal)
    (Hready : backend_ready w userId = true)
    (Hquiet : forall t c, faults w t c = false) :
  ((syncRecipesToCloud userId recipes ;; loadRecipesFromCloud userId) w).1 =
    Ok (if Js.truthy recipes then recipes else JArr []) /\
  (forall items, sendable_templates templates = Some items ->
     ((syncTemplatesToCloud userId templates ;;
       loadTemplatesFromCloud userId) w).1 = Ok (JArr items)).
Proof.
  split.
  - unfold bind. rewrite (syncRecipesToCloud_run_eq _ _ _ Hready).
    unfold swallowed_push. rewrite Hquiet. set (w1 := with_remote _ _).
    rewrite (loadRecipesFromCloud_run w1 userId Hready).
    change (faults w1) with (faults w). rewrite Hquiet.
    unfold w1, with_remote. cbn [fst remote].
    rewrite lookup_insert_eq. cbn [items_or_null].
    rewrite lookup_insert_ne by done. by rewrite lookup_insert_eq.
  - intros items Hitems. unfold bind.
    rewrite (syncTemplatesToCloud_run_eq _ _ _ Hready), Hitems.
    unfold swallowed_push. rewrite Hquiet. set (w1 := with_remote _ _).
    rewrite (loadTemplatesFromCloud_run w1 userId Hready).
    change (faults w1) with (faults w). rewrite Hquiet.
    unfold w1, with_remote. cbn [fst remote].
    rewrite lookup_insert_eq. cbn [items_or_null].
    unfold templates_doc. rewrite lookup_insert_ne by done.
    by rewrite lookup_insert_eq.
Qed.

Lemma push_then_load_witness :
  backend_ready (fresh_world no_faults) "u1" = true /\
  ((syncTemplatesToCloud "u1" (JArr [prebuilt_template; own_template]) ;;
    loadTemplatesFromCloud "u1") (fresh_world no_faults)).1 =
  Ok (JArr [own_template]).
Proof.
  split; [reflexivity|].
  destruct (push_then_load (fresh_world no_faults) "u1" JNull
              (JArr [prebuilt_template; own_template]) eq_refl
              (fun _ _ => eq_refl)) as [_ H].
  apply H. vm_compute. reflexivity.
Defined.

(** ** The sync status shown to the user *)

Lemma setLastSyncTime_now_run ui w :
  (let* now := new_Date_toISOString in setLastSyncTime now ui) w =
  (Ok (mkSyncUi (status ui) (Some (clock w)) (retrying ui)),
   timestamp_saved w).
Proof. reflexivity. Qed.

Lemma syncToCloud_clock userId dataType payload w :
  clock (syncToCloud userId dataType payload w).2 = clock w.
Proof.
  destruct (syncToCloud_stamped (clock w) userId dataType payload w eq_refl)
    as (evs & _ & He & _).
  by destruct He as (_ & _ & Hc & _).
Qed.

(** X10.  The sync bridge reports what the push did, and nothing more: the
    status ends as [success] exactly when the push resolved, and then the
    time of the run becomes the last sync time, in the state and in the
    Local Store; it ends as [error] when the push rejected, and then the
    last sync time and the world the push left are untouched.  A push of
    a type the service does not handle resolves without a remote call,
    so it too is reported as a success with a new last sync time. *)
Theorem syncBridge_reports_outcome (uid type : string) (payload : JVal)
    (ui : SyncUi) (w : World) :
  let pushed := syncToCloud uid type payload w in
  let after := syncBridge uid type payload ui w in
  retrying after.1 = retrying ui /\
  match pushed.1 with
  | Ok _ =>
      status after.1 = success /\
      lastSyncTime after.1 = Some (clock w) /\
      after.2 = timestamp_saved pushed.2
  | Err _ =>
      status after.1 = error /\
      lastSyncTime after.1 = lastSyncTime ui /\
      after.2 = pushed.2
  end /\
  (is_handled type = false ->
   status after.1 = success /\
   lastSyncTime after.1 = Some (clock w) /\
   remote after.2 = remote w /\
   trace after.2 = trace w ++ [LocalSet LAST_SYNC (JStr (clock w))]).
Proof.
  intros pushed after.
  pose proof (syncToCloud_clock uid type payload w) as Hclock.
  assert (Hunknown : is_handled type = false -> pushed = (Ok tt, w))
    by apply syncToCloud_unknown_run.
  unfold after, syncBridge. fold pushed. fold pushed in Hclock.
  destruct pushed as [[[]|e] w1]; cbn [fst snd] in *.
  - rewrite setLastSyncTime_now_run. cbn [fst snd]. cbn. rewrite Hclock.
    split; [done|]. split; [done|]. intros Hu.
    by injection (Hunknown Hu) as ->.
  - cbn. split; [done|]. split; [done|]. intros Hu.
    by specialize (Hunknown Hu).
Qed.

(** X11.  For a signed-in user and with no retry under way, a manual retry
    always ends with [retrying] cleared.  With the backend configured it
    ends in [error] exactly when the batch commit is rejected, the
    stores and the last sync time being then as before, and in
    [success], with the time of the run as last sync time, as soon as
    the commit is accepted, whatever becomes of the recipes and
    templates writes.  Without a user, or with a retry under way, it
    does nothing. *)
Theorem handleRetry_outcomes (uid : string) (ui : SyncUi) (w : World)
    (Hdb : db w = true) (Hcfg : firebaseConfigured w = true)
    (Hidle : retrying ui = false) :
  let commit := BatchCommit uid (local_batch w) in
  let after := handleRetry (Some uid) ui w in
  retrying after.1 = false /\
  (faults w (trace w) commit = true ->
   status after.1 = error /\
   lastSyncTime after.1 = lastSyncTime ui /\
   remote after.2 = remote w /\
   localStorage after.2 = localStorage w) /\
  (faults w (trace w) commit = false ->
   status after.1 = success /\
   lastSyncTime after.1 = Some (clock w) /\
   localStorage after.2 !! LAST_SYNC = Some (JStr (clock w))) /\
  handleRetry None ui w = (ui, w) /\
  (forall busy, retrying busy = true ->
     handleRetry (Some uid) busy w = (busy, w)).
Proof.
  intros commit after. unfold after, handleRetry. rewrite Hidle.
  split; [|split; [|split; [|split]]].
  - destruct (uploadLocalToCloud uid w) as [[[]|e] w1]; [|done].
    by rewrite setLastSyncTime_now_run.
  - intros Hf. by rewrite (uploadLocalToCloud_rejected w uid Hdb Hcfg Hf).
  - intros Hf.
    destruct (uploadLocalToCloud_committed w uid Hdb Hcfg Hf)
      as (wU & Hrun & He & _).
    rewrite Hrun, setLastSyncTime_now_run. unfold timestamp_saved. cbn.
    destruct He as (_ & _ & Hc & _). rewrite Hc.
    repeat split. apply lookup_insert_eq.
  - done.
  - intros busy Hbusy. by rewrite Hbusy.
Qed.

Lemma handleRetry_outcomes_witness :
  db (shared_world no_faults) = true /\
  retrying idle_ui = false /\
  status (handleRetry (Some "u1") idle_ui (shared_world no_faults)).1 = success.
Proof.
  split; [reflexivity|]. split; [reflexivity|].
  destruct (handleRetry_outcomes "u1" idle_ui (shared_world no_faults)
              eq_refl eq_refl eq_refl) as (_ & _ & Hok & _).
  by destruct (Hok eq_refl) as (Hs & _).
Defined.

(** ** The age of the last sync *)

(** X12.  [formatLastSync] gives no label for a missing date.  Otherwise its
    nested roundings amount to thresholds on the milliseconds elapsed:
    [Just now] under one minute -- and for a date in the future --, then
    whole minutes under one hour, whole hours under one day, and whole
    days, each the floor of the elapsed time in its own unit; so the
    number shown is from 1 to 59 for minutes, from 1 to 23 for hours,
    and at least 1 for days. *)
Theorem formatLastSync_thresholds (now date : Z) :
  formatLastSync now None = None /\
  formatLastSync now (Some date) = Some (elapsed_label (now - date)) /\
  (now - date < 60000 -> formatLastSync now (Some date) = Some "Just now") /\
  (60000 <= now - date < 3600000 -> 1 <= (now - date) / 60000 <= 59) /\
  (3600000 <= now - date < 86400000 -> 1 <= (now - date) / 3600000 <= 23) /\
  (86400000 <= now - date -> 1 <= (now - date) / 86400000).
Proof.
  set (ms := now - date).
  assert (Hh : ms / 60000 / 60 = ms / 3600000)
    by (rewrite Z.div_div by lia; reflexivity).
  assert (Hd : ms / 3600000 / 24 = ms / 86400000)
    by (rewrite Z.div_div by lia; reflexivity).
  assert (Hlabel : formatLastSync now (Some date) = Some (elapsed_label ms)).
  { unfold formatLastSync, elapsed_label. fold ms. cbv zeta.
    rewrite Hh, Hd.
    destruct (Z.ltb_spec (ms / 60000) 1), (Z.ltb_spec ms 60000);
      [ done | exfalso; Z.to_euclidean_division_equations; lia
      | exfalso; Z.to_euclidean_division_equations; lia | ].
    destruct (Z.ltb_spec (ms / 60000) 60), (Z.ltb_spec ms 3600000);
      [ done | exfalso; Z.to_euclidean_division_equations; lia
      | exfalso; Z.to_euclidean_division_equations; lia | ].
    destruct (Z.ltb_spec (ms / 3600000) 24), (Z.ltb_spec ms 86400000);
      [ done | exfalso; Z.to_euclidean_division_equations; lia
      | exfalso; Z.to_euclidean_division_equations; lia | done ]. }
  split; [done|]. split; [exact Hlabel|]. split; [|split; [|split]].
  - intros Hlt. rewrite Hlabel. unfold elapsed_label.
    by destruct (Z.ltb_spec ms 60000); [|lia].
  - intros H. Z.to_euclidean_division_equations; lia.
  - intros H. Z.to_euclidean_division_equations; lia.
  - intros H. Z.to_euclidean_division_equations; lia.
Qed.

(** ** Bulk download reads before it writes *)

Ltac core_read Hdb Hdown :=
  first [ rewrite bind_fetch_after by exact Hdb
        | rewrite bind_fetch by exact Hdb ];
  first
    [ rewrite Hdown; eexists _, _; split; [reflexivity | repeat constructor]
    | match goal with
      | |- context [if faults ?w ?t ?c then _ else _] =>
          destruct (faults w t c);
          [ eexists _, _; split; [reflexivity | repeat constructor] | ]
      end ].

Lemma download_pass_core_read_fails w userId docId :
  db w = true -> is_handled docId = true ->
  (forall t, faults w t (GetDoc userId docId) = true) ->
  exists reads err,
    download_pass userId w = (Err err, with_trace (trace w ++ reads) w) /\
    Forall (is_read_of userId) reads.
Proof.
  intros Hdb Hin Hdown. unfold download_pass.
  apply is_handled_cases in Hin as [->|Hin]; [|invert_elem Hin].
  all: try subst docId; repeat core_read Hdb Hdown.
Qed.

(** X13.  The eight documents of the batch are all read before bulk download
    writes anything: with the backend configured, when the transport
    rejects the read of one of them, bulk download resolves having made
    nothing but reads of the user's documents, followed by the console
    message for the error caught; the Local Store, the local collections
    and the Remote Store are as they were, no slot is half restored, the
    last-synced timestamp is not saved and nothing is notified. *)
Theorem syncFromCloud_core_read_failure (w : World) (userId docId : string)
    (Hdb : db w = true) (Hcfg : firebaseConfigured w = true)
    (Hcore : is_handled docId = true)
    (Hdown : forall t, faults w t (GetDoc userId docId) = true) :
  exists reads err,
    syncFromCloud userId w =
      (Ok tt,
       with_trace
         (trace w ++ reads ++ [ConsoleError "syncFromCloud failed:" err]) w) /\
    Forall (is_read_of userId) reads.
Proof.
  destruct (download_pass_core_read_fails w userId docId Hdb Hcore Hdown)
    as (reads & err & Hpass & Hreads).
  exists reads, err. split; [|exact Hreads].
  rewrite (syncFromCloud_run w userId Hdb Hcfg), Hpass.
  cbn [trace with_trace]. by rewrite <- app_assoc.
Qed.

Lemma syncFromCloud_core_read_failure_witness :
  db (shared_world reads_fail) = true /\
  is_handled "history" = true /\
  localStorage (syncFromCloud "u1" (shared_world reads_fail)).2 =
    localStorage (shared_world reads_fail).
Proof.
  split; [reflexivity|]. split; [reflexivity|].
  destruct (syncFromCloud_core_read_failure (shared_world reads_fail) "u1"
              "history" eq_refl eq_refl eq_refl (fun _ => eq_refl))
    as (reads & err & Hrun & _).
  rewrite Hrun. reflexivity.
Defined.

(** ** Every way sign-in reconciliation can reject *)

Lemma upload_rejects_with_commit w userId err :
  db w = true -> firebaseConfigured w = true ->
  (uploadLocalToCloud userId w).1 = Err err ->
  err = Rejected (BatchCommit userId (local_batch w)).
Proof.
  intros Hdb Hcfg Herr.
  destruct (faults w (trace w) (BatchCommit userId (local_batch w))) eqn:Hf.
  - rewrite (uploadLocalToCloud_rejected w userId Hdb Hcfg Hf) in Herr.
    by injection Herr.
  - destruct (uploadLocalToCloud_committed w userId Hdb Hcfg Hf)
      as (wU & Hrun & _).
    by rewrite Hrun in Herr.
Qed.

(** X14.  Sign-in reconciliation rejects in four ways and no other, all of them
    for a user and a configured backend: without a Firestore handle, on
    building the reference of the existence check; with the error of the
    existence check, when the transport rejects it; with a type error,
    when there is no remote profile, no local profile, and the food log
    slot holds [null], whose length cannot be read; and with the error
    of the batch commit of the bulk upload it starts. *)
Theorem syncOnSignIn_rejections (w : World) (user : option string)
    (err : Exn) (Herr : (syncOnSignIn user w).1 = Err err) :
  exists userId,
    user = Some userId /\ firebaseConfigured w = true /\
    ( (err = InvalidFirestore /\ db w = false) \/
      (err = Rejected (GetDoc userId "profile") /\
       faults w (trace w) (GetDoc userId "profile") = true) \/
      (err = TypeError /\
       remote w !! (userId, "profile") = None /\
       Js.truthy (loaded w USER_PROFILE) = false /\
       stored w FOOD_LOG (JArr []) = JNull) \/
      (err = Rejected (BatchCommit userId (local_batch w)) /\
       remote w !! (userId, "profile") = None) ).
Proof.
  destruct user as [userId|]; [|done].
  destruct (firebaseConfigured w) eqn:Hcfg.
  2: { unfold syncOnSignIn, isFirebaseConfigured in Herr.
       by rewrite bind_gets, Hcfg in Herr. }
  exists userId. split; [done|]. split; [done|].
  destruct (db w) eqn:Hdb.
  2: { left. split; [|done].
       unfold syncOnSignIn, isFirebaseConfigured in Herr.
       rewrite bind_gets, Hcfg in Herr. cbn [negb] in Herr.
       unfold fetch, doc in Herr.
       rewrite !bind_assoc, bind_gets, Hdb in Herr. by injection Herr. }
  right. rewrite (syncOnSignIn_check_run w userId Hcfg Hdb) in Herr.
  destruct (faults w (trace w) (GetDoc userId "profile")) eqn:Hcheck;
    [left; split; [by injection Herr | done]|].
  right. cbv zeta in Herr.
  set (w1 := with_trace _ w) in Herr.
  destruct (remote w !! (userId, "profile")) eqn:Hrem.
  { by rewrite syncFromCloud_resolves in Herr. }
  unfold loadUserProfile in Herr.
  rewrite (bind_ok _ _ _ _ _ (load_slot_run USER_PROFILE w1)) in Herr.
  change (loaded w1 USER_PROFILE) with (loaded w USER_PROFILE) in Herr.
  destruct (Js.truthy (loaded w USER_PROFILE)) eqn:Hprofile.
  - rewrite bind_ret in Herr. cbn [when] in Herr. right. split; [|done].
    by apply (upload_rejects_with_commit w1).
  - rewrite bind_assoc in Herr.
    rewrite (bind_ok _ _ _ _ _ (loadFromLocalStorage_run FOOD_LOG _ w1))
      in Herr.
    change (stored w1 FOOD_LOG (JArr [])) with (stored w FOOD_LOG (JArr []))
      in Herr.
    rewrite bind_assoc in Herr. unfold prop_of in Herr.
    destruct (stored w FOOD_LOG (JArr [])) as [| | | | |] eqn:Hlog;
      cbn [Js.prop] in Herr.
    1: { left. split; [by injection Herr | done]. }
    all: rewrite !bind_ret in Herr;
      match type of Herr with
      | (when ?b _ _).1 = _ => destruct b; cbn [when] in Herr
      end;
      [ right; split; [by apply (upload_rejects_with_commit w1) | done]
      | done ].
Qed.

Lemma syncOnSignIn_rejections_witness :
  (syncOnSignIn (Some "u1") null_log_world).1 = Err TypeError /\
  stored null_log_world FOOD_LOG (JArr []) = JNull.
Proof.
  assert (Hrun : (syncOnSignIn (Some "u1") null_log_world).1 = Err TypeError)
    by (vm_compute; reflexivity).
  split; [exact Hrun|].
  destruct (syncOnSignIn_rejections null_log_world (Some "u1") TypeError Hrun)
    as (userId & _ & _ & [[H _]|[[H _]|[(_ & _ & _ & H)|[H _]]]]);
    [discriminate H | discriminate H | exact H | discriminate H].
Defined.

(** ** The notification and the saved timestamp agree *)

Lemma uploadLocalToCloud_not_ready_run w userId :
  db w && firebaseConfigured w = false ->
  uploadLocalToCloud userId w = (Ok tt, w).
Proof.
  intros H. unfold uploadLocalToCloud. rewrite guard_open.
  by destruct (db w), (firebaseConfigured w).
Qed.

Lemma not_notified_in_place w t : ~ notified w w t.
Proof.
  intros (evs & Ht & Hin).
  rewrite <- (app_nil_r (trace w)) in Ht at 1.
  apply app_inv_head in Ht. subst evs. by apply elem_of_nil in Hin.
Qed.

Lemma uploadLocalToCloud_notified w userId t :
  notified w (uploadLocalToCloud userId w).2 t ->
  t = clock w /\
  localStorage (uploadLocalToCloud userId w).2 !! LAST_SYNC = Some (JStr t).
Proof.
  destruct (db w && firebaseConfigured w) eqn:Hready.
  2: { rewrite uploadLocalToCloud_not_ready_run by done. intros H.
       by apply not_notified_in_place in H. }
  apply andb_true_iff in Hready as [Hdb Hcfg].
  destruct (faults w (trace w) (BatchCommit userId (local_batch w))) eqn:Hf.
  - rewrite (uploadLocalToCloud_rejected w userId Hdb Hcfg Hf).
    intros (evs & Ht & Hin). cbn in Ht. apply app_inv_head in Ht. subst evs.
    apply elem_of_cons in Hin as [Hin|Hin]; [done|].
    by apply elem_of_nil in Hin.
  - intros (evs & Ht & Hin).
    destruct (uploadLocalToCloud_committed w userId Hdb Hcfg Hf)
      as (wU & Hrun & _ & Hl & _).
    rewrite (uploadLocalToCloud_committed_run w userId Hdb Hcfg Hf) in Ht.
    destruct (upload_recipes_and_templates_events (clock w) userId
                (after_commit userId w) eq_refl)
      as (rest & Hrest & _ & HF & _).
    rewrite Hrest in Ht. cbn in Ht. rewrite <- app_assoc in Ht.
    apply app_inv_head in Ht. subst evs.
    assert (Ht : t = clock w).
    { cbn in Hin. repeat (apply elem_of_cons in Hin as [Hin|Hin]; try done).
      - by injection Hin.
      - rewrite Forall_forall in HF. by apply HF in Hin. }
    split; [exact Ht|]. rewrite Hrun. cbn [snd]. rewrite Hl, Ht.
    apply lookup_insert_eq.
Qed.

Lemma syncFromCloud_notified w userId t :
  notified w (syncFromCloud userId w).2 t ->
  t = clock w /\
  localStorage (syncFromCloud userId w).2 !! LAST_SYNC = Some (JStr t).
Proof.
  destruct (db w && firebaseConfigured w) eqn:Hready.
  2: { rewrite syncFromCloud_not_ready_run by done. intros H.
       by apply not_notified_in_place in H. }
  apply andb_true_iff in Hready as [Hdb Hcfg].
  rewrite (syncFromCloud_run w userId Hdb Hcfg).
  destruct (download_pass_events (clock w) userId w eq_refl)
    as (pass & Hpass & He & HF & _).
  assert (Hquiet : SyncComplete t ∉ pass).
  { intros Hin. rewrite Forall_forall in HF. by apply HF in Hin. }
  destruct (download_pass userId w) as [[[]|err] w1]; cbn [fst snd] in *;
    intros (evs & Ht & Hin); cbn in Ht; rewrite Hpass, <- app_assoc in Ht;
    apply app_inv_head in Ht; subst evs;
    apply elem_of_app in Hin as [Hin|Hin]; try done.
  - destruct He as (_ & _ & Hc & _).
    repeat (apply elem_of_cons in Hin as [Hin|Hin]; try done);
      [|by apply elem_of_nil in Hin].
    injection Hin as ->. split; [done|]. apply lookup_insert_eq.
  - apply elem_of_cons in Hin as [Hin|Hin]; [done|].
    by apply elem_of_nil in Hin.
Qed.

(** X15.  Whenever bulk upload or bulk download notifies sync-complete, the
    time the notification carries is the time of the run, and it is the
    time the last-synced slot holds when the operation ends: the state
    the status provider takes from the notification and the timestamp it
    would load from the Local Store are the same. *)
Theorem sync_complete_matches_saved_time (w : World) (userId t : string)
    (ui : SyncUi) :
  (notified w (uploadLocalToCloud userId w).2 t ->
   t = clock w /\
   localStorage (uploadLocalToCloud userId w).2 !! LAST_SYNC =
     Some (JStr t)) /\
  (notified w (syncFromCloud userId w).2 t ->
   t = clock w /\
   localStorage (syncFromCloud userId w).2 !! LAST_SYNC = Some (JStr t)) /\
  lastSyncTime (onSyncComplete (Some t) ui) = Some t.
Proof.
  split; [apply uploadLocalToCloud_notified|].
  split; [apply syncFromCloud_notified | done].
Qed.

(** ** A completed download mirrors the remote documents *)

Lemma replay_local_writes_as s x evs : forall l : gmap Slot JVal,
  Forall (writes_as s x) evs -> l !! s = Some x ->
  replay_local evs l !! s = Some x.
Proof.
  induction evs as [|e evs IH]; intros l HF Hl; [done|].
  apply Forall_cons in HF as [He HF]. cbn.
  fold (replay_local evs (apply_local l e)). apply IH; [done|].
  destruct e as [|s' v| |]; try done. cbn in *.
  destruct (decide (s' = s)) as [->|Hne].
  - rewrite He by done. apply lookup_insert_eq.
  - by rewrite lookup_insert_ne.
Qed.

Lemma replay_local_writes_as_or s x evs : forall l : gmap Slot JVal,
  Forall (writes_as s x) evs ->
  replay_local evs l !! s = Some x \/ replay_local evs l !! s = l !! s.
Proof.
  induction evs as [|e evs IH]; intros l HF; [by right|].
  apply Forall_cons in HF as [He HF]. cbn.
  fold (replay_local evs (apply_local l e)).
  destruct e as [|s' v| |]; try by apply IH. cbn in *.
  destruct (decide (s' = s)) as [->|Hne].
  - left. apply replay_local_writes_as; [done|].
    rewrite He by done. apply lookup_insert_eq.
  - destruct (IH (<[s' := v]> l) HF) as [H|H]; [by left|].
    right. by rewrite H, lookup_insert_ne.
Qed.

Lemma replay_local_spares s evs : forall l : gmap Slot JVal,
  Forall (spares s) evs -> replay_local evs l !! s = l !! s.
Proof.
  induction evs as [|e evs IH]; intros l HF; [done|].
  apply Forall_cons in HF as [He HF]. cbn.
  fold (replay_local evs (apply_local l e)). rewrite IH by done.
  destruct e as [|s' v| |]; try done. cbn in *. by rewrite lookup_insert_ne.
Qed.

Lemma keeps_of_emits {A} s x (m : M A) :
  (forall c, emits c (fun _ => writes_as s x) m) -> keeps s x m.
Proof.
  intros Hm w Hl.
  destruct (Hm (clock w) w eq_refl) as (evs & _ & _ & HF & _ & Hloc & _).
  rewrite Hloc. by apply replay_local_writes_as.
Qed.

Lemma sets_skip {A B} full s x (m : M A) (k : A -> M B) :
  (forall c, emits c (fun _ _ => True) m) ->
  (forall a, sets full s x (k a)) -> sets full s x (bind m k).
Proof.
  intros Hm Hk w Hfull. unfold bind.
  destruct (Hm (clock w) w eq_refl) as (evs & _ & He & _).
  destruct He as (_ & _ & _ & _ & _ & _ & Hsame).
  destruct (m w) as [[a|e] w1]; [|done]. cbn [snd] in Hsame.
  apply Hk. by rewrite Hsame.
Qed.

Lemma sets_then {A B} full s x (m : M A) (k : A -> M B) :
  sets full s x m -> (forall a, keeps s x (k a)) -> sets full s x (bind m k).
Proof.
  intros Hm Hk w Hfull. unfold bind. specialize (Hm w Hfull).
  destruct (m w) as [[a|e] w1]; [|done]. intros _. by apply Hk, Hm.
Qed.

Lemma sets_setItem full s x : sets full s x (setItem s x).
Proof. intros w _ _. cbn. apply lookup_insert_eq. Qed.

Lemma sets_save full s x :
  (forall past, full past s x = false) ->
  sets full s x (saveToLocalStorage s x ;; ret tt).
Proof.
  intros Hroom w Hfull _. unfold saveToLocalStorage.
  rewrite bind_assoc, bind_gets, Hfull, Hroom. cbn. apply lookup_insert_eq.
Qed.

Ltac slot_side :=
  try solve [ simpl; auto | intros; simpl; auto
            | simpl; intros; discriminate | simpl; discriminate ].

Ltac keeps_rest :=
  apply keeps_of_emits; intros ?; emits_steps; slot_side.

Ltac sets_here Hroom :=
  unfold if_exists, saveWeeklyHistory, save_slot;
  first [ apply sets_setItem | apply sets_save; exact Hroom ].

Ltac sets_search Hroom :=
  repeat first
    [ apply sets_then;
      [ solve [sets_here Hroom] | intros ?; solve [keeps_rest] ]
    | apply sets_skip; [ intros ?; emits_steps; slot_side | intros ? ] ].

Ltac answered_read Hdb Hok :=
  first [ rewrite bind_fetch_after in Hok |- * by exact Hdb
        | rewrite bind_fetch in Hok |- * by exact Hdb ];
  match goal with
  | |- context [if faults ?w ?t ?c then _ else _] =>
      destruct (faults w t c); [discriminate Hok|]
  end.

Lemma download_pass_mirrors w userId :
  db w = true -> is_ok (download_pass userId w).1 = true ->
  forall docId slot f, (docId, slot, f) ∈ mirrored ->
    match remote w !! (userId, docId) with
    | Some d =>
        (localStorage (download_pass userId w).2 !! slot = Some (f d) \/
         localStorage (download_pass userId w).2 !! slot =
           localStorage w !! slot) /\
        ((forall past, storageFull w past slot (f d) = false) ->
         localStorage (download_pass userId w).2 !! slot = Some (f d))
    | None =>
        localStorage (download_pass userId w).2 !! slot =
          localStorage w !! slot
    end.
Proof.
  intros Hdb Hok. unfold download_pass in *.
  do 8 answered_read Hdb Hok.
  intros docId slot f Hin. unfold mirrored in Hin.
  repeat (apply elem_of_cons in Hin as [Hin|Hin]);
    [ injection Hin as -> -> -> .. | by apply elem_of_nil in Hin ].
  all: revert Hok;
    lazymatch goal with
    | |- _ -> match remote ?w0 !! ?r with _ => _ end =>
        destruct (remote w0 !! r) as [d|] eqn:Hd
    end.
  all: lazymatch goal with
    | |- is_ok (?p ?W).1 = true -> (_ = Some ?x \/ _ = _ !! ?s) /\ _ =>
        intros Hok; split;
        [ assert (Hp : emits (clock W) (fun _ => writes_as s x) p)
            by (emits_steps; slot_side);
          destruct (Hp W eq_refl) as (evs & _ & _ & HF & _ & Hloc & _);
          rewrite Hloc; by apply replay_local_writes_as_or
        | intros Hroom; revert Hok;
          refine ((_ : sets (storageFull W) _ _ p) W eq_refl);
          sets_search Hroom ]
    | |- is_ok (?p ?W).1 = true -> _ = localStorage _ !! ?s =>
        intros _;
        assert (Hp : emits (clock W) (fun _ => spares s) p)
          by (emits_steps; slot_side);
        destruct (Hp W eq_refl) as (evs & _ & _ & HF & _ & Hloc & _);
        rewrite Hloc; by apply replay_local_spares
    end.
Qed.

Lemma syncFromCloud_notified_pass w userId t :
  notified w (syncFromCloud userId w).2 t ->
  db w = true /\
  exists w1, download_pass userId w = (Ok tt, w1) /\
             syncFromCloud userId w = (Ok tt, announced w1).
Proof.
  destruct (db w && firebaseConfigured w) eqn:Hready.
  2: { rewrite syncFromCloud_not_ready_run by done. intros H.
       by apply not_notified_in_place in H. }
  apply andb_true_iff in Hready as [Hdb Hcfg].
  rewrite (syncFromCloud_run w userId Hdb Hcfg).
  destruct (download_pass_events (clock w) userId w eq_refl)
    as (pass & Hpass & _ & HF & _).
  assert (Hquiet : SyncComplete t ∉ pass).
  { intros Hin. rewrite Forall_forall in HF. by apply HF in Hin. }
  destruct (download_pass userId w) as [[[]|err] w1]; cbn [fst snd] in *.
  - intros _. split; [done|]. by exists w1.
  - intros (evs & Ht & Hin). cbn in Ht. rewrite Hpass, <- app_assoc in Ht.
    apply app_inv_head in Ht. subst evs.
    apply elem_of_app in Hin as [Hin|Hin]; [done|].
    apply elem_of_cons in Hin as [Hin|Hin]; [done|].
    by apply elem_of_nil in Hin.
Qed.

Lemma mirrored_not_last_sync docId slot (f : Doc -> JVal) :
  (docId, slot, f) ∈ mirrored -> slot <> LAST_SYNC.
Proof.
  unfold mirrored. intros Hin.
  repeat (apply elem_of_cons in Hin as [Hin|Hin]);
    [ injection Hin as -> -> -> .. | by apply elem_of_nil in Hin ];
    discriminate.
Qed.

(** X16.  When bulk download has notified sync-complete, each of the
    history, food history, favorites, recent foods, weight log and
    streak data slots either mirrors the user's remote document or is as
    it was.  Where the document exists, the slot holds the document
    without its [updatedAt] field -- or its [items], the empty list when
    they are missing or falsy -- whatever it held before, provided the
    Local Store takes that write; a write the Local Store refuses is
    dropped in silence, the slot keeping its old value although
    sync-complete is notified all the same.  Where the document does
    not exist, the slot is left as it was: local data is not cleared. *)
Theorem syncFromCloud_mirrors_remote (w : World) (userId t : string)
    (Hdone : notified w (syncFromCloud userId w).2 t) :
  forall docId slot f, (docId, slot, f) ∈ mirrored ->
    let after := localStorage (syncFromCloud userId w).2 in
    match remote w !! (userId, docId) with
    | Some d =>
        (after !! slot = Some (f d) \/ after !! slot = localStorage w !! slot) /\
        ((forall past, storageFull w past slot (f d) = false) ->
         after !! slot = Some (f d))
    | None => after !! slot = localStorage w !! slot
    end.
Proof.
  intros docId slot f Hin after.
  destruct (syncFromCloud_notified_pass w userId t Hdone)
    as (Hdb & w1 & Hpass & Hrun).
  assert (Hok : is_ok (download_pass userId w).1 = true) by by rewrite Hpass.
  pose proof (download_pass_mirrors w userId Hdb Hok docId slot f Hin) as Hm.
  assert (Hsame : after !! slot =
                  localStorage (download_pass userId w).2 !! slot).
  { unfold after. rewrite Hrun, Hpass. cbn.
    apply lookup_insert_ne. intros Heq. symmetry in Heq.
    by apply (mirrored_not_last_sync docId slot f Hin). }
  rewrite Hsame. exact Hm.
Qed.

Lemma notified_last w w' t :
  trace w = [] -> last (trace w') = Some (SyncComplete t) -> notified w w' t.
Proof.
  intros Hw Hl. exists (trace w'). split; [by rewrite Hw|].
  apply last_Some in Hl as [l' ->]. apply elem_of_app. right.
  apply list_elem_of_here.
Qed.

Lemma syncFromCloud_mirrors_remote_witness :
  notified (shared_world no_faults)
    (syncFromCloud "u1" (shared_world no_faults)).2
    "2025-02-23T10:00:00.000Z" /\
  localStorage (syncFromCloud "u1" (shared_world no_faults)).2
    !! FAVORITE_FOODS = Some (JArr [JStr "oats"]).
Proof.
  assert (Hdone : notified (shared_world no_faults)
                    (syncFromCloud "u1" (shared_world no_faults)).2
                    "2025-02-23T10:00:00.000Z").
  { apply notified_last; [reflexivity | vm_compute; reflexivity]. }
  split; [exact Hdone|].
  pose proof (syncFromCloud_mirrors_remote (shared_world no_faults) "u1" _
                Hdone "favorites" FAVORITE_FOODS items_or_empty) as H.
  assert (Hd : remote (shared_world no_faults) !! ("u1", "favorites") =
               Some (<["items" := JArr [JStr "oats"]]> ∅))
    by (vm_compute; reflexivity).
  cbv zeta in H. rewrite Hd in H.
  destruct H as [_ H].
  - unfold mirrored. do 2 apply list_elem_of_further. apply list_elem_of_here.
  - rewrite H by (intros; reflexivity). vm_compute. reflexivity.
Defined.

(** A full Local Store: bulk download notifies sync-complete, yet the
    favorites the remote document holds are not stored. *)
Example syncFromCloud_notifies_without_storing :
  last (trace (syncFromCloud "u1" crammed_world).2) =
    Some (SyncComplete "2025-02-23T10:00:00.000Z") /\
  remote crammed_world !! ("u1", "favorites") =
    Some (<["items" := JArr [JStr "oats"]]> ∅) /\
  localStorage (syncFromCloud "u1" crammed_world).2 !! FAVORITE_FOODS = None.
Proof. repeat split; vm_compute; reflexivity. Qed.

Lemma formatLastSync_thresholds_witness :
  7260000 - 0 < 86400000 /\
  formatLastSync 7260000 (Some 0) = Some "2h ago".
Proof.
  split; [lia|].
  destruct (formatLastSync_thresholds 7260000 0) as (_ & H & _).
  rewrite H. vm_compute. reflexivity.
Defined.

Lemma syncBridge_reports_outcome_witness :
  is_handled "recipes" = false /\
  status (syncBridge "u1" "recipes" (JArr []) idle_ui
            (fresh_world no_faults)).1 = success.
Proof.
  split; [reflexivity|].
  destruct (syncBridge_reports_outcome "u1" "recipes" (JArr []) idle_ui
              (fresh_world no_faults)) as (_ & _ & H).
  by destruct (H eq_refl) as (Hs & _).
Defined.
